(** * ORO Commerce MCP server: schema-to-tool mapping, dispatch and token handling

    A shallow embedding of the TypeScript sources
      - [src/swagger-parser.ts]  (class [SwaggerParser]),
      - [src/oro-client.ts]      (class [OroCommerceClient]),
      - [src/dynamic-client.ts]  (class [DynamicOroClient]),
      - [src/index.ts]           (the dispatch of a dynamic tool),
    followed by the properties of the specification that concern them and by
    further properties of the same code.

    Conventions of the embedding.
      - A JavaScript string is a [string]: a sequence of characters, each
        standing for one code unit.  Case conversion acts on the ASCII letters.
      - A JavaScript number that the code prints or copies is a
        [JS.safe_integer]: an integer of magnitude below 2^53, which is a
        double and prints as its decimal digits.  Clock readings and token
        lifetimes are doubles, the primitive [float] with IEEE 754 arithmetic.
      - A value typed [any] is a [JS.value].  An object is the list of its own
        properties in enumeration order, with pairwise distinct keys; it may
        own any key, the names of the members of [Object.prototype] included,
        and what the code then does through the prototype is part of the
        model: a call of [hasOwnProperty], a conversion to a string, an
        assignment under the key [__proto__], a read of a key the object does
        not own.
      - Values are read at the TypeScript types the sources declare for them
        ([openapi-types] for the schema document, [OroTokenResponse] for the
        token response, [DynamicRequestOptions] for the arguments of a call),
        with optional properties possibly missing.
      - [async] functions are run to completion: a call either returns a value
        or throws, see [JS.completion]. *)

From Stdlib Require Import Floats.
From Stdlib Require Import ZArith QArith String Ascii List Bool Lia DecimalString Sorted.
From stdpp Require Import gmap strings.

Import ListNotations.
Local Open Scope string_scope.

(** ** JavaScript values and built-ins used by the sources *)

Module JS.

(** *** Characters and strings *)

Definition code (c : ascii) : N := N_of_ascii c.

Definition is_digit (c : ascii) : bool :=
  (48 <=? code c)%N && (code c <=? 57)%N.

Definition is_upper (c : ascii) : bool :=
  (65 <=? code c)%N && (code c <=? 90)%N.

Definition is_lower (c : ascii) : bool :=
  (97 <=? code c)%N && (code c <=? 122)%N.

(** The character class [[a-zA-Z0-9]]. *)
Definition is_alnum (c : ascii) : bool :=
  is_lower c || is_upper c || is_digit c.

Definition underscore : ascii := "_"%char.

Definition is_underscore (c : ascii) : bool := Ascii.eqb c underscore.

Definition lower_char (c : ascii) : ascii :=
  if is_upper c then ascii_of_N (code c + 32) else c.

Definition upper_char (c : ascii) : ascii :=
  if is_lower c then ascii_of_N (code c - 32) else c.

Fixpoint map_chars (f : ascii -> ascii) (s : string) : string :=
  match s with
  | EmptyString => EmptyString
  | String c r => String (f c) (map_chars f r)
  end.

(** [s.toLowerCase()] and [s.toUpperCase()]. *)
Definition toLowerCase (s : string) : string := map_chars lower_char s.
Definition toUpperCase (s : string) : string := map_chars upper_char s.

(** [s.replace(/[^a-zA-Z0-9]/g, '_')]. *)
Definition replace_non_alnum (s : string) : string :=
  map_chars (fun c => if is_alnum c then c else underscore) s.

(** [s.replace(/_+/g, '_')]: every maximal run of underscores becomes one. *)
Fixpoint collapse_underscores (s : string) : string :=
  match s with
  | EmptyString => EmptyString
  | String c r =>
      if is_underscore c then
        match r with
        | String d _ =>
            if is_underscore d then collapse_underscores r
            else String underscore (collapse_underscores r)
        | EmptyString => String underscore EmptyString
        end
      else String c (collapse_underscores r)
  end.

Definition strip_leading_underscore (s : string) : string :=
  match s with
  | String c r => if is_underscore c then r else s
  | EmptyString => EmptyString
  end.

Fixpoint strip_trailing_underscore (s : string) : string :=
  match s with
  | EmptyString => EmptyString
  | String c EmptyString => if is_underscore c then EmptyString else s
  | String c r => String c (strip_trailing_underscore r)
  end.

(** [s.replace(/^_|_$/g, '')]: the scan removes an underscore at index 0,
    then an underscore that ends what is left. *)
Definition strip_edge_underscores (s : string) : string :=
  strip_trailing_underscore (strip_leading_underscore s).

(** [strip_prefix p s] is what follows [p] in [s] when [s] starts with [p]. *)
Fixpoint strip_prefix (p s : string) : option string :=
  match p with
  | EmptyString => Some s
  | String a p' =>
      match s with
      | String b s' => if Ascii.eqb a b then strip_prefix p' s' else None
      | EmptyString => None
      end
  end.

(** The first occurrence of [p] in [s]: the text before it and the text after. *)
Fixpoint split_first (p s : string) : option (string * string) :=
  match strip_prefix p s with
  | Some rest => Some (EmptyString, rest)
  | None =>
      match s with
      | EmptyString => None
      | String c r =>
          match split_first p r with
          | Some (before, rest) => Some (String c before, rest)
          | None => None
          end
      end
  end.

(** ECMAScript's GetSubstitution for a pattern without capture groups:
    [$$] is a dollar sign, [$&] the matched text, [$`] the text before the
    match, [$'] the text after it; any other dollar sign stands for itself. *)
Fixpoint getSubstitution (matched before rest template : string) : string :=
  match template with
  | EmptyString => EmptyString
  | String c t =>
      if Ascii.eqb c "$"%char then
        match t with
        | String d t' =>
            if Ascii.eqb d "$"%char then String "$"%char (getSubstitution matched before rest t')
            else if Ascii.eqb d "&"%char then matched +:+ getSubstitution matched before rest t'
            else if Ascii.eqb d "`"%char then before +:+ getSubstitution matched before rest t'
            else if Ascii.eqb d "'"%char then rest +:+ getSubstitution matched before rest t'
            else String c (getSubstitution matched before rest t)
        | EmptyString => String c EmptyString
        end
      else String c (getSubstitution matched before rest t)
  end.

(** [s.replace(p, r)] with a string pattern [p]: only the first occurrence of
    [p] is replaced, by the expansion of [r]. *)
Definition replace (s p r : string) : string :=
  match split_first p s with
  | Some (before, rest) => before +:+ getSubstitution p before rest r +:+ rest
  | None => s
  end.

(** [xs.join(sep)] on an array of strings. *)
Fixpoint join (sep : string) (xs : list string) : string :=
  match xs with
  | [] => EmptyString
  | [x] => x
  | x :: r => x +:+ sep +:+ join sep r
  end.

(** [String(n)] for an integer [n]. *)
Definition string_of_Z (n : Z) : string := NilZero.string_of_int (Z.to_int n).

Definition string_of_nat (n : nat) : string := string_of_Z (Z.of_nat n).

(** *** Numbers *)

(** [Number.MAX_SAFE_INTEGER], 2^53 - 1. *)
Definition MAX_SAFE_INTEGER : Z := 9007199254740991.

(** A number that the code prints or copies: an integer of magnitude at most
    [MAX_SAFE_INTEGER].  Every such integer is a double, and [String] prints
    it as its decimal digits.  Fractions and larger numbers are left out. *)
Record safe_integer : Type := {
  int_value :> Z;
  int_safe : (Z.abs int_value <=? MAX_SAFE_INTEGER)%Z = true
}.

(** The number written [n]; [n] is in the safe range wherever this is used. *)
Definition integer (n : Z) : safe_integer :=
  match (Z.abs n <=? MAX_SAFE_INTEGER)%Z as b
        return ((Z.abs n <=? MAX_SAFE_INTEGER)%Z = b -> safe_integer) with
  | true => fun safe => {| int_value := n; int_safe := safe |}
  | false => fun _ => {| int_value := 0; int_safe := eq_refl |}
  end eq_refl.

(** *** Completions *)

(** How a call ends: with a value, or by throwing [e]. *)
Inductive completion (E A : Type) : Type :=
  | Returns (a : A)
  | Throws (e : E).

Arguments Returns {E A} a.
Arguments Throws {E A} e.

(** What the runtime itself throws in the code at hand: a [TypeError], for a
    property read on [null] or [undefined], a call of a value that is not a
    function, or an object that has no primitive value. *)
Inductive RuntimeError : Type :=
  | TypeError.

(** [body] followed by [rest]: what [body] throws ends the whole. *)
Definition bind {E A B : Type} (body : completion E A) (rest : A -> completion E B)
  : completion E B :=
  match body with
  | Returns a => rest a
  | Throws e => Throws e
  end.

(** [try { body } catch (e) { handler(e) }]: the handler may throw in turn. *)
Definition try_catch {E E' A : Type} (body : completion E A)
    (handler : E -> completion E' A) : completion E' A :=
  match body with
  | Returns a => Returns a
  | Throws e => handler e
  end.

Section Arrays.

Context {E A B : Type}.

Variable f : A -> completion E B.

(** [xs.map(f)] for a callback that may throw: the first throw ends the loop. *)
Fixpoint traverse (xs : list A) : completion E (list B) :=
  match xs with
  | [] => Returns []
  | x :: r =>
      bind (f x) (fun y => bind (traverse r) (fun ys => Returns (y :: ys)))
  end.

Variable p : A -> completion E bool.

(** [xs.filter(p)] for a callback that may throw. *)
Fixpoint select (xs : list A) : completion E (list A) :=
  match xs with
  | [] => Returns []
  | x :: r =>
      bind (p x) (fun keep =>
        bind (select r) (fun kept => Returns (if keep then x :: kept else kept)))
  end.

End Arrays.

(** *** Values typed [any] *)

#[local] Set Warnings "-register-all".

Inductive value : Type :=
  | VUndefined
  | VNull
  | VBool (b : bool)
  | VNum (n : safe_integer)
  | VStr (s : string)
  | VArr (xs : list value)
  | VObj (fields : list (string * value)).

(** ToBoolean. *)
Definition truthy (v : value) : bool :=
  match v with
  | VUndefined | VNull => false
  | VBool b => b
  | VNum n => negb (n =? 0)%Z
  | VStr s => negb (String.eqb s EmptyString)
  | VArr _ | VObj _ => true
  end.

(** [typeof v === 'object']. *)
Definition typeof_object (v : value) : bool :=
  match v with
  | VNull | VArr _ | VObj _ => true
  | _ => false
  end.

(** [Array.isArray(v)]. *)
Definition isArray (v : value) : bool :=
  match v with
  | VArr _ => true
  | _ => false
  end.

(** [a || b]. *)
Definition or_else (a b : value) : value := if truthy a then a else b.

Fixpoint assoc (k : string) (fields : list (string * value)) : option value :=
  match fields with
  | [] => None
  | (k', v) :: r => if String.eqb k k' then Some v else assoc k r
  end.

(** The object with these fields has an own property [k]. *)
Definition owns (k : string) (fields : list (string * value)) : bool :=
  existsb (String.eqb k) (List.map fst fields).

Definition index_keys (n : nat) : list string := List.map string_of_nat (seq 0 n).

(** [Object.keys(v)] for an object or an array. *)
Definition keys (v : value) : list string :=
  match v with
  | VObj fields => List.map fst fields
  | VArr xs => index_keys (List.length xs)
  | _ => []
  end.

Fixpoint position (k : string) (ks : list string) : option nat :=
  match ks with
  | [] => None
  | k' :: r => if String.eqb k k' then Some 0%nat else option_map S (position k r)
  end.

(** [v[k]] for a value that is neither [null] nor [undefined], and a key [k]
    that the value owns or that no prototype defines; the code reads the keys
    [data] and [message] and keys that it has found to be own. *)
Definition get (k : string) (v : value) : value :=
  match v with
  | VObj fields => match assoc k fields with Some x => x | None => VUndefined end
  | VArr xs =>
      match position k (index_keys (List.length xs)) with
      | Some i => nth i xs VUndefined
      | None =>
          if String.eqb k "length" then VNum (integer (Z.of_nat (List.length xs)))
          else VUndefined
      end
  | _ => VUndefined
  end.

(** [v?.[k]]. *)
Definition get_opt (k : string) (v : value) : value :=
  match v with
  | VUndefined | VNull => VUndefined
  | _ => get k v
  end.

(** [v.hasOwnProperty(k)].  The property [hasOwnProperty] is looked up on
    [v]: on [null] and [undefined] the lookup throws; an object that owns a
    property of that name holds data there, not a function, so the call
    throws; every other value inherits the method of [Object.prototype]. *)
Definition hasOwnProperty (v : value) (k : string) : completion RuntimeError bool :=
  match v with
  | VUndefined | VNull => Throws TypeError
  | VObj fields =>
      if owns "hasOwnProperty" fields then Throws TypeError
      else Returns (owns k fields)
  | VArr xs =>
      Returns (existsb (String.eqb k) (index_keys (List.length xs)) || String.eqb k "length")
  | VStr s =>
      Returns (existsb (String.eqb k) (index_keys (String.length s)) || String.eqb k "length")
  | VBool _ | VNum _ => Returns false
  end.

(** [String(v)], which is also how a template literal prints [v].  An object
    is converted by its [toString], then by its [valueOf]: an own property
    [toString] holds data and is passed over, the [valueOf] that is left,
    inherited or own, gives no primitive, and the conversion throws; without
    an own [toString] the inherited one answers.  An array joins the
    conversions of its elements, [null] and [undefined] giving nothing. *)
Fixpoint to_str (v : value) : completion RuntimeError string :=
  match v with
  | VUndefined => Returns "undefined"
  | VNull => Returns "null"
  | VBool true => Returns "true"
  | VBool false => Returns "false"
  | VNum n => Returns (string_of_Z n)
  | VStr s => Returns s
  | VArr xs =>
      bind
        (traverse
           (fun x => match x with
                     | VUndefined | VNull => Returns EmptyString
                     | _ => to_str x
                     end) xs)
        (fun parts => Returns (join "," parts))
  | VObj fields =>
      if owns "toString" fields then Throws TypeError else Returns "[object Object]"
  end.

End JS.

(** ** [src/swagger-parser.ts]: the schema document and class [SwaggerParser] *)

Module Parser.

Import JS.

(** *** The document, as [openapi-types] declares it (OpenAPI v3) *)

(** The part of a parameter's schema fragment that the code reads. *)
Record SchemaObject : Type := {
  schema_type : option string;
  schema_format : option string
}.

Record ParameterObject : Type := {
  po_name : string;
  po_in : string;
  po_description : option string;
  po_required : option bool;
  po_schema : option SchemaObject;
  po_example : option value
}.

(** An element of [operation.parameters]: a [$ref] object or a parameter. *)
Inductive ParameterEntry : Type :=
  | ParameterRef (ref : string)
  | ParameterDef (p : ParameterObject).

Record RequestBodyObject : Type := {
  rbo_description : option string;
  rbo_required : option bool;
  rbo_content : option (list (string * value))
}.

Inductive RequestBodyEntry : Type :=
  | RequestBodyRef (ref : string)
  | RequestBodyDef (b : RequestBodyObject).

Record ResponseObject : Type := {
  ro_description : string;
  ro_content : option (list (string * value))
}.

Inductive ResponseEntry : Type :=
  | ResponseRef (ref : string)
  | ResponseDef (r : ResponseObject).

Record OperationObject : Type := {
  oo_operationId : option string;
  oo_summary : option string;
  oo_description : option string;
  oo_parameters : option (list ParameterEntry);
  oo_tags : option (list string);
  oo_requestBody : option RequestBodyEntry;
  oo_responses : option (list (string * ResponseEntry))
}.

Record ServerObject : Type := {
  so_url : string;
  so_description : option string
}.

(** The value of one field of a path item: [$ref], [summary] and
    [description] hold text, [servers] and [parameters] hold arrays, and the
    method fields ([get], [put], [post], [delete], [options], [head], [patch],
    [trace]) hold operations. *)
Inductive PathItemField : Type :=
  | FieldText (s : string)
  | FieldServers (servers : list ServerObject)
  | FieldParameters (params : list ParameterEntry)
  | FieldOperation (op : OperationObject).

(** A path item in the order [Object.entries] lists its fields. *)
Definition PathItemObject : Type := list (string * PathItemField).

Record Document : Type := {
  doc_paths : option (list (string * option PathItemObject))
}.

(** *** Endpoints and tools *)

Record SwaggerParameter : Type := {
  sp_name : string;
  sp_in : string;
  sp_description : option string;
  sp_required : bool;
  sp_schema : option SchemaObject;
  sp_example : option value
}.

Record SwaggerRequestBody : Type := {
  srb_description : option string;
  srb_required : bool;
  srb_content : list (string * value)
}.

Record SwaggerResponse : Type := {
  sr_description : string;
  sr_content : option (list (string * value))
}.

Record SwaggerEndpoint : Type := {
  path : string;
  method : string;
  operationId : string;
  summary : string;
  description : string;
  parameters : list SwaggerParameter;
  tags : list string;
  requestBody : option SwaggerRequestBody;
  responses : list (string * SwaggerResponse)
}.

(** One entry of [inputSchema.properties]. *)
Record PropertySchema : Type := {
  prop_type : string;
  prop_description : string
}.

(** The object [properties] of an input schema, a plain [{}] that
    [generateInputSchema] fills by assignment: its own properties, and the
    object that an assignment has made its prototype, if any ([None]: the
    prototype is still [Object.prototype]). *)
Record Properties : Type := {
  own : gmap string PropertySchema;
  prototype : option PropertySchema
}.

Record InputSchema : Type := {
  is_type : string;
  properties : Properties;
  required : option (list string)
}.

Record ParsedOperation : Type := {
  toolName : string;
  tool_description : string;
  inputSchema : InputSchema;
  endpoint : SwaggerEndpoint
}.

(** [x || d] for an optional string [x]: the empty string is falsy too. *)
Definition str_or (x : option string) (d : string) : string :=
  match x with
  | Some s => if String.eqb s EmptyString then d else s
  | None => d
  end.

(** [parseParameters]. *)
Fixpoint parseParameters (params : list ParameterEntry) : list SwaggerParameter :=
  match params with
  | [] => []
  | ParameterRef _ :: r => parseParameters r
  | ParameterDef p :: r =>
      {| sp_name := po_name p;
         sp_in := po_in p;
         sp_description := po_description p;
         sp_required := default false (po_required p);
         sp_schema := po_schema p;
         sp_example := po_example p |} :: parseParameters r
  end.

(** [parseRequestBody]. *)
Definition parseRequestBody (rb : option RequestBodyEntry) : option SwaggerRequestBody :=
  match rb with
  | None | Some (RequestBodyRef _) => None
  | Some (RequestBodyDef b) =>
      Some {| srb_description := rbo_description b;
              srb_required := default false (rbo_required b);
              srb_content := default [] (rbo_content b) |}
  end.

(** [parseResponses].  The result is a plain [{}] filled by assignment, so a
    response under the key [__proto__] leaves no property in it. *)
Fixpoint parseResponses (rs : list (string * ResponseEntry)) : list (string * SwaggerResponse) :=
  match rs with
  | [] => []
  | (_, ResponseRef _) :: r => parseResponses r
  | (code, ResponseDef x) :: r =>
      if String.eqb code "__proto__" then parseResponses r
      else
        (code, {| sr_description := ro_description x; sr_content := ro_content x |})
          :: parseResponses r
  end.

(** The test [!operation || typeof operation !== 'object'] of the inner loop
    of [getAllEndpoints]: text is not an object; arrays and operations are
    objects, and truthy even when empty. *)
Definition not_an_object (f : PathItemField) : bool :=
  match f with
  | FieldText _ => true
  | FieldServers _ | FieldParameters _ | FieldOperation _ => false
  end.

Definition empty_operation : OperationObject :=
  {| oo_operationId := None; oo_summary := None; oo_description := None;
     oo_parameters := None; oo_tags := None; oo_requestBody := None;
     oo_responses := None |}.

(** [operation as OpenAPIV3.OperationObject]: the cast changes nothing at run
    time, and an array has none of the properties the code then reads. *)
Definition as_operation (f : PathItemField) : OperationObject :=
  match f with
  | FieldOperation op => op
  | FieldText _ | FieldServers _ | FieldParameters _ => empty_operation
  end.

(** The endpoint pushed for the field [key] of the path item at [p]. *)
Definition make_endpoint (p key : string) (op : OperationObject) : SwaggerEndpoint :=
  {| path := p;
     method := toUpperCase key;
     operationId := str_or (oo_operationId op) (key +:+ "_" +:+ replace_non_alnum p);
     summary := str_or (oo_summary op) "";
     description := str_or (oo_description op) "";
     parameters := parseParameters (default [] (oo_parameters op));
     tags := default [] (oo_tags op);
     requestBody := parseRequestBody (oo_requestBody op);
     responses := parseResponses (default [] (oo_responses op)) |}.

(** The inner loop of [getAllEndpoints], over the fields of one path item. *)
Fixpoint endpoints_of_item (p : string) (item : PathItemObject) : list SwaggerEndpoint :=
  match item with
  | [] => []
  | (key, f) :: r =>
      if not_an_object f || String.eqb key "parameters"
      then endpoints_of_item p r
      else make_endpoint p key (as_operation f) :: endpoints_of_item p r
  end.

(** The outer loop of [getAllEndpoints], over the entries of [paths]. *)
Fixpoint endpoints_of_paths (ps : list (string * option PathItemObject)) : list SwaggerEndpoint :=
  match ps with
  | [] => []
  | (_, None) :: r => endpoints_of_paths r
  | (p, Some item) :: r => (endpoints_of_item p item ++ endpoints_of_paths r)%list
  end.

(** [getAllEndpoints]. *)
Definition getAllEndpoints (doc : Document) : list SwaggerEndpoint :=
  endpoints_of_paths (default [] (doc_paths doc)).

(** [shouldSkipEndpoint]. *)
Definition shouldSkipEndpoint (e : SwaggerEndpoint) : bool :=
  if String.eqb (method e) "OPTIONS" then true
  else if String.eqb (method e) "HEAD" then true
  else false.

(** [s.split('/')]. *)
Fixpoint split_slash (s : string) : list string :=
  match s with
  | EmptyString => [EmptyString]
  | String c r =>
      if Ascii.eqb c "/"%char then EmptyString :: split_slash r
      else
        match split_slash r with
        | h :: t => String c h :: t
        | [] => [String c EmptyString]
        end
  end.

Definition starts_with_brace (s : string) : bool :=
  match s with
  | String c _ => Ascii.eqb c "{"%char
  | EmptyString => false
  end.

(** [s.replace(/[{}]/g, '')]. *)
Fixpoint remove_braces (s : string) : string :=
  match s with
  | EmptyString => EmptyString
  | String c r =>
      if Ascii.eqb c "{"%char || Ascii.eqb c "}"%char then remove_braces r
      else String c (remove_braces r)
  end.

(** The clean-up chain that ends [generateToolName]:
    [.replace(/[^a-zA-Z0-9]/g, '_').replace(/_+/g, '_').replace(/^_|_$/g, '').toLowerCase()]. *)
Definition normalize (name : string) : string :=
  toLowerCase (strip_edge_underscores (collapse_underscores (replace_non_alnum name))).

(** The name [generateToolName] falls back on when [operationId] is empty. *)
Definition fallback_name (e : SwaggerEndpoint) : string :=
  let pathParts :=
    List.filter (fun p => negb (String.eqb p EmptyString) && negb (starts_with_brace p))
           (split_slash (path e)) in
  let resourceName := str_or (last pathParts) "resource" in
  toLowerCase (method e) +:+ "_" +:+ resourceName.

(** [generateToolName]. *)
Definition generateToolName (e : SwaggerEndpoint) : string :=
  let name :=
    if String.eqb (operationId e) EmptyString then fallback_name e else operationId e in
  normalize name.

(** [generateToolDescription]. *)
Definition generateToolDescription (e : SwaggerEndpoint) : string :=
  let description := str_or (Some (summary e)) (str_or (Some (description e)) "") in
  let description :=
    if String.eqb description EmptyString then
      let resourceName :=
        str_or (option_map remove_braces (last (split_slash (path e))))
               "resource" in
      method e +:+ " " +:+ resourceName +:+ " from ORO Commerce API"
    else description in
  let description :=
    description +:+ "\n\n**Endpoint:** " +:+ method e +:+ " " +:+ path e in
  if (0 <? List.length (tags e))%nat
  then description +:+ "\n**Categories:** " +:+ join ", " (tags e)
  else description.

(** [convertSwaggerTypeToJsonSchema]. *)
Definition convertSwaggerTypeToJsonSchema (schema : option SchemaObject) : string :=
  match schema with
  | None => "string"
  | Some sc =>
      let ty := str_or (schema_type sc) "" in
      if negb (String.eqb ty EmptyString) then ty
      else if bool_decide (schema_format sc = Some "int32")
              || bool_decide (schema_format sc = Some "int64")
      then "integer"
      else "string"
  end.

(** [const properties: any = {}]. *)
Definition no_properties : Properties := {| own := ∅; prototype := None |}.

(** [properties[name] = schema].  The key [__proto__] names the accessor that
    [properties] inherits from [Object.prototype]: the assignment calls its
    setter, which makes [schema] the prototype of [properties] and adds no own
    property.  Under any other key the assignment sets an own property. *)
Definition assign (name : string) (schema : PropertySchema) (props : Properties)
  : Properties :=
  if String.eqb name "__proto__"
  then {| own := own props; prototype := Some schema |}
  else {| own := <[name := schema]> (own props); prototype := prototype props |}.

(** [properties[name]] when it is a property schema: an own property, or,
    under the key [__proto__], the prototype that an assignment has set.
    Whatever else the read finds up the prototype chain (a method of
    [Object.prototype], [Object.prototype] itself, the [type] or [description]
    text of a prototype that was set) has no property [type]. *)
Definition property (props : Properties) (name : string) : option PropertySchema :=
  match own props !! name with
  | Some schema => Some schema
  | None => if String.eqb name "__proto__" then prototype props else None
  end.

(** One round of a parameter loop of [generateInputSchema]: the name joins
    [required] when the parameter is required, and is assigned in
    [properties] in any case. *)
Definition add_parameter (acc : Properties * list string)
    (param : SwaggerParameter) : Properties * list string :=
  let '(props, req) := acc in
  (assign (sp_name param)
     {| prop_type := convertSwaggerTypeToJsonSchema (sp_schema param);
        prop_description := str_or (sp_description param) (sp_name param +:+ " parameter") |}
     props,
   if sp_required param then (req ++ [sp_name param])%list else req).

Definition param_in (loc : string) (p : SwaggerParameter) : bool :=
  String.eqb (sp_in p) loc.

(** The [if] that adds the request body to the schema. *)
Definition add_request_body (acc : Properties * list string)
    (rb : option SwaggerRequestBody) : Properties * list string :=
  let '(props, req) := acc in
  match rb with
  | Some b =>
      if srb_required b then
        (assign "requestBody"
           {| prop_type := "object";
              prop_description := str_or (srb_description b) "Request body data" |}
           props,
         (req ++ ["requestBody"])%list)
      else acc
  | None => acc
  end.

(** [generateInputSchema]. *)
Definition generateInputSchema (e : SwaggerEndpoint) : InputSchema :=
  let acc := (no_properties, []) in
  let acc := fold_left add_parameter (List.filter (param_in "path") (parameters e)) acc in
  let acc := fold_left add_parameter (List.filter (param_in "query") (parameters e)) acc in
  let '(props, req) := add_request_body acc (requestBody e) in
  {| is_type := "object";
     properties := props;
     required := if (0 <? List.length req)%nat then Some req else None |}.

Definition make_tool (e : SwaggerEndpoint) : ParsedOperation :=
  {| toolName := generateToolName e;
     tool_description := generateToolDescription e;
     inputSchema := generateInputSchema e;
     endpoint := e |}.

(** [generateMCPTools]. *)
Fixpoint generateMCPTools (endpoints : list SwaggerEndpoint) : list ParsedOperation :=
  match endpoints with
  | [] => []
  | e :: r =>
      if shouldSkipEndpoint e then generateMCPTools r
      else make_tool e :: generateMCPTools r
  end.

End Parser.

(** ** [src/oro-client.ts]: class [OroCommerceClient], the token manager *)

Module OroClient.

Import JS.

Record OroConfig : Type := {
  shopUrl : string;
  clientId : string;
  clientSecret : string
}.

(** An HTTP request as handed to [axios]: the data is a plain object. *)
Record HttpRequest : Type := {
  req_method : string;
  req_url : string;
  req_data : list (string * string);
  req_headers : list (string * string)
}.

(** The body of a response of the token endpoint, read at the type
    [OroTokenResponse] with either property possibly missing.  [BodyNull] is
    a [null] body; text has no property at all. *)
Inductive TokenBody : Type :=
  | BodyNull
  | BodyText (s : string)
  | BodyObject (access_token : option string) (expires_in : option float).

(** What the network does with a request. *)
Inductive HttpResult : Type :=
  | NetworkError
  | HttpResponse (status : Z) (body : TokenBody).

(** [axios] resolves the promise of a request exactly when a response came
    back with a status in 200..299 (its default [validateStatus]), and rejects
    it otherwise. *)
Definition axios_settle (r : HttpResult) : option TokenBody :=
  match r with
  | NetworkError => None
  | HttpResponse status body =>
      if (200 <=? status)%Z && (status <? 300)%Z then Some body else None
  end.

(** How [axios] serializes data given as a plain object (its default
    [transformRequest]): as a form when the content type names
    [application/x-www-form-urlencoded], as JSON otherwise. *)
Inductive Encoding : Type :=
  | JsonEncoded
  | FormUrlEncoded.

Definition content_type (r : HttpRequest) : option string :=
  option_map snd (List.find (fun h => String.eqb (fst h) "Content-Type") (req_headers r)).

Definition contains (s p : string) : bool :=
  match split_first p s with
  | Some _ => true
  | None => false
  end.

Definition wire_encoding (r : HttpRequest) : Encoding :=
  match content_type r with
  | Some ct =>
      if contains ct "application/x-www-form-urlencoded" then FormUrlEncoded
      else JsonEncoded
  | None => JsonEncoded
  end.

(** The fields [token] and [tokenExpiry]; [None] is [null] or [undefined].
    A time is a number of seconds, a double. *)
Record TokenState : Type := {
  token : option string;
  tokenExpiry : option float
}.

Definition initial_state : TokenState := {| token := None; tokenExpiry := None |}.

(** A run of a method of the client: how it ended, the fields afterwards and
    the requests it sent, in order. *)
Record Run : Type := {
  result : completion string unit;
  state : TokenState;
  sent : list HttpRequest
}.

(** The call [axios.post(url, data, config)] of [refreshToken]. *)
Definition token_request (config : OroConfig) : HttpRequest :=
  {| req_method := "POST";
     req_url := shopUrl config +:+ "/oauth2-token";
     req_data := [("grant_type", "client_credentials");
                  ("client_id", clientId config);
                  ("client_secret", clientSecret config)];
     req_headers := [("Content-Type", "application/json")] |}.

Definition authentication_failed : string :=
  "Authentication failed with ORO Commerce API".

(** [(Date.now() / 1000) + tokenData.expires_in - 300] where [T] is the value
    of [Date.now() / 1000]: two operations on doubles, each rounded to the
    nearest double.  A missing [expires_in] is [undefined], and the sum is
    NaN. *)
Definition expiry_of (T : float) (expires_in : option float) : float :=
  match expires_in with
  | Some e => (T + e - 300)%float
  | None => nan
  end.

(** [refreshToken], where [T] is the clock reading when the response is read.
    Reading a property of a [null] body throws inside the [try], before any
    assignment. *)
Definition refreshToken (config : OroConfig) (net : HttpRequest -> HttpResult)
    (T : float) (st : TokenState) : Run :=
  let req := token_request config in
  match axios_settle (net req) with
  | None =>
      {| result := Throws authentication_failed; state := st; sent := [req] |}
  | Some BodyNull =>
      {| result := Throws authentication_failed; state := st; sent := [req] |}
  | Some (BodyText _) =>
      {| result := Returns tt;
         state := {| token := None; tokenExpiry := Some nan |};
         sent := [req] |}
  | Some (BodyObject access_token expires_in) =>
      {| result := Returns tt;
         state := {| token := access_token; tokenExpiry := Some (expiry_of T expires_in) |};
         sent := [req] |}
  end.

(** [!this.token]. *)
Definition no_token (st : TokenState) : bool :=
  match token st with
  | Some s => String.eqb s EmptyString
  | None => true
  end.

(** ToBoolean of a number: zero, of either sign, and NaN are falsy. *)
Definition truthy_number (x : float) : bool :=
  negb (x =? 0)%float && negb (is_nan x).

(** [this.tokenExpiry && now >= this.tokenExpiry]. *)
Definition expired (now : float) (st : TokenState) : bool :=
  match tokenExpiry st with
  | Some e => truthy_number e && (e <=? now)%float
  | None => false
  end.

(** [ensureValidToken], called at clock reading [now]. *)
Definition ensureValidToken (config : OroConfig) (net : HttpRequest -> HttpResult)
    (now T : float) (st : TokenState) : Run :=
  if no_token st || expired now st
  then refreshToken config net T st
  else {| result := Returns tt; state := st; sent := [] |}.

End OroClient.

(** ** [src/dynamic-client.ts]: class [DynamicOroClient], dispatch and formatting *)

Module Dynamic.

Import JS.
Import Parser.

(** A value of [pathParams]: [string | number]. *)
Inductive PathValue : Type :=
  | PathStr (s : string)
  | PathNum (n : safe_integer).

(** [String(value)]. *)
Definition String_of (v : PathValue) : string :=
  match v with
  | PathStr s => s
  | PathNum n => string_of_Z n
  end.

(** [DynamicRequestOptions]; objects are listed in [Object.entries] order and
    an absent [requestBody] is [VUndefined]. *)
Record DynamicRequestOptions : Type := {
  pathParams : option (list (string * PathValue));
  queryParams : option (list (string * value));
  requestBody : value;
  headers : option (list (string * string))
}.

Definition no_options : DynamicRequestOptions :=
  {| pathParams := None; queryParams := None; requestBody := VUndefined; headers := None |}.

Record EndpointEcho : Type := {
  echo_path : string;
  echo_method : string;
  echo_operationId : string
}.

(** [DynamicResponse]; absent [data] is [VUndefined]. *)
Record DynamicResponse : Type := {
  success : bool;
  data : value;
  error : option string;
  statusCode : option safe_integer;
  endpoint : EndpointEcho
}.

(** The [config] object given to [axiosClient.request]. *)
Record RequestConfig : Type := {
  cfg_method : string;
  cfg_url : string;
  cfg_headers : list (string * string);
  cfg_params : option (list (string * value));
  cfg_data : option value
}.

Record AxiosResponse : Type := {
  resp_data : value;
  resp_status : safe_integer
}.

(** The [response] that an error may carry, as far as the code reads it. *)
Record ErrorResponse : Type := {
  er_status : option safe_integer;
  er_statusText : value;
  er_data : value
}.

(** A thrown value that has properties: an [Error], an [AxiosError], any
    other object, or a primitive other than [null] and [undefined], whose
    properties [response] and [message] are then [undefined]. *)
Record Error : Type := {
  err_response : option ErrorResponse;
  err_message : value
}.

(** What a [catch (error: any)] may receive from the transport. *)
Inductive Rejection : Type :=
  | RejectNullish
  | RejectError (err : Error).

(** The transport, [axiosClient.request] with its interceptors. *)
Definition Transport : Type := RequestConfig -> completion Rejection AxiosResponse.

(** One round of the path-parameter loop: [url.replace(`{${key}}`, String(value))]. *)
Definition substitute (url : string) (entry : string * PathValue) : string :=
  replace url ("{" +:+ fst entry +:+ "}") (String_of (snd entry)).

(** The URL that [executeEndpoint] builds. *)
Definition build_url (template : string) (params : option (list (string * PathValue))) : string :=
  match params with
  | Some entries => fold_left substitute entries template
  | None => template
  end.

Definition echo (e : SwaggerEndpoint) : EndpointEcho :=
  {| echo_path := path e; echo_method := method e; echo_operationId := operationId e |}.

(** The request configuration that [executeEndpoint] prepares. *)
Definition build_config (e : SwaggerEndpoint) (options : DynamicRequestOptions) : RequestConfig :=
  {| cfg_method := toLowerCase (method e);
     cfg_url := build_url (path e) (pathParams options);
     cfg_headers := default [] (headers options);
     cfg_params :=
       match queryParams options with
       | Some q => if (0 <? List.length q)%nat then Some q else None
       | None => None
       end;
     cfg_data :=
       if truthy (requestBody options)
          && existsb (String.eqb (method e)) ["POST"; "PUT"; "PATCH"]
       then Some (requestBody options) else None |}.

(** [error.response?.data?.message || error.message || 'Unknown error']. *)
Definition errorMessage (err : Error) : value :=
  or_else
    (or_else
       (match err_response err with
        | Some r => get_opt "message" (er_data r)
        | None => VUndefined
        end)
       (err_message err))
    (VStr "Unknown error").

(** The [catch] block of [executeEndpoint].  It throws in turn when it reads
    [error.response] of [null] or [undefined], and when the template literal
    converts a message that has no primitive value. *)
Definition failure_of (e : SwaggerEndpoint) (error : Rejection)
  : completion RuntimeError DynamicResponse :=
  match error with
  | RejectNullish => Throws TypeError
  | RejectError err =>
      let statusCode :=
        match err_response err with
        | Some r => er_status r
        | None => None
        end in
      bind (to_str (errorMessage err)) (fun text =>
        Returns {| success := false;
                   data := VUndefined;
                   error := Some ("API call failed: " +:+ text);
                   statusCode := statusCode;
                   endpoint := echo e |})
  end.

(** [executeEndpoint]. *)
Definition executeEndpoint (request : Transport) (e : SwaggerEndpoint)
    (options : DynamicRequestOptions) : completion RuntimeError DynamicResponse :=
  try_catch
    (match request (build_config e options) with
     | Returns response =>
         Returns {| success := true;
                    data := resp_data response;
                    error := None;
                    statusCode := Some (resp_status response);
                    endpoint := echo e |}
     | Throws error => Throws error
     end)
    (failure_of e).

(** [availableTools.find(t => t.toolName === toolName)]. *)
Definition find_tool (availableTools : list ParsedOperation) (name : string)
  : option ParsedOperation :=
  List.find (fun t => String.eqb (toolName t) name) availableTools.

(** [executeTool]. *)
Definition executeTool (request : Transport) (availableTools : list ParsedOperation)
    (name : string) (args : DynamicRequestOptions) : completion RuntimeError DynamicResponse :=
  match find_tool availableTools name with
  | None =>
      Returns {| success := false;
                 data := VUndefined;
                 error := Some ("Tool '" +:+ name +:+ "' not found. Available tools: "
                                +:+ join ", " (List.map toolName availableTools));
                 statusCode := None;
                 endpoint := {| echo_path := ""; echo_method := ""; echo_operationId := "" |} |}
  | Some tool => executeEndpoint request (Parser.endpoint tool) args
  end.

Definition keyFields : list string := ["id"; "name"; "title"; "sku"; "email"; "status"].

(** [`${key}: ${item[key]}`]. *)
Definition field_text (item : value) (key : string) : completion RuntimeError string :=
  bind (to_str (get key item)) (fun text => Returns (key +:+ ": " +:+ text)).

(** [formatItem].  The key fields that the item owns are all converted
    before [slice] keeps three of them. *)
Definition formatItem (item : value) : completion RuntimeError string :=
  if negb (truthy item) || negb (typeof_object item) then to_str item
  else
    bind (select (hasOwnProperty item) keyFields) (fun present =>
      bind (traverse (field_text item) present) (fun texts =>
        let display := join ", " (firstn 3 texts) in
        if negb (String.eqb display EmptyString) then Returns display
        else
          bind (traverse (field_text item) (firstn 3 (keys item))) (fun texts =>
            Returns (join ", " texts)))).

Definition print_status (s : option safe_integer) : string :=
  match s with
  | Some n => string_of_Z n
  | None => "undefined"
  end.

Definition print_error (s : option string) : string :=
  match s with
  | Some m => m
  | None => "undefined"
  end.

(** The lines that open the text of a successful response.  The source
    writes the separators as [\\n] inside template literals, an escaped
    backslash followed by [n]: the text holds these two characters. *)
Definition success_header (response : DynamicResponse) (itemCount : nat) : string :=
  "✅ Success: " +:+ echo_operationId (endpoint response) +:+ "\n" +:+
  "Endpoint: " +:+ echo_method (endpoint response) +:+ " " +:+
     echo_path (endpoint response) +:+ "\n" +:+
  "Status: " +:+ print_status (statusCode response) +:+ "\n" +:+
  "Items: " +:+ string_of_nat itemCount +:+ "\n\n".

(** [`${index + 1}. ${this.formatItem(item)}`]. *)
Definition preview_line (entry : nat * value) : completion RuntimeError string :=
  bind (formatItem (snd entry)) (fun text =>
    Returns (string_of_nat (fst entry + 1) +:+ ". " +:+ text)).

(** [data.slice(0, 3).map((item, index) => ...).join('\\n')]. *)
Definition preview (items : list value) : completion RuntimeError string :=
  bind
    (traverse preview_line
       (combine (seq 0 (List.length (firstn 3 items))) (firstn 3 items)))
    (fun lines => Returns (join "\n" lines)).

(** The elements of [data] when it is an array. *)
Definition elements (data : value) : list value :=
  match data with
  | VArr items => items
  | _ => []
  end.

(** [formatResponse]. *)
Definition formatResponse (response : DynamicResponse) : completion RuntimeError string :=
  if negb (success response) then
    Returns
      ("❌ Error: " +:+ print_error (error response) +:+ "\n" +:+
       "Endpoint: " +:+ echo_method (endpoint response) +:+ " " +:+
          echo_path (endpoint response) +:+ "\n" +:+
       "Status Code: " +:+
          match statusCode response with
          | Some n => if (n =? 0)%Z then "Unknown" else string_of_Z n
          | None => "Unknown"
          end)
  else
    let data := or_else (get_opt "data" (data response)) (data response) in
    let isArray := isArray data in
    let length := List.length (elements data) in
    let itemCount := if isArray then length else 1%nat in
    let result := success_header response itemCount in
    if isArray && (0 <? length)%nat then
      bind (preview (elements data)) (fun shown =>
        let result := result +:+ shown in
        Returns
          (if (3 <? length)%nat
           then result +:+ "\n... and " +:+ string_of_nat (length - 3) +:+ " more items"
           else result))
    else if negb isArray && truthy data then
      bind (formatItem data) (fun shown => Returns (result +:+ shown))
    else Returns (result +:+ "No data returned").

End Dynamic.

(** ** Further built-ins *)

Module Builtins.

Import JS.

(** [s.includes(p)]. *)
Definition includes (s p : string) : bool :=
  match split_first p s with
  | Some _ => true
  | None => false
  end.

(** [typeof v]. *)
Definition typeof (v : value) : string :=
  match v with
  | VUndefined => "undefined"
  | VNull | VArr _ | VObj _ => "object"
  | VBool _ => "boolean"
  | VNum _ => "number"
  | VStr _ => "string"
  end.

(** The characters of a string, each as a string of length one. *)
Fixpoint chars (s : string) : list value :=
  match s with
  | EmptyString => []
  | String c r => VStr (String c EmptyString) :: chars r
  end.

(** [Object.entries(v)] for a value that is neither [null] nor [undefined]:
    the fields of an object, the indexed elements of an array, the indexed
    characters of a string, nothing for a number or a boolean. *)
Definition entries (v : value) : list (string * value) :=
  match v with
  | VObj fields => fields
  | VArr xs => combine (index_keys (List.length xs)) xs
  | VStr s => combine (index_keys (String.length s)) (chars s)
  | _ => []
  end.

(** [set.add(x)] on a [Set] kept in insertion order. *)
Definition set_add (seen : list string) (x : string) : list string :=
  if existsb (String.eqb x) seen then seen else (seen ++ [x])%list.

Fixpoint insert_sorted (x : string) (l : list string) : list string :=
  match l with
  | [] => [x]
  | y :: r => if String.leb x y then x :: l else y :: insert_sorted x r
  end.

(** [xs.sort()] on strings: ascending in the order of the code units. *)
Definition sort (xs : list string) : list string := fold_right insert_sorted [] xs.

End Builtins.

(** ** [src/swagger-parser.ts]: the endpoint filters of [SwaggerParser] *)

Module Queries.

Import JS Parser Builtins.

(** [tags.some(tag => wanted.includes(tag))]. *)
Definition some_tag_in (wanted ts : list string) : bool :=
  existsb (fun tag => existsb (String.eqb tag) wanted) ts.

(** [getEndpointsByTags]. *)
Definition getEndpointsByTags (doc : Document) (wanted : list string) : list SwaggerEndpoint :=
  List.filter (fun e => some_tag_in wanted (tags e)) (getAllEndpoints doc).

(** [getReadOnlyEndpoints]. *)
Definition getReadOnlyEndpoints (doc : Document) : list SwaggerEndpoint :=
  List.filter (fun e => String.eqb (method e) "GET") (getAllEndpoints doc).

Definition popularTags : list string :=
  ["accounts"; "b2bcustomers"; "orders"; "products";
   "categories"; "inventorylevels"; "rfqs"].

Definition popular (e : SwaggerEndpoint) : bool :=
  some_tag_in popularTags (tags e)
  || existsb (fun tag => includes (path e) tag) popularTags.

(** [getPopularEndpoints]. *)
Definition getPopularEndpoints (doc : Document) : list SwaggerEndpoint :=
  firstn 50 (List.filter popular (getReadOnlyEndpoints doc)).

End Queries.

(** ** [src/dynamic-client.ts]: the catalog queries of [DynamicOroClient] *)

Module Catalog.

Import JS Parser Builtins.

(** The predicate of [searchTools], for the query already in lower case. *)
Definition matches (lowercaseQuery : string) (tool : ParsedOperation) : bool :=
  includes (toolName tool) lowercaseQuery
  || includes (toLowerCase (tool_description tool)) lowercaseQuery
  || existsb (fun tag => includes (toLowerCase tag) lowercaseQuery) (tags (endpoint tool)).

(** [searchTools]. *)
Definition searchTools (availableTools : list ParsedOperation) (query : string)
  : list ParsedOperation :=
  let lowercaseQuery := toLowerCase query in
  List.filter (matches lowercaseQuery) availableTools.

(** [getToolsByCategory]. *)
Definition getToolsByCategory (availableTools : list ParsedOperation) (category : string)
  : list ParsedOperation :=
  List.filter (fun tool => existsb (String.eqb category) (tags (endpoint tool))) availableTools.

(** The [Set] that [getAvailableCategories] fills, in insertion order. *)
Definition collect_categories (availableTools : list ParsedOperation) : list string :=
  fold_left (fun seen tool => fold_left set_add (tags (endpoint tool)) seen)
    availableTools [].

(** [getAvailableCategories]. *)
Definition getAvailableCategories (availableTools : list ParsedOperation) : list string :=
  sort (collect_categories availableTools).

(** The methods that a plain [{}] inherits from [Object.prototype]. *)
Definition inherited_methods : list string :=
  ["constructor"; "hasOwnProperty"; "isPrototypeOf"; "propertyIsEnumerable";
   "toLocaleString"; "toString"; "valueOf";
   "__defineGetter__"; "__defineSetter__"; "__lookupGetter__"; "__lookupSetter__"].

(** A value stored in [byMethod] or [byCategory]: a count, or the text that
    comes of adding 1 to a function, which is the source text of the function
    followed by as many digits [1] as there were additions. *)
Inductive Counter : Type :=
  | Count (n : nat)
  | FunctionText (ones : nat).

(** [counts[k] = (counts[k] || 0) + 1] on a plain [{}].  The read goes up the
    prototype chain when [counts] has no own property [k]: under the name of
    an inherited method it finds a function, which is truthy, and the sum is
    text; under [__proto__] it finds [Object.prototype], the sum is text
    again, and the assignment hands it to the setter of [__proto__], which
    ignores what is not an object: nothing is stored. *)
Definition bump (counts : gmap string Counter) (k : string) : gmap string Counter :=
  if String.eqb k "__proto__" then counts
  else
    match counts !! k with
    | Some (Count n) => <[k := Count (n + 1)]> counts
    | Some (FunctionText ones) => <[k := FunctionText (ones + 1)]> counts
    | None =>
        if existsb (String.eqb k) inherited_methods
        then <[k := FunctionText 1]> counts
        else <[k := Count 1]> counts
    end.

Record EndpointStatistics : Type := {
  totalEndpoints : nat;
  byMethod : gmap string Counter;
  byCategory : gmap string Counter;
  withKitItems : nat;
  withOrders : nat;
  withProducts : nat;
  relationships : nat;
  categories : list string
}.

(** [if (path.includes(word)) counter++]. *)
Definition count_if (p word : string) (counter : nat) : nat :=
  if includes p word then S counter else counter.

(** One round of the [forEach] of [getEndpointStatistics]. *)
Definition tally (stats : EndpointStatistics) (tool : ParsedOperation) : EndpointStatistics :=
  let p := toLowerCase (path (endpoint tool)) in
  {| totalEndpoints := totalEndpoints stats;
     byMethod := bump (byMethod stats) (method (endpoint tool));
     byCategory := fold_left bump (tags (endpoint tool)) (byCategory stats);
     withKitItems := count_if p "kititem" (withKitItems stats);
     withOrders := count_if p "order" (withOrders stats);
     withProducts := count_if p "product" (withProducts stats);
     relationships := count_if p "relationship" (relationships stats);
     categories := categories stats |}.

(** [getEndpointStatistics]. *)
Definition getEndpointStatistics (availableTools : list ParsedOperation) : EndpointStatistics :=
  fold_left tally availableTools
    {| totalEndpoints := List.length availableTools;
       byMethod := ∅;
       byCategory := ∅;
       withKitItems := 0;
       withOrders := 0;
       withProducts := 0;
       relationships := 0;
       categories := getAvailableCategories availableTools |}.

End Catalog.

(** ** [src/dynamic-client.ts]: [validateToolArguments] *)

Module Validation.

Import JS Parser Builtins.

Record ValidationResult : Type := {
  valid : bool;
  errors : list string
}.

(** [errors.length === 0] decides [valid]. *)
Definition verdict (errors : list string) : ValidationResult :=
  {| valid := (List.length errors =? 0)%nat; errors := errors |}.

(** The loop over [schema.required]: the messages it pushes, unless a call
    of [args.hasOwnProperty] throws. *)
Fixpoint check_required (args : value) (required : list string)
  : completion RuntimeError (list string) :=
  match required with
  | [] => Returns []
  | requiredField :: rest =>
      bind (hasOwnProperty args requiredField) (fun present =>
        bind (check_required args rest) (fun errors =>
          Returns (if present then errors
                   else ("Missing required field: " +:+ requiredField) :: errors)))
  end.

(** [fieldSchema.type === 'integer' ? 'number' : fieldSchema.type]. *)
Definition expected_type (ty : string) : string :=
  if String.eqb ty "integer" then "number" else ty.

(** The body of the loop over [Object.entries(args)]. *)
Definition check_field (props : Properties) (field : string * value)
  : list string :=
  match property props (fst field) with
  | Some fieldSchema =>
      if negb (String.eqb (prop_type fieldSchema) EmptyString) then
        let actualType := typeof (snd field) in
        let expectedType := expected_type (prop_type fieldSchema) in
        if negb (String.eqb actualType expectedType) then
          ["Field '" +:+ fst field +:+ "' should be " +:+ expectedType
           +:+ ", got " +:+ actualType]
        else []
      else []
  | None => []
  end.

(** The type check, run when [args] is truthy. *)
Definition check_types (props : Properties) (args : value) : list string :=
  if truthy args then flat_map (check_field props) (entries args) else [].

(** [validateToolArguments]. *)
Definition validateToolArguments (availableTools : list ParsedOperation)
    (name : string) (args : value) : completion RuntimeError ValidationResult :=
  match Dynamic.find_tool availableTools name with
  | None =>
      Returns {| valid := false; errors := ["Tool '" +:+ name +:+ "' not found"] |}
  | Some tool =>
      let schema := inputSchema tool in
      bind
        (match required schema with
         | Some names => check_required args names
         | None => Returns []
         end)
        (fun missing =>
           Returns (verdict (missing ++ check_types (properties schema) args)%list))
  end.

End Validation.

(** ** [src/oro-client.ts]: the request interceptor of [OroCommerceClient] *)

Module Pipeline.

Import JS OroClient Dynamic.

(** [headers[k] = v] on an object: the value of an existing key is replaced
    in place, a new key goes last. *)
Fixpoint set_header (k v : string) (hs : list (string * string)) : list (string * string) :=
  match hs with
  | [] => [(k, v)]
  | (k', v') :: r =>
      if String.eqb k k' then (k, v) :: r else (k', v') :: set_header k v r
  end.

Definition get_header (k : string) (hs : list (string * string)) : option string :=
  option_map snd (List.find (fun h => String.eqb k (fst h)) hs).

(** A request through the client: how it ended, the token fields afterwards
    and the token requests that were sent. *)
Record Exchange : Type := {
  outcome : completion Rejection AxiosResponse;
  client_state : TokenState;
  token_requests : list HttpRequest
}.

(** [new Error(message)]. *)
Definition error_of (message : string) : Rejection :=
  RejectError {| err_response := None; err_message := VStr message |}.

Definition authorize (st : TokenState) (cfg : RequestConfig) : RequestConfig :=
  match token st with
  | Some t =>
      if String.eqb t EmptyString then cfg
      else
        {| cfg_method := cfg_method cfg;
           cfg_url := cfg_url cfg;
           cfg_headers := set_header "Authorization" ("Bearer " +:+ t) (cfg_headers cfg);
           cfg_params := cfg_params cfg;
           cfg_data := cfg_data cfg |}
  | None => cfg
  end.

(** A request through [this.axios]: the request interceptor awaits
    [ensureValidToken] and adds the bearer token when there is one; then
    [send], the rest of the transport, takes the request.  An error thrown by
    the interceptor rejects the request before it is sent. *)
Definition client_request (config : OroConfig) (net : HttpRequest -> HttpResult)
    (now T : float) (send : Transport) (st : TokenState) (cfg : RequestConfig) : Exchange :=
  let run := ensureValidToken config net now T st in
  {| outcome :=
       match result run with
       | Returns _ => send (authorize (state run) cfg)
       | Throws message => Throws (error_of message)
       end;
     client_state := state run;
     token_requests := sent run |}.

(** The transport that [DynamicOroClient] is given, for one request. *)
Definition transport (config : OroConfig) (net : HttpRequest -> HttpResult)
    (now T : float) (send : Transport) (st : TokenState) : Transport :=
  fun cfg => outcome (client_request config net now T send st cfg).

(** The default headers of the [axios] instance of the client. *)
Definition instance_headers : list (string * string) :=
  [("Content-Type", "application/json");
   ("X-Include", "noHateoas;totalCount");
   ("X-Integration-Type", "ERP")].

(** The request of [this.axios.get(url)]. *)
Definition get_config (url : string) : RequestConfig :=
  {| cfg_method := "get";
     cfg_url := url;
     cfg_headers := instance_headers;
     cfg_params := None;
     cfg_data := None |}.

(** The endpoints that [testConnection] tries, in order. *)
Definition test_endpoints : list string :=
  ["/admin/api/accounts";
   "/admin/api/b2bcustomers";
   "/admin/api/orders";
   "/admin/api/extproductattributecolors"].

(** [error.response?.statusText || error.message]. *)
Definition failure_detail (err : Error) : value :=
  or_else
    (match err_response err with
     | Some r => er_statusText r
     | None => VUndefined
     end)
    (err_message err).

(** The line that the inner [catch] of [testConnection] logs,
    [`⚠️ API endpoint ${endpoint} failed: ${error.response?.status} - ${error.response?.statusText || error.message}`].
    Building it throws for an error that is [null] or [undefined], and for a
    status text or message that has no primitive value. *)
Definition failure_line (url : string) (error : Rejection) : completion RuntimeError string :=
  match error with
  | RejectNullish => Throws TypeError
  | RejectError err =>
      let status :=
        match err_response err with
        | Some r => print_status (er_status r)
        | None => "undefined"
        end in
      bind (to_str (failure_detail err)) (fun text =>
        Returns ("⚠️ API endpoint " +:+ url +:+ " failed: " +:+ status +:+ " - " +:+ text))
  end.

(** The loop of [testConnection] from its [i]-th request on: the first
    response that comes back ends it; a request that throws is logged and
    passed over, and what the logging throws ends the loop.  [times i] are
    the two clock readings of the [i]-th call of [ensureValidToken]: at its
    start, and when a token response is read. *)
Fixpoint try_endpoints (config : OroConfig) (net : HttpRequest -> HttpResult)
    (times : nat -> float * float) (send : Transport) (i : nat) (st : TokenState)
    (endpoints : list string)
  : completion RuntimeError (option AxiosResponse) * TokenState * list HttpRequest :=
  match endpoints with
  | [] => (Returns None, st, [])
  | url :: rest =>
      let x := client_request config net (fst (times i)) (snd (times i)) send st
                 (get_config url) in
      match outcome x with
      | Returns response => (Returns (Some response), client_state x, token_requests x)
      | Throws error =>
          match failure_line url error with
          | Throws e => (Throws e, client_state x, token_requests x)
          | Returns _ =>
              let '(response, st', requests) :=
                try_endpoints config net times send (S i) (client_state x) rest in
              (response, st', (token_requests x ++ requests)%list)
          end
      end
  end.

(** What [testConnection] returns, with the token fields afterwards and the
    token requests that were sent. *)
Record Probe : Type := {
  connected : bool;
  probe_state : TokenState;
  probe_requests : list HttpRequest
}.

(** [testConnection]: whatever is thrown inside ends in the outer [catch],
    which answers [false]. *)
Definition testConnection (config : OroConfig) (net : HttpRequest -> HttpResult)
    (times : nat -> float * float) (send : Transport) (st : TokenState) : Probe :=
  let run := ensureValidToken config net (fst (times 0%nat)) (snd (times 0%nat)) st in
  match result run with
  | Throws _ =>
      {| connected := false; probe_state := state run; probe_requests := sent run |}
  | Returns _ =>
      let '(response, st', requests) :=
        try_endpoints config net times send 1 (state run) test_endpoints in
      {| connected :=
           match response with
           | Returns (Some r) => (resp_status r =? 200)%Z
           | Returns None | Throws _ => false
           end;
         probe_state := st';
         probe_requests := (sent run ++ requests)%list |}
  end.

End Pipeline.

(** ** [src/index.ts]: the dispatch of a dynamic tool by the call handler *)

Module Server.

Import JS Parser Dynamic.

Inductive ErrorCode : Type :=
  | InternalError
  | MethodNotFound.

(** The message of an [McpError]: a text, or [Tool execution failed: ]
    followed by the message of a runtime error, which the engine words. *)
Inductive Message : Type :=
  | Text (s : string)
  | ToolExecutionFailed (e : RuntimeError).

Record McpError : Type := {
  code : ErrorCode;
  mcp_message : Message
}.

(** [response.error || 'Dynamic tool execution failed']. *)
Definition failure_message (response : DynamicResponse) : string :=
  match error response with
  | Some m => if String.eqb m EmptyString then "Dynamic tool execution failed" else m
  | None => "Dynamic tool execution failed"
  end.

(** The [catch] of the handler, for what is not an [McpError]: a runtime
    error is an [Error], and its message is passed on. *)
Definition wrap (e : RuntimeError) : McpError :=
  {| code := InternalError; mcp_message := ToolExecutionFailed e |}.

(** The [default] branch of the handler of [CallToolRequestSchema] with the
    [catch] around it: [dynamicClient] is the tool list and transport of the
    dynamic client, when there is one.  The result is the text of the reply. *)
Definition callDynamicTool (dynamicClient : option (list ParsedOperation * Transport))
    (name : string) (args : DynamicRequestOptions) : completion McpError string :=
  match dynamicClient with
  | Some (availableTools, request) =>
      match executeTool request availableTools name args with
      | Returns response =>
          if success response then
            match formatResponse response with
            | Returns text => Returns text
            | Throws e => Throws (wrap e)
            end
          else
            Throws {| code := InternalError;
                      mcp_message := Text (failure_message response) |}
      | Throws e => Throws (wrap e)
      end
  | None =>
      Throws {| code := MethodNotFound; mcp_message := Text ("Unknown tool: " +:+ name) |}
  end.

End Server.

(** ** Predicates used to state and prove the properties *)

Module Shape.

Import JS.

(** A character of a tool name: a lower-case letter, a digit or an underscore. *)
Definition tool_char (c : ascii) : bool :=
  is_lower c || is_digit c || is_underscore c.

(** A character left by [replace_non_alnum]. *)
Definition word_char (c : ascii) : bool :=
  is_alnum c || is_underscore c.

Fixpoint all_chars (P : ascii -> bool) (s : string) : bool :=
  match s with
  | EmptyString => true
  | String c r => P c && all_chars P r
  end.

Definition head_underscore (s : string) : bool :=
  match s with
  | String c _ => is_underscore c
  | EmptyString => false
  end.

(** No two underscores in a row. *)
Fixpoint no_double (s : string) : bool :=
  match s with
  | EmptyString => true
  | String c r => negb (is_underscore c && head_underscore r) && no_double r
  end.

(** The last character is not an underscore. *)
Fixpoint no_trailing (s : string) : bool :=
  match s with
  | EmptyString => true
  | String c EmptyString => negb (is_underscore c)
  | String _ r => no_trailing r
  end.

(** The shape of a tool name. *)
Definition snake (s : string) : bool :=
  all_chars tool_char s && no_double s && negb (head_underscore s) && no_trailing s.

(** The method fields of a path item, in upper case. *)
Definition http_methods : list string :=
  ["GET"; "PUT"; "POST"; "DELETE"; "OPTIONS"; "HEAD"; "PATCH"; "TRACE"].

(** [key] is an HTTP-method token, whatever its case. *)
Definition is_http_method (key : string) : bool :=
  existsb (String.eqb (toUpperCase key)) http_methods.

(** The pairs the specification counts: [key] is an HTTP method other than
    OPTIONS and HEAD. *)
Definition counted_method (key : string) : bool :=
  is_http_method key
  && negb (String.eqb (toUpperCase key) "OPTIONS")
  && negb (String.eqb (toUpperCase key) "HEAD").

Definition method_pairs_of_item (item : Parser.PathItemObject) : nat :=
  List.length (List.filter (fun kf => counted_method (fst kf)) item).

Fixpoint method_pairs_of_paths (ps : list (string * option Parser.PathItemObject)) : nat :=
  match ps with
  | [] => 0
  | (_, None) :: r => method_pairs_of_paths r
  | (_, Some item) :: r => method_pairs_of_item item + method_pairs_of_paths r
  end.

(** The number of (path, method) pairs of a document whose method is neither
    OPTIONS nor HEAD. *)
Definition method_pairs (doc : Parser.Document) : nat :=
  method_pairs_of_paths (default [] (Parser.doc_paths doc)).

(** A field of a path item that sits under the key the schema gives it: an
    operation under a method token, the array of shared parameters under
    [parameters], text under any other key.  A [servers] array is left out. *)
Definition plain_field (kf : string * Parser.PathItemField) : bool :=
  match snd kf with
  | Parser.FieldOperation _ => is_http_method (fst kf)
  | Parser.FieldParameters _ => String.eqb (fst kf) "parameters"
  | Parser.FieldText _ => negb (is_http_method (fst kf))
  | Parser.FieldServers _ => false
  end.

Definition plain_item (item : option Parser.PathItemObject) : bool :=
  match item with
  | Some fields => forallb plain_field fields
  | None => true
  end.

Definition plain_document (doc : Parser.Document) : bool :=
  forallb (fun p => plain_item (snd p)) (default [] (Parser.doc_paths doc)).


(** How often [c] occurs in a list of tags. *)
Definition occurrences (c : string) (ts : list string) : nat :=
  List.length (List.filter (String.eqb c) ts).

(** The number of tools with method [m]. *)
Definition count_method (m : string) (tools : list Parser.ParsedOperation) : nat :=
  List.length
    (List.filter (fun t => String.eqb m (Parser.method (Parser.endpoint t))) tools).

(** The number of times the tools list the tag [c]. *)
Definition count_tag (c : string) (tools : list Parser.ParsedOperation) : nat :=
  list_sum (List.map (fun t => occurrences c (Parser.tags (Parser.endpoint t))) tools).

(** [k] names a member of [Object.prototype]. *)
Definition inherited (k : string) : bool :=
  String.eqb k "__proto__" || existsb (String.eqb k) Catalog.inherited_methods.

(** The number of rounds of [bump] that a stored value records. *)
Definition rounds (c : option Catalog.Counter) : nat :=
  match c with
  | Some (Catalog.Count n) => n
  | Some (Catalog.FunctionText ones) => ones
  | None => 0
  end.

(** The count stored under [k], if a count is stored there. *)
Definition count_at (counts : gmap string Catalog.Counter) (k : string) : nat :=
  match counts !! k with
  | Some (Catalog.Count n) => n
  | _ => 0
  end.

(** What a dictionary that started empty holds under [k] after [n] rounds of
    [bump] for [k]. *)
Definition counter_after (k : string) (n : nat) : option Catalog.Counter :=
  if String.eqb k "__proto__" || (n =? 0)%nat then None
  else if existsb (String.eqb k) Catalog.inherited_methods
  then Some (Catalog.FunctionText n)
  else Some (Catalog.Count n).

(** The number of tools whose method is not [__proto__]. *)
Definition counted_tools (tools : list Parser.ParsedOperation) : nat :=
  List.length
    (List.filter
       (fun t => negb (String.eqb (Parser.method (Parser.endpoint t)) "__proto__")) tools).

(** The sum of the counts of a dictionary. *)
Definition total_count (counts : gmap string Catalog.Counter) : nat :=
  map_fold (fun _ c acc => (rounds (Some c) + acc)%nat) 0%nat counts.

(** Every stored value records at least one round, under a key other than
    [__proto__], and is text exactly under the name of an inherited
    method. *)
Definition sound_counts (counts : gmap string Catalog.Counter) : Prop :=
  forall (k : string) (c : Catalog.Counter),
    counts !! k = Some c -> counter_after k (rounds (Some c)) = Some c.

(** Every entry of the properties, the prototype included, has a type and a
    description that are not empty. *)
Definition described (props : Parser.Properties) : Prop :=
  forall n p, Parser.own props !! n = Some p \/ Parser.prototype props = Some p ->
              Parser.prop_type p <> "" /\ Parser.prop_description p <> "".

(** A path item without its shared [parameters] field. *)
Definition without_shared_parameters (item : Parser.PathItemObject) : Parser.PathItemObject :=
  List.filter (fun kf => negb (String.eqb (fst kf) "parameters")) item.

(** The conversion of an element of an array, as [join] does it. *)
Definition element_text (x : value) : completion RuntimeError string :=
  match x with
  | VUndefined | VNull => Returns EmptyString
  | _ => to_str x
  end.

(** A value that [String] converts: no array in it, at any depth of nested
    arrays, holds an object that owns a property [toString], and it is no
    such object itself. *)
Fixpoint printable (v : value) : bool :=
  match v with
  | VArr xs => forallb printable xs
  | VObj fields => negb (owns "toString" fields)
  | _ => true
  end.

(** The text of a value that converts. *)
Definition text_of (v : value) : string :=
  match to_str v with
  | Returns text => text
  | Throws _ => ""
  end.

(** The fields the specification calls interesting, in its order. *)
Definition preferred_fields : list string :=
  ["id"; "name"; "title"; "sku"; "email"; "status"].

(** The preferred fields that an item has. *)
Definition preferred_of (item : value) : list string :=
  List.filter (fun k => existsb (String.eqb k) (keys item)) preferred_fields.

(** The fields that the preview of an item shows, as the specification has
    it: at most three, taken from the preferred fields when the item has any
    of them, and else the first fields of the item. *)
Definition shown_fields (item : value) : list string :=
  match preferred_of item with
  | [] => firstn 3 (keys item)
  | _ :: _ => firstn 3 (preferred_of item)
  end.

(** The preview of an item, as the specification has it: the shown fields of
    an object or array, each as [key: value]; the text of anything else. *)
Definition item_summary (item : value) : string :=
  if truthy item && typeof_object item
  then join ", " (List.map (fun k => k +:+ ": " +:+ text_of (get k item)) (shown_fields item))
  else text_of item.

(** The fields whose values [formatItem] converts to text: every preferred
    field that the item has, also beyond the third, or, when it has none, its
    first three keys. *)
Definition converted_fields (item : value) : list string :=
  match preferred_of item with
  | [] => firstn 3 (keys item)
  | _ :: _ => preferred_of item
  end.

(** An item that [formatItem] can show.  A primitive always is.  An object
    or array is when it owns no property [hasOwnProperty] and the values of
    the fields that are converted do convert to text. *)
Definition showable (item : value) : bool :=
  if truthy item && typeof_object item then
    match item with
    | VObj fields => negb (owns "hasOwnProperty" fields)
    | _ => true
    end
    && forallb (fun k => printable (get k item)) (converted_fields item)
  else true.

(** A thrown value that the [catch] block of [executeEndpoint] can report:
    it is not [null] or [undefined], and the message chosen for it
    converts. *)
Definition reportable (error : Dynamic.Rejection) : bool :=
  match error with
  | Dynamic.RejectNullish => false
  | Dynamic.RejectError err => printable (Dynamic.errorMessage err)
  end.



(** The rational number that a finite double is. *)
Definition exact (x : float) : Q :=
  match Prim2SF x with
  | S754_finite sign m e =>
      ((if sign then -1 else 1) * inject_Z (Zpos m) * Qpower 2 e)%Q
  | _ => 0%Q
  end.

End Shape.

(** ** Concrete inputs used below *)

Module Samples.

Import JS Parser.

Definition sample_endpoint (p m id : string) : SwaggerEndpoint :=
  {| path := p; method := m; operationId := id;
     summary := ""; description := ""; parameters := [];
     tags := []; requestBody := None; responses := [] |}.

(** Two endpoints whose operation ids differ only in punctuation. *)
Definition items_dash : SwaggerEndpoint := sample_endpoint "/items" "GET" "get-items".
Definition items_underscore : SwaggerEndpoint := sample_endpoint "/stock" "GET" "get_items".

(** A path item with a [servers] array next to its one operation. *)
Definition servers_document : Document :=
  {| doc_paths :=
       Some [("/widgets",
              Some [("servers",
                     FieldServers [{| so_url := "https://api.example.com";
                                      so_description := None |}]);
                    ("get", FieldOperation empty_operation)])] |}.

(** A document that uses every kind of field except [servers]. *)
Definition plain_sample_document : Document :=
  {| doc_paths :=
       Some [("/widgets",
              Some [("summary", FieldText "Widgets");
                    ("parameters", FieldParameters []);
                    ("get", FieldOperation empty_operation);
                    ("options", FieldOperation empty_operation);
                    ("post", FieldOperation empty_operation)]);
             ("/gone", None);
             ("/widgets/{id}",
              Some [("head", FieldOperation empty_operation);
                    ("delete", FieldOperation empty_operation)])] |}.

(** An endpoint with a required path parameter, an optional query parameter
    and a required body. *)
Definition widget_endpoint : SwaggerEndpoint :=
  {| path := "/widgets/{id}"; method := "PUT"; operationId := "putWidget";
     summary := ""; description := "";
     parameters :=
       [{| sp_name := "id"; sp_in := "path"; sp_description := None;
           sp_required := true; sp_schema := None; sp_example := None |};
        {| sp_name := "page"; sp_in := "query"; sp_description := None;
           sp_required := false;
           sp_schema := Some {| schema_type := None; schema_format := Some "int32" |};
           sp_example := None |}];
     tags := ["widgets"];
     requestBody :=
       Some {| srb_description := None; srb_required := true; srb_content := [] |};
     responses := [] |}.

(** A client configuration. *)
Definition shop_config : OroClient.OroConfig :=
  {| OroClient.shopUrl := "https://shop.example.com";
     OroClient.clientId := "client-1";
     OroClient.clientSecret := "s3cret" |}.

(** A token endpoint that answers 200 with the given body. *)
Definition answers (body : OroClient.TokenBody) : OroClient.HttpRequest -> OroClient.HttpResult :=
  fun _ => OroClient.HttpResponse 200 body.

(** A token endpoint that cannot be reached. *)
Definition unreachable : OroClient.HttpRequest -> OroClient.HttpResult :=
  fun _ => OroClient.NetworkError.

(** A client that holds an expired token. *)
Definition stale_state : OroClient.TokenState :=
  {| OroClient.token := Some "old-token"; OroClient.tokenExpiry := Some 100%float |}.

(** A path template that names one parameter twice. *)
Definition twice_template : string := "/orders/{id}/copies/{id}".

Definition twice_endpoint : SwaggerEndpoint := sample_endpoint twice_template "GET" "getCopy".

Definition id_42 : Dynamic.DynamicRequestOptions :=
  {| Dynamic.pathParams := Some [("id", Dynamic.PathStr "42")];
     Dynamic.queryParams := None;
     Dynamic.requestBody := VUndefined;
     Dynamic.headers := None |}.

(** A transport that answers every request with status 200 and no payload. *)
Definition ok_transport : Dynamic.Transport :=
  fun _ => Returns {| Dynamic.resp_data := VNull; Dynamic.resp_status := integer 200 |}.

(** A transport that fails with a 404 and an upstream message. *)
Definition not_found_transport : Dynamic.Transport :=
  fun _ =>
    Throws (Dynamic.RejectError
              {| Dynamic.err_response :=
                   Some {| Dynamic.er_status := Some (integer 404);
                           Dynamic.er_statusText := VStr "Not Found";
                           Dynamic.er_data := VObj [("message", VStr "No such order")] |};
                 Dynamic.err_message := VStr "Request failed with status code 404" |}).

(** A transport that fails with a 500 whose body is
    [{"message": {"toString": 1}}]. *)
Definition odd_message_transport : Dynamic.Transport :=
  fun _ =>
    Throws (Dynamic.RejectError
              {| Dynamic.err_response :=
                   Some {| Dynamic.er_status := Some (integer 500);
                           Dynamic.er_statusText := VStr "Internal Server Error";
                           Dynamic.er_data :=
                             VObj [("message", VObj [("toString", VNum (integer 1))])] |};
                 Dynamic.err_message := VStr "Request failed with status code 500" |}).

(** A transport that rejects with [null]. *)
Definition null_transport : Dynamic.Transport :=
  fun _ => Throws Dynamic.RejectNullish.

(** A successful response with the given payload. *)
Definition successful (payload : value) (status : option safe_integer)
    (ep : Dynamic.EndpointEcho)
  : Dynamic.DynamicResponse :=
  {| Dynamic.success := true;
     Dynamic.data := payload;
     Dynamic.error := None;
     Dynamic.statusCode := status;
     Dynamic.endpoint := ep |}.

(** An endpoint with tags and a summary. *)
Definition orders_endpoint : SwaggerEndpoint :=
  {| path := "/admin/api/Orders/{id}"; method := "GET"; operationId := "getOrder";
     summary := "Get an order"; description := "";
     parameters :=
       [{| sp_name := "id"; sp_in := "path"; sp_description := None;
           sp_required := true; sp_schema := None; sp_example := None |};
        {| sp_name := "X-Include"; sp_in := "header"; sp_description := None;
           sp_required := true; sp_schema := None; sp_example := None |};
        {| sp_name := "fields"; sp_in := "query"; sp_description := None;
           sp_required := false;
           sp_schema := Some {| schema_type := Some "array"; schema_format := None |};
           sp_example := None |}];
     tags := ["orders"; "Sales"];
     requestBody := None;
     responses := [] |}.

Definition catalog : list ParsedOperation :=
  generateMCPTools [widget_endpoint; orders_endpoint; items_dash].

(** An endpoint with a required query parameter named [__proto__]. *)
Definition proto_endpoint : SwaggerEndpoint :=
  {| path := "/objects"; method := "GET"; operationId := "listObjects";
     summary := ""; description := "";
     parameters :=
       [{| sp_name := "__proto__"; sp_in := "query"; sp_description := None;
           sp_required := true; sp_schema := None; sp_example := None |}];
     tags := ["constructor"; "__proto__"; "objects"; "constructor"];
     requestBody := None;
     responses := [] |}.



(** A record with a field named [hasOwnProperty]. *)
Definition odd_record : value :=
  VObj [("id", VNum (integer 1)); ("hasOwnProperty", VBool true)].

End Samples.

(** ** Properties of the tool-name normalization *)

Import JS Shape Samples Builtins.

Lemma is_underscore_eq (c : ascii) : is_underscore c = true -> c = underscore.
Proof. unfold is_underscore. apply Ascii.eqb_eq. Qed.

Lemma lower_char_underscore (c : ascii) :
  is_underscore (lower_char c) = is_underscore c.
Proof. destruct c as [[] [] [] [] [] [] [] []]; reflexivity. Qed.

Lemma lower_char_tool (c : ascii) : word_char c = true -> tool_char (lower_char c) = true.
Proof. destruct c as [[] [] [] [] [] [] [] []]; vm_compute; congruence. Qed.

Lemma tool_char_fixed (c : ascii) :
  tool_char c = true ->
  (if is_alnum c then c else underscore) = c /\ lower_char c = c.
Proof. destruct c as [[] [] [] [] [] [] [] []]; vm_compute; intuition congruence. Qed.

Lemma tool_char_underscore : tool_char underscore = true.
Proof. reflexivity. Qed.

Lemma word_char_underscore : word_char underscore = true.
Proof. reflexivity. Qed.

Lemma replace_non_alnum_word (s : string) : all_chars word_char (replace_non_alnum s) = true.
Proof.
  unfold replace_non_alnum.
  induction s as [|c r IH]; simpl; [reflexivity|].
  rewrite IH, andb_true_r.
  destruct c as [[] [] [] [] [] [] [] []]; reflexivity.
Qed.

Lemma collapse_cons (c : ascii) (r : string) :
  collapse_underscores (String c r) =
  if is_underscore c then
    if head_underscore r then collapse_underscores r
    else String underscore (collapse_underscores r)
  else String c (collapse_underscores r).
Proof. destruct r; reflexivity. Qed.

Lemma head_underscore_collapse (s : string) :
  head_underscore (collapse_underscores s) = head_underscore s.
Proof.
  induction s as [|c r IH]; [reflexivity|].
  rewrite collapse_cons. cbn [head_underscore].
  destruct (is_underscore c) eqn:Hc; [|exact Hc].
  destruct (head_underscore r) eqn:Hr; [congruence|reflexivity].
Qed.

Lemma collapse_no_double (s : string) : no_double (collapse_underscores s) = true.
Proof.
  induction s as [|c r IH]; [reflexivity|].
  rewrite collapse_cons.
  destruct (is_underscore c) eqn:Hc.
  - destruct (head_underscore r) eqn:Hr; [exact IH|].
    cbn [no_double]. now rewrite head_underscore_collapse, Hr, IH, andb_false_r.
  - cbn [no_double]. now rewrite Hc, IH.
Qed.

Lemma collapse_all_chars (P : ascii -> bool) (s : string) :
  P underscore = true -> all_chars P s = true -> all_chars P (collapse_underscores s) = true.
Proof.
  intros HP. induction s as [|c r IH]; [reflexivity|].
  cbn [all_chars]. intros H. apply andb_true_iff in H as [Hc Hr].
  rewrite collapse_cons.
  destruct (is_underscore c).
  - destruct (head_underscore r); [now apply IH|].
    cbn [all_chars]. now rewrite HP, IH.
  - cbn [all_chars]. now rewrite Hc, IH.
Qed.

Lemma strip_leading_shape (P : ascii -> bool) (s : string) :
  all_chars P s = true -> no_double s = true ->
  let t := strip_leading_underscore s in
  all_chars P t = true /\ no_double t = true /\ head_underscore t = false.
Proof.
  destruct s as [|c r]; simpl; [auto|].
  intros HP Hd.
  apply andb_true_iff in HP as [Hc Hr]. apply andb_true_iff in Hd as [Hcd Hdr].
  destruct (is_underscore c) eqn:Hu; simpl in *.
  - repeat split; auto. now apply negb_true_iff in Hcd.
  - rewrite Hc, Hr, Hu, Hdr. auto.
Qed.

Lemma strip_trailing_head (s : string) :
  head_underscore s = false -> head_underscore (strip_trailing_underscore s) = false.
Proof.
  destruct s as [|c r]; simpl; [auto|]. intros Hc.
  destruct r; simpl; [rewrite Hc|]; simpl; auto.
Qed.

Lemma strip_trailing_shape (P : ascii -> bool) (s : string) :
  all_chars P s = true -> no_double s = true ->
  let t := strip_trailing_underscore s in
  all_chars P t = true /\ no_double t = true /\ no_trailing t = true.
Proof.
  induction s as [|c r IH]; [simpl; auto|].
  intros HP Hd. cbn [all_chars no_double] in HP, Hd.
  apply andb_true_iff in HP as [Hc Hr]. apply andb_true_iff in Hd as [Hcd Hdr].
  destruct r as [|d r'].
  - simpl. destruct (is_underscore c) eqn:Hu; simpl; rewrite ?Hc, ?Hu; auto.
  - specialize (IH Hr Hdr) as (IH1 & IH2 & IH3).
    change (strip_trailing_underscore (String c (String d r')))
      with (String c (strip_trailing_underscore (String d r'))).
    set (t := strip_trailing_underscore (String d r')) in *.
    cbv zeta. cbn [all_chars no_double]. rewrite Hc, IH1, IH2.
    assert (Hh : head_underscore t = true -> head_underscore (String d r') = true).
    { subst t. destruct (head_underscore (String d r')) eqn:E; [auto|].
      rewrite (strip_trailing_head _ E). auto. }
    repeat split.
    + rewrite andb_true_r. apply negb_true_iff. apply negb_true_iff in Hcd.
      destruct (is_underscore c); [|reflexivity]. simpl in *.
      destruct (head_underscore t); [|reflexivity]. rewrite Hh in Hcd; auto.
    + destruct t as [|e t'] eqn:Et.
      * simpl. apply negb_true_iff. apply negb_true_iff in Hcd.
        destruct (is_underscore c) eqn:Hu; [|reflexivity]. exfalso.
        simpl in Hcd. subst t.
        destruct r' as [|e r'']; simpl in Et.
        -- destruct (is_underscore d); discriminate.
        -- discriminate.
      * exact IH3.
Qed.

Lemma map_lower_shape (s : string) :
  all_chars word_char s = true ->
  all_chars tool_char (toLowerCase s) = true
  /\ no_double (toLowerCase s) = no_double s
  /\ head_underscore (toLowerCase s) = head_underscore s
  /\ no_trailing (toLowerCase s) = no_trailing s.
Proof.
  unfold toLowerCase.
  induction s as [|c r IH]; [simpl; auto|].
  intros H. cbn [all_chars] in H. apply andb_true_iff in H as [Hc Hr].
  specialize (IH Hr) as (IH1 & IH2 & IH3 & IH4).
  cbn [map_chars all_chars no_double head_underscore].
  rewrite (lower_char_tool _ Hc), IH1, IH2, IH3, lower_char_underscore.
  repeat split; auto.
  destruct r as [|d r']; simpl; [now rewrite lower_char_underscore|exact IH4].
Qed.

(** The result of the normalization has the shape of a tool name. *)
Lemma normalize_snake (s : string) : snake (Parser.normalize s) = true.
Proof.
  unfold Parser.normalize, strip_edge_underscores.
  pose proof (replace_non_alnum_word s) as H1.
  pose proof (collapse_all_chars word_char _ word_char_underscore H1) as H2.
  pose proof (collapse_no_double (replace_non_alnum s)) as H3.
  destruct (strip_leading_shape word_char _ H2 H3) as (H4 & H5 & H6).
  destruct (strip_trailing_shape word_char _ H4 H5) as (H7 & H8 & H9).
  pose proof (strip_trailing_head _ H6) as H10.
  destruct (map_lower_shape _ H7) as (K1 & K2 & K3 & K4).
  unfold snake. rewrite K1, K2, K3, K4, H8, H9, H10. reflexivity.
Qed.

Lemma tool_chars_replace (s : string) :
  all_chars tool_char s = true -> replace_non_alnum s = s.
Proof.
  unfold replace_non_alnum.
  induction s as [|c r IH]; simpl; [reflexivity|].
  intros H. apply andb_true_iff in H as [Hc Hr].
  rewrite (IH Hr). f_equal. apply (tool_char_fixed c Hc).
Qed.

Lemma tool_chars_lower (s : string) :
  all_chars tool_char s = true -> toLowerCase s = s.
Proof.
  unfold toLowerCase.
  induction s as [|c r IH]; simpl; [reflexivity|].
  intros H. apply andb_true_iff in H as [Hc Hr].
  rewrite (IH Hr). f_equal. apply (tool_char_fixed c Hc).
Qed.

Lemma no_double_collapse (s : string) :
  no_double s = true -> collapse_underscores s = s.
Proof.
  induction s as [|c r IH]; [reflexivity|].
  cbn [no_double]. intros H. apply andb_true_iff in H as [Hcd Hr].
  rewrite collapse_cons, (IH Hr).
  destruct (is_underscore c) eqn:Hc; [|reflexivity].
  simpl in Hcd. apply negb_true_iff in Hcd. rewrite Hcd.
  now rewrite (is_underscore_eq c Hc).
Qed.

Lemma no_leading_strip (s : string) :
  head_underscore s = false -> strip_leading_underscore s = s.
Proof. destruct s as [|c r]; simpl; [reflexivity|]. now intros ->. Qed.

Lemma no_trailing_strip (s : string) :
  no_trailing s = true -> strip_trailing_underscore s = s.
Proof.
  induction s as [|c r IH]; [reflexivity|].
  destruct r as [|d r'].
  - simpl. intros H. apply negb_true_iff in H. now rewrite H.
  - intros H. change (no_trailing (String d r') = true) in H.
    change (String c (strip_trailing_underscore (String d r')) = String c (String d r')).
    now rewrite (IH H).
Qed.

(** A string that has the shape of a tool name is left as it is. *)
Lemma snake_normalize (s : string) : snake s = true -> Parser.normalize s = s.
Proof.
  unfold snake. intros H.
  apply andb_true_iff in H as [H Ht]. apply andb_true_iff in H as [H Hh].
  apply andb_true_iff in H as [Hc Hd]. apply negb_true_iff in Hh.
  unfold Parser.normalize, strip_edge_underscores.
  rewrite (tool_chars_replace _ Hc), (no_double_collapse _ Hd),
    (no_leading_strip _ Hh), (no_trailing_strip _ Ht).
  apply (tool_chars_lower _ Hc).
Qed.

(** C6: the tool name is a function of the operation id alone (which
    [getAllEndpoints] never leaves empty), and normalizing twice gives the same
    string as normalizing once, for every string. *)
Theorem toolName_normalization_idempotent :
  (forall s : string, Parser.normalize (Parser.normalize s) = Parser.normalize s)
  /\ (forall e : Parser.SwaggerEndpoint,
        Parser.operationId e <> "" ->
        Parser.generateToolName e = Parser.normalize (Parser.operationId e))
  /\ (forall (doc : Parser.Document) (e : Parser.SwaggerEndpoint),
        In e (Parser.getAllEndpoints doc) -> Parser.operationId e <> "").
Proof.
  split; [|split].
  - intros s. apply snake_normalize, normalize_snake.
  - intros e He. unfold Parser.generateToolName.
    destruct (String.eqb_spec (Parser.operationId e) ""); [contradiction|reflexivity].
  - intros doc e. unfold Parser.getAllEndpoints.
    induction (default [] (Parser.doc_paths doc)) as [|[p [item|]] ps IH]; simpl.
    + intros [].
    + intros H. apply in_app_or in H as [H|H]; [|now apply IH].
      clear IH. induction item as [|[key f] r IHr]; simpl in H; [destruct H|].
      destruct (Parser.not_an_object f || String.eqb key "parameters"); [now apply IHr|].
      destruct H as [<-|H]; [|now apply IHr].
      unfold Parser.make_endpoint, Parser.str_or. simpl.
      destruct (Parser.oo_operationId (Parser.as_operation f)) as [o|].
      * destruct (String.eqb_spec o ""); [|assumption].
        now destruct key.
      * now destruct key.
    + exact IH.
Qed.

Lemma toolName_normalization_witness :
  Parser.generateToolName (sample_endpoint "/accounts" "GET" "Get--Accounts.List")
  = Parser.normalize "Get--Accounts.List".
Proof.
  apply (proj1 (proj2 toolName_normalization_idempotent)). simpl. discriminate.
Defined.

Lemma normalize_example : Parser.normalize "Get--Accounts.List" = "get_accounts_list".
Proof. reflexivity. Qed.

(** ** Properties of the endpoint enumeration *)

Lemma generateMCPTools_app (a b : list Parser.SwaggerEndpoint) :
  Parser.generateMCPTools (a ++ b)
  = (Parser.generateMCPTools a ++ Parser.generateMCPTools b)%list.
Proof.
  induction a as [|e a IH]; simpl; [reflexivity|].
  destruct (Parser.shouldSkipEndpoint e); simpl; now rewrite IH.
Qed.

Lemma shouldSkip_make_endpoint (p key : string) (op : Parser.OperationObject) :
  Parser.shouldSkipEndpoint (Parser.make_endpoint p key op)
  = String.eqb (toUpperCase key) "OPTIONS" || String.eqb (toUpperCase key) "HEAD".
Proof.
  unfold Parser.shouldSkipEndpoint. simpl.
  destruct (String.eqb (toUpperCase key) "OPTIONS"); [reflexivity|].
  destruct (String.eqb (toUpperCase key) "HEAD"); reflexivity.
Qed.

Lemma parameters_not_method : is_http_method "parameters" = false.
Proof. reflexivity. Qed.

Lemma plain_item_tools (p : string) (item : Parser.PathItemObject) :
  forallb plain_field item = true ->
  List.length (Parser.generateMCPTools (Parser.endpoints_of_item p item))
  = method_pairs_of_item item.
Proof.
  unfold method_pairs_of_item.
  induction item as [|[key f] r IH]; [reflexivity|].
  cbn [forallb]. intros H. apply andb_true_iff in H as [Hf Hr].
  specialize (IH Hr). cbn [Parser.endpoints_of_item List.filter fst].
  unfold plain_field in Hf. cbn [fst snd] in Hf.
  unfold counted_method.
  destruct f as [t|sv|ps|op]; cbn [Parser.not_an_object orb].
  - apply negb_true_iff in Hf. rewrite Hf. exact IH.
  - discriminate.
  - apply String.eqb_eq in Hf. subst key.
    rewrite String.eqb_refl, parameters_not_method. exact IH.
  - rewrite Hf.
    destruct (String.eqb_spec key "parameters") as [->|_]; [discriminate|].
    cbn [Parser.generateMCPTools Parser.as_operation].
    rewrite shouldSkip_make_endpoint.
    destruct (String.eqb (toUpperCase key) "OPTIONS"); [exact IH|].
    destruct (String.eqb (toUpperCase key) "HEAD"); [exact IH|].
    simpl. now rewrite IH.
Qed.

(** Without a path-level [servers] array, the tools are as many as the
    (path, method) pairs whose method is neither OPTIONS nor HEAD. *)
Theorem plain_document_tool_count (doc : Parser.Document) :
  plain_document doc = true ->
  List.length (Parser.generateMCPTools (Parser.getAllEndpoints doc)) = method_pairs doc.
Proof.
  unfold plain_document, method_pairs, Parser.getAllEndpoints.
  induction (default [] (Parser.doc_paths doc)) as [|[p [item|]] ps IH];
    cbn [forallb snd]; intros H.
  - reflexivity.
  - apply andb_true_iff in H as [Hi Hps].
    cbn [Parser.endpoints_of_paths method_pairs_of_paths].
    rewrite generateMCPTools_app, length_app, (plain_item_tools p item Hi), (IH Hps).
    reflexivity.
  - apply andb_true_iff in H as [_ Hps]. exact (IH Hps).
Qed.

Lemma plain_document_tool_count_witness :
  List.length (Parser.generateMCPTools (Parser.getAllEndpoints plain_sample_document))
  = method_pairs plain_sample_document.
Proof. apply (plain_document_tool_count plain_sample_document). reflexivity. Defined.

(** C4: a path item that carries a [servers] array yields a tool for it, with
    the method SERVERS: the document has one (path, method) pair, GET, and the
    code synthesizes two tools. *)
Theorem servers_field_yields_tool :
  List.map (fun t => Parser.method (Parser.endpoint t))
      (Parser.generateMCPTools (Parser.getAllEndpoints servers_document))
  = ["SERVERS"; "GET"]
  /\ List.length (Parser.generateMCPTools (Parser.getAllEndpoints servers_document)) = 2%nat
  /\ method_pairs servers_document = 1%nat.
Proof. repeat split; reflexivity. Qed.

(** ** Properties of the tool lookup *)

Lemma find_tool_skips (before rest : list Parser.ParsedOperation) (name : string) :
  Forall (fun u => Parser.toolName u <> name) before ->
  Dynamic.find_tool (before ++ rest) name = Dynamic.find_tool rest name.
Proof.
  unfold Dynamic.find_tool.
  induction 1 as [|u before Hu _ IH]; [reflexivity|].
  simpl. destruct (String.eqb_spec (Parser.toolName u) name); [contradiction|exact IH].
Qed.

Lemma find_tool_head (t : Parser.ParsedOperation) (rest : list Parser.ParsedOperation) :
  Dynamic.find_tool (t :: rest) (Parser.toolName t) = Some t.
Proof. unfold Dynamic.find_tool. simpl. now rewrite String.eqb_refl. Qed.

Lemma generateMCPTools_names (es : list Parser.SwaggerEndpoint) (name : string) :
  Forall (fun e => Parser.generateToolName e <> name) es ->
  Forall (fun u => Parser.toolName u <> name) (Parser.generateMCPTools es).
Proof.
  induction 1 as [|e es He _ IH]; simpl; [constructor|].
  destruct (Parser.shouldSkipEndpoint e); [exact IH|].
  constructor; [exact He|exact IH].
Qed.

(** C3, as the code has it: when two endpoints of the catalog normalize to the
    same tool name, the lookup by that name resolves to the earlier one, and
    [executeTool] dispatches to it. *)
Theorem executeTool_resolves_earliest
    (request : Dynamic.Transport) (args : Dynamic.DynamicRequestOptions)
    (before between after : list Parser.SwaggerEndpoint)
    (e1 e2 : Parser.SwaggerEndpoint) :
  Parser.shouldSkipEndpoint e1 = false ->
  Parser.shouldSkipEndpoint e2 = false ->
  Parser.generateToolName e2 = Parser.generateToolName e1 ->
  Forall (fun e => Parser.generateToolName e <> Parser.generateToolName e1) before ->
  let tools := Parser.generateMCPTools (before ++ e1 :: between ++ e2 :: after) in
  Dynamic.find_tool tools (Parser.generateToolName e1) = Some (Parser.make_tool e1)
  /\ Dynamic.executeTool request tools (Parser.generateToolName e2) args
     = Dynamic.executeEndpoint request e1 args.
Proof.
  intros S1 S2 Hname Hbefore tools.
  assert (Hfind : Dynamic.find_tool tools (Parser.generateToolName e1)
                  = Some (Parser.make_tool e1)).
  { subst tools. rewrite generateMCPTools_app.
    rewrite find_tool_skips by now apply generateMCPTools_names.
    cbn [Parser.generateMCPTools]. rewrite S1.
    exact (find_tool_head (Parser.make_tool e1) _). }
  split; [exact Hfind|].
  unfold Dynamic.executeTool. rewrite Hname, Hfind. reflexivity.
Qed.

Lemma executeTool_resolves_earliest_witness :
  Dynamic.find_tool (Parser.generateMCPTools [items_dash; items_underscore]) "get_items"
  = Some (Parser.make_tool items_dash).
Proof.
  apply (executeTool_resolves_earliest null_transport
           Dynamic.no_options [] [] [] items_dash items_underscore).
  - reflexivity.
  - reflexivity.
  - reflexivity.
  - constructor.
Defined.

(** The later of two endpoints with one tool name is not the one the lookup
    returns. *)
Lemma later_tool_is_shadowed :
  Parser.generateToolName items_dash = Parser.generateToolName items_underscore
  /\ option_map Parser.endpoint
       (Dynamic.find_tool (Parser.generateMCPTools [items_dash; items_underscore]) "get_items")
     = Some items_dash
  /\ option_map Parser.endpoint
       (Dynamic.find_tool (Parser.generateMCPTools [items_dash; items_underscore]) "get_items")
     <> Some items_underscore.
Proof.
  split; [reflexivity|]. split; [reflexivity|].
  intros H. vm_compute in H. discriminate H.
Qed.

(** ** Properties of the input schema *)

Lemma assign_lookup (name : string) (schema : Parser.PropertySchema)
    (props : Parser.Properties) (n : string) :
  Parser.own (Parser.assign name schema props) !! n
  = if negb (String.eqb name "__proto__") && String.eqb name n
    then Some schema
    else Parser.own props !! n.
Proof.
  unfold Parser.assign. destruct (String.eqb name "__proto__"); [reflexivity|].
  cbn [Parser.own negb andb]. destruct (String.eqb_spec name n) as [->|Hne].
  - apply lookup_insert_eq.
  - now apply lookup_insert_ne.
Qed.

Lemma assign_prototype (name : string) (schema : Parser.PropertySchema)
    (props : Parser.Properties) :
  Parser.prototype (Parser.assign name schema props)
  = if String.eqb name "__proto__" then Some schema else Parser.prototype props.
Proof. unfold Parser.assign. now destruct (String.eqb name "__proto__"). Qed.










Lemma inputSchema_required_example :
  Parser.required (Parser.generateInputSchema widget_endpoint) = Some ["id"; "requestBody"]
  /\ Parser.prop_type
       <$> Parser.own (Parser.properties (Parser.generateInputSchema widget_endpoint)) !! "page"
     = Some "integer".
Proof. split; vm_compute; reflexivity. Qed.

(** ** Properties of the token manager *)

(** On doubles, [x < y] excludes [y <= x]. *)
Lemma SFltb_not_SFleb (x y : spec_float) : SFltb x y = true -> SFleb y x = false.
Proof.
  unfold SFltb, SFleb.
  destruct x as [sx|sx| |sx mx ex], y as [sy|sy| |sy my ey]; simpl;
    try destruct sx; try destruct sy; simpl; try discriminate; try reflexivity.
  all: rewrite (Z.compare_antisym ex ey); destruct (ex ?= ey)%Z; simpl;
    try discriminate; try reflexivity.
  all: change (PosDef.Pos.compare_cont Eq my mx) with (my ?= mx)%positive;
    change (PosDef.Pos.compare_cont Eq mx my) with (mx ?= my)%positive;
    rewrite (Pos.compare_antisym mx my); destruct (mx ?= my)%positive; simpl;
    try discriminate; try reflexivity.
Qed.

Lemma ltb_not_leb (x y : float) : (x <? y)%float = true -> (y <=? x)%float = false.
Proof. rewrite ltb_spec, leb_spec. apply SFltb_not_SFleb. Qed.

Section TokenManager.

(** The configuration the client was built with. *)
Variable config : OroClient.OroConfig.

(** A refresh sends one request, whatever comes back. *)
Lemma refreshToken_sent (net : OroClient.HttpRequest -> OroClient.HttpResult) (T : float)
    (st : OroClient.TokenState) :
  OroClient.sent (OroClient.refreshToken config net T st) = [OroClient.token_request config].
Proof.
  unfold OroClient.refreshToken.
  destruct (OroClient.axios_settle _) as [[| |]|]; reflexivity.
Qed.

(** C1: the token request is a POST to the token endpoint that carries the
    grant, the client id and the client secret, but it is sent with the content
    type [application/json] and so as JSON, not as a url-encoded form. *)
Theorem token_request_is_json (net : OroClient.HttpRequest -> OroClient.HttpResult) (T : float)
    (st : OroClient.TokenState) :
  OroClient.sent (OroClient.refreshToken config net T st) = [OroClient.token_request config]
  /\ OroClient.req_method (OroClient.token_request config) = "POST"
  /\ OroClient.req_url (OroClient.token_request config)
     = OroClient.shopUrl config +:+ "/oauth2-token"
  /\ OroClient.req_data (OroClient.token_request config)
     = [("grant_type", "client_credentials");
        ("client_id", OroClient.clientId config);
        ("client_secret", OroClient.clientSecret config)]
  /\ OroClient.content_type (OroClient.token_request config) = Some "application/json"
  /\ OroClient.wire_encoding (OroClient.token_request config) = OroClient.JsonEncoded
  /\ OroClient.content_type (OroClient.token_request config)
     <> Some "application/x-www-form-urlencoded".
Proof.
  split; [apply refreshToken_sent|]. repeat (split; [reflexivity|]). discriminate.
Qed.

Lemma refreshToken_rejected (net : OroClient.HttpRequest -> OroClient.HttpResult) (T : float)
    (st : OroClient.TokenState) :
  OroClient.axios_settle (net (OroClient.token_request config)) = None ->
  OroClient.refreshToken config net T st
  = {| OroClient.result := Throws OroClient.authentication_failed;
       OroClient.state := st;
       OroClient.sent := [OroClient.token_request config] |}.
Proof. unfold OroClient.refreshToken. now intros ->. Qed.

Lemma refreshToken_fulfilled (net : OroClient.HttpRequest -> OroClient.HttpResult) (T : float)
    (st : OroClient.TokenState) (access_token : option string) (expires_in : option float) :
  OroClient.axios_settle (net (OroClient.token_request config))
  = Some (OroClient.BodyObject access_token expires_in) ->
  OroClient.refreshToken config net T st
  = {| OroClient.result := Returns tt;
       OroClient.state :=
         {| OroClient.token := access_token;
            OroClient.tokenExpiry := Some (OroClient.expiry_of T expires_in) |};
       OroClient.sent := [OroClient.token_request config] |}.
Proof. unfold OroClient.refreshToken. now intros ->. Qed.

(** C8, as the code has it: when the token request meets a network error or
    a status outside 200..299, or the response has a null body, the stored
    token and expiry are unchanged, the operation fails with the
    authentication error, and one request was sent. *)
Theorem refreshToken_failure_keeps_state
    (net : OroClient.HttpRequest -> OroClient.HttpResult) (T : float)
    (st : OroClient.TokenState) :
  (net (OroClient.token_request config) = OroClient.NetworkError
   \/ (exists status body,
         net (OroClient.token_request config) = OroClient.HttpResponse status body
         /\ (status < 200 \/ 300 <= status)%Z)
   \/ (exists status,
         net (OroClient.token_request config)
         = OroClient.HttpResponse status OroClient.BodyNull)) ->
  OroClient.refreshToken config net T st
  = {| OroClient.result := Throws OroClient.authentication_failed;
       OroClient.state := st;
       OroClient.sent := [OroClient.token_request config] |}.
Proof.
  intros [H|[(status & body & H & Hs)|(status & H)]].
  - apply refreshToken_rejected. now rewrite H.
  - apply refreshToken_rejected. rewrite H. simpl.
    destruct (Z.leb_spec 200 status); destruct (Z.ltb_spec status 300);
      simpl; try reflexivity; lia.
  - unfold OroClient.refreshToken. rewrite H. simpl.
    destruct ((200 <=? status)%Z && (status <? 300)%Z); reflexivity.
Qed.

(** C5, as the code has it: after a refresh that stored a non-empty token
    with [expires_in = E] at time [T], the stored expiry is the double that
    [(T + E) - 300] gives in floating-point arithmetic.  When it is neither
    zero nor NaN, a call of [ensureValidToken] at a time before this stored
    expiry sends nothing and keeps the token, and a call at a time at or after
    it runs the refresh, which sends exactly one request. *)
Theorem ensureValidToken_window
    (net0 : OroClient.HttpRequest -> OroClient.HttpResult)
    (st0 : OroClient.TokenState) (tok : string) (E T : float) :
  OroClient.axios_settle (net0 (OroClient.token_request config))
  = Some (OroClient.BodyObject (Some tok) (Some E)) ->
  tok <> "" ->
  OroClient.truthy_number (T + E - 300)%float = true ->
  let st1 := OroClient.state (OroClient.refreshToken config net0 T st0) in
  OroClient.result (OroClient.refreshToken config net0 T st0) = Returns tt
  /\ OroClient.token st1 = Some tok
  /\ OroClient.tokenExpiry st1 = Some (T + E - 300)%float
  /\ (forall (net : OroClient.HttpRequest -> OroClient.HttpResult) (now T' : float),
        (now <? T + E - 300)%float = true ->
        OroClient.ensureValidToken config net now T' st1
        = {| OroClient.result := Returns tt; OroClient.state := st1; OroClient.sent := [] |})
  /\ (forall (net : OroClient.HttpRequest -> OroClient.HttpResult) (now T' : float),
        (T + E - 300 <=? now)%float = true ->
        OroClient.ensureValidToken config net now T' st1
        = OroClient.refreshToken config net T' st1
        /\ OroClient.sent (OroClient.ensureValidToken config net now T' st1)
           = [OroClient.token_request config]).
Proof.
  intros Hnet Htok Hnz. cbv zeta.
  rewrite (refreshToken_fulfilled net0 T st0 _ _ Hnet).
  cbn [OroClient.result OroClient.state OroClient.token OroClient.tokenExpiry
       OroClient.expiry_of].
  assert (Hno : OroClient.no_token
                  {| OroClient.token := Some tok;
                     OroClient.tokenExpiry := Some (T + E - 300)%float |} = false).
  { unfold OroClient.no_token. simpl. now destruct (String.eqb_spec tok ""). }
  split; [reflexivity|]. split; [reflexivity|]. split; [reflexivity|]. split.
  - intros net now T' Hlt. unfold OroClient.ensureValidToken, OroClient.expired.
    rewrite Hno. cbn [OroClient.tokenExpiry orb].
    now rewrite Hnz, (ltb_not_leb _ _ Hlt).
  - intros net now T' Hle. unfold OroClient.ensureValidToken, OroClient.expired.
    rewrite Hno. cbn [OroClient.tokenExpiry orb]. rewrite Hnz, Hle.
    split; [reflexivity|]. apply refreshToken_sent.
Qed.

End TokenManager.

Lemma refreshToken_failure_keeps_state_witness :
  OroClient.refreshToken shop_config unreachable 1000 stale_state
  = {| OroClient.result := Throws OroClient.authentication_failed;
       OroClient.state := stale_state;
       OroClient.sent := [OroClient.token_request shop_config] |}.
Proof.
  apply (refreshToken_failure_keeps_state shop_config unreachable 1000 stale_state).
  left. reflexivity.
Defined.

(** Against C8 as stated: a 200 response whose body lacks the token fields is
    not a failure for the code; nothing is thrown, and the stored token and
    expiry are overwritten. *)
Lemma malformed_body_overwrites_state :
  OroClient.refreshToken shop_config (answers (OroClient.BodyObject None None)) 1000 stale_state
  = {| OroClient.result := Returns tt;
       OroClient.state :=
         {| OroClient.token := None; OroClient.tokenExpiry := Some nan |};
       OroClient.sent := [OroClient.token_request shop_config] |}
  /\ OroClient.state
       (OroClient.refreshToken shop_config (answers (OroClient.BodyObject None None))
          1000 stale_state)
     <> stale_state.
Proof. split; [reflexivity|discriminate]. Qed.

Lemma ensureValidToken_window_witness :
  OroClient.ensureValidToken shop_config unreachable 2000 2000
    (OroClient.state
       (OroClient.refreshToken shop_config
          (answers (OroClient.BodyObject (Some "abc") (Some 3600%float))) 1000 stale_state))
  = {| OroClient.result := Returns tt;
       OroClient.state :=
         OroClient.state
           (OroClient.refreshToken shop_config
              (answers (OroClient.BodyObject (Some "abc") (Some 3600%float))) 1000 stale_state);
       OroClient.sent := [] |}.
Proof.
  refine (proj1 (proj2 (proj2 (proj2
    (ensureValidToken_window shop_config
       (answers (OroClient.BodyObject (Some "abc") (Some 3600%float)))
       stale_state "abc" 3600%float 1000%float _ _ _)))) unreachable 2000%float 2000%float _).
  - reflexivity.
  - discriminate.
  - reflexivity.
  - reflexivity.
Defined.

(** A decimal literal stands for the double nearest to it, as it does in
    JavaScript. *)
#[local] Set Warnings "-inexact-float".

(** Against C5 as stated: a refresh at time 0.1, when [Date.now()] is 100,
    with [expires_in = 301] stores the token and the expiry
    1.1000000000000227, the double that [0.1 + 301 - 300] gives.  A call at
    time 1.1, when [Date.now()] is 1100, comes at or after the exact sum of
    [T], [E] and -300, and sends nothing. *)
Lemma rounded_expiry_skips_refresh :
  (100 / 1000 = 0.1)%float
  /\ (1100 / 1000 = 1.1)%float
  /\ OroClient.result
    (OroClient.refreshToken shop_config
       (answers (OroClient.BodyObject (Some "abc") (Some 301%float))) 0.1 stale_state)
  = Returns tt
  /\ OroClient.state
       (OroClient.refreshToken shop_config
          (answers (OroClient.BodyObject (Some "abc") (Some 301%float))) 0.1 stale_state)
     = {| OroClient.token := Some "abc";
          OroClient.tokenExpiry := Some 1.1000000000000227%float |}
  /\ (exact 0.1 + exact 301 - 300 <= exact 1.1)%Q
  /\ OroClient.sent
       (OroClient.ensureValidToken shop_config unreachable 1.1 1.1
          (OroClient.state
             (OroClient.refreshToken shop_config
                (answers (OroClient.BodyObject (Some "abc") (Some 301%float))) 0.1
                stale_state)))
     = [].
Proof.
  split; [reflexivity|]. split; [reflexivity|].
  split; [reflexivity|]. split; [reflexivity|]. split; [|reflexivity].
  apply Qle_bool_iff. vm_compute. reflexivity.
Qed.

(** The same with readings of the clock: a refresh when [Date.now()] is
    2147480048010, in January 2038, with [expires_in = 3600] stores the expiry
    2147483348.0100002; the call when [Date.now()] is 2147483348010, which is
    3300 seconds later, sends nothing. *)
Lemma rounded_expiry_in_2038 :
  (2147480048010 / 1000 = 2147480048.01)%float
  /\ (2147483348010 / 1000 = 2147483348.01)%float
  /\ OroClient.tokenExpiry
       (OroClient.state
          (OroClient.refreshToken shop_config
             (answers (OroClient.BodyObject (Some "abc") (Some 3600%float)))
             2147480048.01 stale_state))
     = Some 2147483348.0100002%float
  /\ (exact 2147480048.01 + exact 3600 - 300 <= exact 2147483348.01)%Q
  /\ OroClient.sent
       (OroClient.ensureValidToken shop_config unreachable 2147483348.01 2147483348.01
          (OroClient.state
             (OroClient.refreshToken shop_config
                (answers (OroClient.BodyObject (Some "abc") (Some 3600%float)))
                2147480048.01 stale_state)))
     = [].
Proof.
  split; [reflexivity|]. split; [reflexivity|]. split; [reflexivity|].
  split; [|reflexivity]. apply Qle_bool_iff. vm_compute. reflexivity.
Qed.

(** A refresh that stored an empty access token is followed by a request on
    every call, also long before the expiry. *)
Lemma empty_token_refreshes_early :
  OroClient.result
    (OroClient.refreshToken shop_config
       (answers (OroClient.BodyObject (Some "") (Some 3600%float))) 1000 stale_state)
  = Returns tt
  /\ (2000 <? 1000 + 3600 - 300)%float = true
  /\ OroClient.sent
       (OroClient.ensureValidToken shop_config unreachable 2000 2000
          (OroClient.state
             (OroClient.refreshToken shop_config
                (answers (OroClient.BodyObject (Some "") (Some 3600%float))) 1000
                stale_state)))
     = [OroClient.token_request shop_config].
Proof. split; [reflexivity|]. split; reflexivity. Qed.

(** An expiry that is exactly zero reads as no expiry, and no call refreshes
    the token. *)
Lemma zero_expiry_never_refreshes :
  (0 + 300 - 300 <=? 5)%float = true
  /\ OroClient.sent
       (OroClient.ensureValidToken shop_config unreachable 5 5
          (OroClient.state
             (OroClient.refreshToken shop_config
                (answers (OroClient.BodyObject (Some "abc") (Some 300%float))) 0
                stale_state)))
     = [].
Proof. split; reflexivity. Qed.

(** ** Properties of the dispatcher *)

(** The URL of the example of the specification. *)
Lemma build_url_accounts_example :
  Dynamic.build_url "/accounts/{id}/contacts" (Some [("id", Dynamic.PathStr "42")])
  = "/accounts/42/contacts".
Proof. reflexivity. Qed.

Lemma build_url_number_example :
  Dynamic.build_url "/accounts/{id}/contacts" (Some [("id", Dynamic.PathNum (integer 42))])
  = "/accounts/42/contacts".
Proof. reflexivity. Qed.

Lemma strip_prefix_spec (p s rest : string) :
  strip_prefix p s = Some rest -> s = p +:+ rest.
Proof.
  revert s. induction p as [|a p IH]; intros s; simpl.
  - now intros [= ->].
  - destruct s as [|b s]; [discriminate|].
    destruct (Ascii.eqb_spec a b) as [->|_]; [|discriminate].
    intros H. rewrite (IH _ H). reflexivity.
Qed.

(** [split_first] cuts the string around an occurrence of the pattern. *)
Lemma split_first_spec (p s before rest : string) :
  split_first p s = Some (before, rest) -> s = before +:+ p +:+ rest.
Proof.
  revert before. induction s as [|c s IH]; intros before; simpl.
  - destruct (strip_prefix p "") eqn:E; [|discriminate].
    intros [= <- <-]. exact (strip_prefix_spec _ _ _ E).
  - destruct (strip_prefix p (String c s)) eqn:E.
    + intros [= <- <-]. exact (strip_prefix_spec _ _ _ E).
    + destruct (split_first p s) as [[b r]|]; [|discriminate].
      intros [= <- <-]. rewrite (IH b eq_refl). reflexivity.
Qed.




(** C2: a template that names a parameter twice has only its first
    occurrence replaced, and the request goes out with the second placeholder
    still in the URL. *)
Theorem build_url_replaces_first_only :
  Dynamic.build_url twice_template (Some [("id", Dynamic.PathStr "42")])
  = "/orders/42/copies/{id}"
  /\ Dynamic.cfg_url (Dynamic.build_config twice_endpoint id_42) = "/orders/42/copies/{id}"
  /\ Dynamic.build_url twice_template (Some [("id", Dynamic.PathStr "42")])
     <> "/orders/42/copies/42".
Proof. split; [reflexivity|]. split; [reflexivity|]. discriminate. Qed.

(** A value with a dollar pattern is expanded, not copied. *)
Lemma build_url_dollar_pattern :
  Dynamic.build_url "/accounts/{id}/contacts" (Some [("id", Dynamic.PathStr "$&")])
  = "/accounts/{id}/contacts".
Proof. reflexivity. Qed.

(** ** Properties of the conversion to text *)

Lemma value_induction (P : value -> Prop) :
  P VUndefined -> P VNull -> (forall b, P (VBool b)) -> (forall n, P (VNum n)) ->
  (forall s, P (VStr s)) ->
  (forall xs, Forall P xs -> P (VArr xs)) ->
  (forall fields, Forall (fun kv => P (snd kv)) fields -> P (VObj fields)) ->
  forall v, P v.
Proof.
  intros H1 H2 H3 H4 H5 H6 H7. fix IH 1.
  intros [| |b|n|s|xs|fields]; [exact H1|exact H2|apply H3|apply H4|apply H5| |].
  - apply H6. revert xs. fix IHxs 1. intros [|x xs]; constructor; [apply IH|apply IHxs].
  - apply H7. revert fields. fix IHf 1.
    intros [|[k x] fields]; constructor; [apply IH|apply IHf].
Qed.

Lemma to_str_array (xs : list value) :
  to_str (VArr xs) = bind (traverse element_text xs) (fun parts => Returns (join "," parts)).
Proof. reflexivity. Qed.

(** [String] converts a value exactly when it is printable, and throws a
    TypeError when it is not. *)
Lemma to_str_spec (v : value) :
  to_str v = if printable v then Returns (text_of v) else Throws TypeError.
Proof.
  unfold text_of. induction v as [| |b|n|s|xs IH|fields _] using value_induction;
    try reflexivity.
  - now destruct b.
  - rewrite to_str_array. cbn [printable].
    induction IH as [|x xs Hx _ IHxs]; [reflexivity|].
    cbn [traverse forallb].
    assert (Hex : element_text x
                  = if printable x
                    then Returns match element_text x with
                                 | Returns text => text
                                 | Throws _ => ""
                                 end
                    else Throws TypeError).
    { destruct x; try exact Hx; reflexivity. }
    rewrite Hex. destruct (printable x); cbn [bind andb]; [|reflexivity].
    destruct (forallb printable xs).
    + destruct (traverse element_text xs) as [parts|err]; [reflexivity|discriminate].
    + destruct (traverse element_text xs) as [parts|err]; [discriminate|].
      cbn [bind] in IHxs |- *. exact IHxs.
  - cbn [to_str printable]. now destruct (owns "toString" fields).
Qed.

Lemma to_str_printable (v : value) : printable v = true -> to_str v = Returns (text_of v).
Proof. intros H. now rewrite to_str_spec, H. Qed.

Lemma to_str_throws (v : value) : printable v = false -> to_str v = Throws TypeError.
Proof. intros H. now rewrite to_str_spec, H. Qed.



Lemma executeEndpoint_failure_example :
  Dynamic.executeEndpoint not_found_transport twice_endpoint id_42
  = Returns {| Dynamic.success := false;
               Dynamic.data := VUndefined;
               Dynamic.error := Some "API call failed: No such order";
               Dynamic.statusCode := Some (integer 404);
               Dynamic.endpoint :=
                 {| Dynamic.echo_path := twice_template;
                    Dynamic.echo_method := "GET";
                    Dynamic.echo_operationId := "getCopy" |} |}.
Proof. reflexivity. Qed.

(** ** Properties of the response formatter *)

Lemma append_assoc (a b c : string) : (a +:+ b) +:+ c = a +:+ (b +:+ c).
Proof.
  induction a as [|x a IH]; [reflexivity|].
  change (String x ((a +:+ b) +:+ c) = String x (a +:+ (b +:+ c))).
  now rewrite IH.
Qed.

Lemma append_nonempty_r (a b : string) : b <> "" -> a +:+ b <> "".
Proof. intros Hb. destruct a; [exact Hb|discriminate]. Qed.

Lemma append_nonempty_l (a b : string) : a <> "" -> a +:+ b <> "".
Proof. intros Ha. destruct a; [contradiction|discriminate]. Qed.

Lemma join_nonempty (sep x : string) (xs : list string) :
  x <> "" -> join sep (x :: xs) <> "".
Proof.
  intros Hx. destruct xs as [|y xs]; [exact Hx|].
  change (x +:+ sep +:+ join sep (y :: xs) <> ""). now apply append_nonempty_l.
Qed.

Lemma traverse_returns {A B : Type} (f : A -> completion RuntimeError B) (g : A -> B)
    (xs : list A) :
  (forall x, In x xs -> f x = Returns (g x)) -> traverse f xs = Returns (List.map g xs).
Proof.
  induction xs as [|x xs IH]; intros H; [reflexivity|].
  cbn [traverse List.map]. rewrite (H x) by now left. cbn [bind].
  rewrite IH by (intros y Hy; apply H; now right). reflexivity.
Qed.

Lemma select_returns {A : Type} (p : A -> completion RuntimeError bool) (q : A -> bool)
    (xs : list A) :
  (forall x, In x xs -> p x = Returns (q x)) -> select p xs = Returns (List.filter q xs).
Proof.
  induction xs as [|x xs IH]; intros H; [reflexivity|].
  cbn [select List.filter]. rewrite (H x) by now left. cbn [bind].
  rewrite IH by (intros y Hy; apply H; now right). reflexivity.
Qed.

Lemma traverse_cases {A B : Type} (f : A -> completion RuntimeError B) (q : A -> bool)
    (g : A -> B) (xs : list A) :
  (forall x, f x = if q x then Returns (g x) else Throws TypeError) ->
  traverse f xs = if forallb q xs then Returns (List.map g xs) else Throws TypeError.
Proof.
  intros H. induction xs as [|x xs IH]; [reflexivity|].
  cbn [traverse forallb List.map]. rewrite (H x), IH.
  destruct (q x); [|reflexivity]. cbn [bind andb]. now destruct (forallb q xs).
Qed.

Lemma field_text_cases (item : value) (k : string) :
  Dynamic.field_text item k
  = if printable (get k item)
    then Returns (k +:+ ": " +:+ text_of (get k item))
    else Throws TypeError.
Proof.
  unfold Dynamic.field_text. rewrite to_str_spec. now destruct (printable (get k item)).
Qed.

(** On an object or array that owns no property [hasOwnProperty], the method
    answers for a key field whether it is one of the keys. *)
Lemma hasOwnProperty_keyField (item : value) (k : string) :
  truthy item = true -> typeof_object item = true ->
  match item with
  | VObj fields => owns "hasOwnProperty" fields
  | _ => false
  end = false ->
  In k Dynamic.keyFields ->
  hasOwnProperty item k = Returns (existsb (String.eqb k) (keys item)).
Proof.
  intros Ht Ho Hown Hk.
  destruct item as [| |b|n|s|xs|fields]; try discriminate; cbn [hasOwnProperty keys].
  - replace (String.eqb k "length") with false; [now rewrite orb_false_r|].
    repeat (destruct Hk as [<-|Hk]; [reflexivity|]). destruct Hk.
  - now rewrite Hown.
Qed.

(** [formatItem] gives the preview that the specification describes for an
    item that it can show, and throws a TypeError for any other. *)
Lemma formatItem_cases (item : value) :
  Dynamic.formatItem item
  = if showable item then Returns (item_summary item) else Throws TypeError.
Proof.
  unfold Dynamic.formatItem, showable, item_summary.
  destruct (truthy item && typeof_object item) eqn:Hobj.
  - apply andb_true_iff in Hobj as [Ht Ho]. rewrite Ht, Ho. cbn [negb orb].
    destruct (match item with
              | VObj fields => owns "hasOwnProperty" fields
              | _ => false
              end) eqn:Hown.
    + destruct item as [| |b|n|s|xs|fields]; try discriminate.
      unfold Dynamic.keyFields. cbn [select hasOwnProperty]. now rewrite Hown.
    + replace (match item with
               | VObj fields => negb (owns "hasOwnProperty" fields)
               | _ => true
               end) with true
        by (destruct item; try reflexivity; now rewrite Hown).
      cbn [andb].
      rewrite (select_returns _ (fun k => existsb (String.eqb k) (keys item)))
        by (intros k Hk; now apply hasOwnProperty_keyField).
      cbn [bind]. unfold converted_fields, shown_fields, preferred_of.
      change preferred_fields with Dynamic.keyFields.
      set (pr := fun k => k +:+ ": " +:+ text_of (get k item)).
      rewrite (traverse_cases _ (fun k => printable (get k item)) pr)
        by (intros k; apply field_text_cases).
      destruct (List.filter _ Dynamic.keyFields) as [|f present].
      * cbn [forallb bind firstn List.map join String.eqb negb].
        rewrite (traverse_cases _ (fun k => printable (get k item)) pr)
          by (intros k; apply field_text_cases).
        now destruct (forallb _ (firstn 3 (keys item))).
      * destruct (forallb _ (f :: present)); [|reflexivity]. cbn [bind].
        rewrite firstn_map.
        assert (Hne : join ", " (List.map pr (firstn 3 (f :: present))) <> "").
        { cbn [firstn List.map]. apply join_nonempty. unfold pr.
          apply append_nonempty_r. discriminate. }
        now destruct (String.eqb_spec (join ", " (List.map pr (firstn 3 (f :: present)))) "").
  - replace (negb (truthy item) || negb (typeof_object item)) with true
      by (rewrite <- negb_andb, Hobj; reflexivity).
    apply to_str_printable. destruct item; try reflexivity; discriminate.
Qed.





(** The same texts when the list sits under the [data] key of the payload. *)
Lemma formatResponse_wrapped_lists (status : option safe_integer) (ep : Dynamic.EndpointEcho)
    (a b c d e : value) :
  Dynamic.formatResponse (successful (VObj [("data", VArr [])]) status ep)
  = Dynamic.formatResponse (successful (VArr []) status ep)
  /\ Dynamic.formatResponse (successful (VObj [("data", VArr [a; b; c; d; e])]) status ep)
     = Dynamic.formatResponse (successful (VArr [a; b; c; d; e]) status ep).
Proof. split; reflexivity. Qed.

(** ** Properties of the string built-ins *)

Lemma strip_prefix_app (p rest : string) : strip_prefix p (p +:+ rest) = Some rest.
Proof.
  induction p as [|a p IH]; [reflexivity|].
  change (strip_prefix (String a p) (String a (p +:+ rest)) = Some rest).
  cbn [strip_prefix]. now rewrite Ascii.eqb_refl.
Qed.

Lemma split_first_cons (p : string) (c : ascii) (s : string) :
  split_first p (String c s) =
  match strip_prefix p (String c s) with
  | Some rest => Some (EmptyString, rest)
  | None =>
      match split_first p s with
      | Some (before, rest) => Some (String c before, rest)
      | None => None
      end
  end.
Proof. reflexivity. Qed.

(** A text includes each of its parts. *)
Lemma includes_middle (a p b : string) : includes (a +:+ p +:+ b) p = true.
Proof.
  unfold includes. induction a as [|c a IH].
  - change ("" +:+ p +:+ b) with (p +:+ b).
    destruct (p +:+ b) eqn:E; cbn [split_first]; rewrite <- E, strip_prefix_app; reflexivity.
  - change (String c a +:+ p +:+ b) with (String c (a +:+ p +:+ b)).
    rewrite split_first_cons.
    destruct (strip_prefix p (String c (a +:+ p +:+ b))); [reflexivity|].
    destruct (split_first p (a +:+ p +:+ b)) as [[before rest]|]; [reflexivity|discriminate].
Qed.

Lemma append_empty_r (s : string) : s +:+ "" = s.
Proof.
  induction s as [|c s IH]; [reflexivity|].
  change (String c (s +:+ "") = String c s). now rewrite IH.
Qed.

Lemma includes_self (s : string) : includes s s = true.
Proof.
  pose proof (includes_middle "" s "") as H.
  change ("" +:+ s +:+ "") with (s +:+ "") in H. now rewrite append_empty_r in H.
Qed.

Lemma includes_tail (a p : string) : includes (a +:+ p) p = true.
Proof. pose proof (includes_middle a p "") as H. now rewrite append_empty_r in H. Qed.

Lemma includes_empty (s : string) : includes s "" = true.
Proof. unfold includes. destruct s; reflexivity. Qed.

Lemma map_chars_app (f : ascii -> ascii) (a b : string) :
  map_chars f (a +:+ b) = map_chars f a +:+ map_chars f b.
Proof.
  induction a as [|c a IH]; [reflexivity|].
  change (String (f c) (map_chars f (a +:+ b)) = String (f c) (map_chars f a +:+ map_chars f b)).
  now rewrite IH.
Qed.

Lemma toLowerCase_app (a b : string) :
  toLowerCase (a +:+ b) = toLowerCase a +:+ toLowerCase b.
Proof. apply map_chars_app. Qed.

Lemma lower_char_idempotent (c : ascii) : lower_char (lower_char c) = lower_char c.
Proof. destruct c as [[] [] [] [] [] [] [] []]; reflexivity. Qed.

Lemma toLowerCase_idempotent (s : string) : toLowerCase (toLowerCase s) = toLowerCase s.
Proof.
  unfold toLowerCase. induction s as [|c s IH]; [reflexivity|].
  cbn [map_chars]. now rewrite lower_char_idempotent, IH.
Qed.

Lemma includes_inside (x a y q : string) :
  includes a q = true -> includes (x +:+ a +:+ y) q = true.
Proof.
  unfold includes at 1. destruct (split_first q a) as [[before rest]|] eqn:E; [|discriminate].
  intros _. rewrite (split_first_spec _ _ _ _ E).
  replace (x +:+ (before +:+ q +:+ rest) +:+ y)
    with ((x +:+ before) +:+ q +:+ (rest +:+ y)) by now rewrite !append_assoc.
  apply includes_middle.
Qed.

(** ** Properties of the catalog queries *)

Lemma generateMCPTools_In (es : list Parser.SwaggerEndpoint) (tool : Parser.ParsedOperation) :
  In tool (Parser.generateMCPTools es) <->
  exists e, In e es /\ Parser.shouldSkipEndpoint e = false /\ tool = Parser.make_tool e.
Proof.
  induction es as [|e es IH]; simpl.
  - split; [intros []|intros (e & [] & _)].
  - destruct (Parser.shouldSkipEndpoint e) eqn:Hs.
    + rewrite IH. split.
      * intros (e' & H1 & H2 & H3). exists e'. auto.
      * intros (e' & [<-|H1] & H2 & H3); [congruence|]. exists e'. auto.
    + simpl. rewrite IH. split.
      * intros [<-|(e' & H1 & H2 & H3)]; [exists e; auto|exists e'; auto].
      * intros (e' & [<-|H1] & H2 & H3); [left; now symmetry|right; exists e'; auto].
Qed.

(** The description of a tool has the method and the path of its endpoint in
    it, separated by a space. *)
Lemma description_shape (e : Parser.SwaggerEndpoint) :
  exists a b : string,
    Parser.generateToolDescription e
    = a +:+ Parser.method e +:+ " " +:+ Parser.path e +:+ b.
Proof.
  unfold Parser.generateToolDescription.
  set (d := if String.eqb _ "" then _ else _).
  destruct (0 <? List.length (Parser.tags e))%nat.
  - exists (d +:+ "\n\n**Endpoint:** "), ("\n**Categories:** " +:+ join ", " (Parser.tags e)).
    now rewrite !append_assoc.
  - exists (d +:+ "\n\n**Endpoint:** "), "".
    now rewrite !append_assoc, append_empty_r.
Qed.

(** A generated tool is found by any part of the path or of the method of
    its endpoint, typed in any letter case. *)
Theorem searchTools_by_path_or_method
    (es : list Parser.SwaggerEndpoint) (tool : Parser.ParsedOperation) (query : string) :
  In tool (Parser.generateMCPTools es) ->
  includes (toLowerCase (Parser.path (Parser.endpoint tool))) (toLowerCase query) = true
  \/ includes (toLowerCase (Parser.method (Parser.endpoint tool))) (toLowerCase query) = true ->
  In tool (Catalog.searchTools (Parser.generateMCPTools es) query).
Proof.
  intros Hin Hq. unfold Catalog.searchTools. apply filter_In. split; [exact Hin|].
  apply generateMCPTools_In in Hin as (e & _ & _ & ->).
  unfold Catalog.matches. cbn [Parser.make_tool Parser.tool_description Parser.endpoint] in *.
  destruct (description_shape e) as (a & b & ->).
  rewrite !toLowerCase_app.
  apply orb_true_iff. left. apply orb_true_iff. right.
  destruct Hq as [Hq|Hq].
  - replace (toLowerCase a +:+ toLowerCase (Parser.method e) +:+ toLowerCase " "
             +:+ toLowerCase (Parser.path e) +:+ toLowerCase b)
      with ((toLowerCase a +:+ toLowerCase (Parser.method e) +:+ toLowerCase " ")
            +:+ toLowerCase (Parser.path e) +:+ toLowerCase b)
      by now rewrite !append_assoc.
    now apply includes_inside.
  - now apply includes_inside.
Qed.

Lemma searchTools_by_path_or_method_witness :
  In (Parser.make_tool orders_endpoint) (Catalog.searchTools catalog "API/ORDERS").
Proof.
  apply (searchTools_by_path_or_method
           [widget_endpoint; orders_endpoint; items_dash]
           (Parser.make_tool orders_endpoint) "API/ORDERS").
  - right. left. reflexivity.
  - left. reflexivity.
Defined.

(** The empty query selects every tool. *)
Theorem searchTools_empty_query (tools : list Parser.ParsedOperation) :
  Catalog.searchTools tools "" = tools.
Proof.
  unfold Catalog.searchTools. cbv zeta. change (toLowerCase "") with "".
  induction tools as [|t tools IH]; [reflexivity|].
  cbn [List.filter]. unfold Catalog.matches at 1.
  rewrite includes_empty. cbn [orb]. now rewrite IH.
Qed.

Lemma set_add_In (seen : list string) (x y : string) :
  In x (set_add seen y) <-> In x seen \/ x = y.
Proof.
  unfold set_add. destruct (existsb (String.eqb y) seen) eqn:E.
  - split; [auto|]. intros [H| ->]; [exact H|].
    apply existsb_exists in E as (z & Hz & Hyz). apply String.eqb_eq in Hyz. now subst.
  - rewrite in_app_iff. simpl. intuition.
Qed.

Lemma set_add_NoDup (seen : list string) (y : string) :
  NoDup seen -> NoDup (set_add seen y).
Proof.
  intros H. unfold set_add. destruct (existsb (String.eqb y) seen) eqn:E; [exact H|].
  apply NoDup_app. split; [exact H|]. split; [|apply NoDup_singleton].
  intros x Hx Hy. apply list_elem_of_In in Hx. apply list_elem_of_In in Hy.
  destruct Hy as [<-|[]].
  assert (existsb (String.eqb y) seen = true); [|congruence].
  apply existsb_exists. exists y. split; [exact Hx|apply String.eqb_refl].
Qed.

Lemma fold_set_add (ts seen : list string) :
  (forall x, In x (fold_left set_add ts seen) <-> In x seen \/ In x ts)
  /\ (NoDup seen -> NoDup (fold_left set_add ts seen)).
Proof.
  revert seen. induction ts as [|t ts IH]; intros seen; simpl.
  - split; [intuition|auto].
  - destruct (IH (set_add seen t)) as [IH1 IH2]. split.
    + intros x. rewrite IH1, set_add_In. intuition.
    + intros H. apply IH2, set_add_NoDup, H.
Qed.

Lemma fold_collect (tools : list Parser.ParsedOperation) (seen : list string) :
  let collected :=
    fold_left (fun seen tool => fold_left set_add (Parser.tags (Parser.endpoint tool)) seen)
      tools seen in
  (forall x, In x collected <->
             In x seen \/ exists t, In t tools /\ In x (Parser.tags (Parser.endpoint t)))
  /\ (NoDup seen -> NoDup collected).
Proof.
  cbv zeta. revert seen. induction tools as [|t tools IH]; intros seen; simpl.
  - split; [|auto]. intros x. split; [auto|]. intros [H|(t & [] & _)]. exact H.
  - destruct (IH (fold_left set_add (Parser.tags (Parser.endpoint t)) seen)) as [IH1 IH2].
    destruct (fold_set_add (Parser.tags (Parser.endpoint t)) seen) as [F1 F2].
    split.
    + intros x. rewrite IH1, F1. split.
      * intros [[H|H]|(u & Hu & Hx)]; [auto|right; exists t; auto|right; exists u; auto].
      * intros [H|(u & [<-|Hu] & Hx)]; [auto|auto|right; exists u; auto].
    + intros H. apply IH2, F2, H.
Qed.

Lemma insert_sorted_In (x y : string) (l : list string) :
  In x (insert_sorted y l) <-> x = y \/ In x l.
Proof.
  induction l as [|z l IH]; simpl; [intuition|].
  destruct (String.leb y z); simpl; rewrite ?IH; intuition.
Qed.

Lemma sort_In (x : string) (l : list string) : In x (sort l) <-> In x l.
Proof.
  unfold sort. induction l as [|y l IH]; simpl; [reflexivity|].
  rewrite insert_sorted_In, IH. intuition.
Qed.

Lemma insert_sorted_NoDup (y : string) (l : list string) :
  ~ In y l -> NoDup l -> NoDup (insert_sorted y l).
Proof.
  induction l as [|z l IH]; simpl; intros Hy Hl.
  - apply NoDup_singleton.
  - destruct (String.leb y z).
    + apply NoDup_cons_2; [|exact Hl]. intros H. apply list_elem_of_In in H. now apply Hy.
    + apply NoDup_cons in Hl as [Hz Hl]. apply NoDup_cons_2.
      * intros H. apply list_elem_of_In, insert_sorted_In in H as [->|H]; [intuition|].
        apply Hz, list_elem_of_In, H.
      * apply IH; [intuition|exact Hl].
Qed.

Lemma sort_NoDup (l : list string) : NoDup l -> NoDup (sort l).
Proof.
  unfold sort. induction l as [|y l IH]; simpl; intros H; [constructor|].
  apply NoDup_cons in H as [Hy Hl].
  apply insert_sorted_NoDup; [|now apply IH].
  fold (sort l). rewrite sort_In. intros H. apply Hy, list_elem_of_In, H.
Qed.

Lemma insert_sorted_Sorted (y : string) (l : list string) :
  Sorted (fun a b => String.leb a b = true) l ->
  Sorted (fun a b => String.leb a b = true) (insert_sorted y l).
Proof.
  induction 1 as [|z l Hl IH Hz]; simpl; [repeat constructor|].
  destruct (String.leb y z) eqn:E.
  - constructor; [now constructor|now constructor].
  - constructor; [exact IH|].
    assert (Hzy : String.leb z y = true).
    { destruct (String.leb_total y z); congruence. }
    destruct Hz as [|w l Hw]; simpl; [now constructor|].
    destruct (String.leb y w); now constructor.
Qed.

Lemma sort_Sorted (l : list string) : Sorted (fun a b => String.leb a b = true) (sort l).
Proof.
  unfold sort. induction l as [|y l IH]; simpl; [constructor|].
  now apply insert_sorted_Sorted.
Qed.

Lemma categories_In (tools : list Parser.ParsedOperation) (c : string) :
  In c (Catalog.getAvailableCategories tools) <->
  exists t, In t tools /\ In c (Parser.tags (Parser.endpoint t)).
Proof.
  unfold Catalog.getAvailableCategories, Catalog.collect_categories.
  destruct (fold_collect tools []) as [H1 _]. cbv zeta in H1.
  rewrite sort_In, H1. split; [intros [[]|H]; exact H|auto].
Qed.

(** The categories are exactly the tags of the tools, each listed once, in
    ascending order. *)
Theorem getAvailableCategories_spec (tools : list Parser.ParsedOperation) :
  (forall c : string,
     In c (Catalog.getAvailableCategories tools) <->
     exists t, In t tools /\ In c (Parser.tags (Parser.endpoint t)))
  /\ NoDup (Catalog.getAvailableCategories tools)
  /\ Sorted (fun a b => String.leb a b = true) (Catalog.getAvailableCategories tools).
Proof.
  unfold Catalog.getAvailableCategories, Catalog.collect_categories.
  destruct (fold_collect tools []) as [H1 H2]. cbv zeta in H1, H2.
  split; [|split].
  - intros c. rewrite sort_In, H1. split; [intros [[]|H]; exact H|auto].
  - apply sort_NoDup, H2. constructor.
  - apply sort_Sorted.
Qed.

Lemma filter_nonempty {A : Type} (f : A -> bool) (l : list A) :
  List.filter f l <> [] <-> exists x, In x l /\ f x = true.
Proof.
  induction l as [|a l IH]; simpl.
  - split; [congruence|intros (x & [] & _)].
  - destruct (f a) eqn:E.
    + split; [intros _; exists a; auto|discriminate].
    + rewrite IH. split.
      * intros (x & Hx & Hf). exists x. auto.
      * intros (x & [<-|Hx] & Hf); [congruence|exists x; auto].
Qed.

(** A category has tools exactly when it is one of the available
    categories. *)
Theorem getToolsByCategory_nonempty (tools : list Parser.ParsedOperation) (category : string) :
  Catalog.getToolsByCategory tools category <> []
  <-> In category (Catalog.getAvailableCategories tools).
Proof.
  unfold Catalog.getToolsByCategory.
  rewrite filter_nonempty, categories_In.
  split; intros (t & Ht & H); exists t; split; try exact Ht.
  - apply existsb_exists in H as (x & Hx & E). apply String.eqb_eq in E. now subst.
  - apply existsb_exists. exists category. split; [exact H|apply String.eqb_refl].
Qed.

(** ** Properties of the endpoint statistics *)

Lemma bump_rounds (counts : gmap string Catalog.Counter) (k k' : string) :
  k' <> "__proto__" ->
  rounds (Catalog.bump counts k !! k')
  = (rounds (counts !! k') + if String.eqb k' k then 1 else 0)%nat.
Proof.
  intros Hk'. unfold Catalog.bump.
  destruct (String.eqb_spec k "__proto__") as [->|Hk].
  - destruct (String.eqb_spec k' "__proto__"); [contradiction|lia].
  - destruct (String.eqb_spec k' k) as [->|Hne].
    + destruct (counts !! k) as [[n|ones]|]; [| |destruct (existsb _ _)];
        rewrite lookup_insert_eq; reflexivity.
    + destruct (counts !! k) as [[n|ones]|]; [| |destruct (existsb _ _)];
        rewrite lookup_insert_ne by congruence; lia.
Qed.

Lemma bump_proto (counts : gmap string Catalog.Counter) (k : string) :
  Catalog.bump counts k !! "__proto__" = counts !! "__proto__".
Proof.
  unfold Catalog.bump. destruct (String.eqb_spec k "__proto__") as [->|Hk]; [reflexivity|].
  destruct (counts !! k) as [[n|ones]|]; [| |destruct (existsb _ _)];
    now rewrite lookup_insert_ne.
Qed.

Lemma counter_after_succ (k : string) (n : nat) (c : Catalog.Counter) :
  counter_after k n = Some c ->
  counter_after k (n + 1)
  = Some match c with
         | Catalog.Count _ => Catalog.Count (n + 1)
         | Catalog.FunctionText _ => Catalog.FunctionText (n + 1)
         end.
Proof.
  unfold counter_after. destruct (String.eqb k "__proto__"); [discriminate|].
  cbn [orb]. destruct (Nat.eqb_spec n 0); [discriminate|].
  destruct (Nat.eqb_spec (n + 1) 0); [lia|].
  destruct (existsb (String.eqb k) Catalog.inherited_methods); now intros [= <-].
Qed.

Lemma bump_sound (counts : gmap string Catalog.Counter) (k : string) :
  sound_counts counts -> sound_counts (Catalog.bump counts k).
Proof.
  unfold sound_counts, Catalog.bump. intros H k' c.
  destruct (String.eqb_spec k "__proto__") as [->|Hk]; [apply H|].
  destruct (counts !! k) as [[n|ones]|] eqn:E.
  - destruct (decide (k = k')) as [<-|Hne].
    + rewrite lookup_insert_eq. intros [= <-]. cbn [rounds].
      apply (counter_after_succ k n _ (H k _ E)).
    + rewrite lookup_insert_ne by exact Hne. apply H.
  - destruct (decide (k = k')) as [<-|Hne].
    + rewrite lookup_insert_eq. intros [= <-]. cbn [rounds].
      apply (counter_after_succ k ones _ (H k _ E)).
    + rewrite lookup_insert_ne by exact Hne. apply H.
  - destruct (existsb (String.eqb k) Catalog.inherited_methods) eqn:Ei;
      (destruct (decide (k = k')) as [<-|Hne];
       [rewrite lookup_insert_eq; intros [= <-]; unfold counter_after; cbn [rounds];
        destruct (String.eqb_spec k "__proto__"); [contradiction|];
        cbn [Nat.eqb orb]; now rewrite Ei
       |rewrite lookup_insert_ne by exact Hne; apply H]).
Qed.

Lemma sound_empty : sound_counts ∅.
Proof. intros k c H. rewrite lookup_empty in H. discriminate. Qed.

(** A dictionary of counters is determined by the rounds it records. *)
Lemma sound_lookup (counts : gmap string Catalog.Counter) (k : string) :
  sound_counts counts -> counts !! k = counter_after k (rounds (counts !! k)).
Proof.
  intros H. destruct (counts !! k) as [c|] eqn:E.
  - symmetry. exact (H k c E).
  - unfold counter_after. cbn. now rewrite orb_true_r.
Qed.

Lemma bump_total (counts : gmap string Catalog.Counter) (k : string) :
  total_count (Catalog.bump counts k)
  = (total_count counts + if String.eqb k "__proto__" then 0 else 1)%nat.
Proof.
  unfold total_count, Catalog.bump.
  destruct (String.eqb_spec k "__proto__") as [->|Hk]; [lia|].
  assert (Hnew : forall c : Catalog.Counter,
            counts !! k = None ->
            map_fold (fun _ c acc => (rounds (Some c) + acc)%nat) 0%nat (<[k := c]> counts)
            = (rounds (Some c)
               + map_fold (fun _ c acc => (rounds (Some c) + acc)%nat) 0%nat counts)%nat).
  { intros c E. rewrite map_fold_insert_L; [reflexivity|intros; lia|exact E]. }
  assert (Hold : forall c c' : Catalog.Counter,
            counts !! k = Some c ->
            (map_fold (fun _ c acc => (rounds (Some c) + acc)%nat) 0%nat (<[k := c']> counts)
             + rounds (Some c))%nat
            = (rounds (Some c')
               + map_fold (fun _ c acc => (rounds (Some c) + acc)%nat) 0%nat counts)%nat).
  { intros c c' E. rewrite <- insert_delete_eq.
    rewrite map_fold_insert_L; [|intros; lia|apply lookup_delete_eq].
    rewrite (map_fold_delete_L _ _ k c counts); [lia|intros; lia|exact E]. }
  destruct (counts !! k) as [[n|ones]|] eqn:E.
  - pose proof (Hold _ (Catalog.Count (n + 1)) eq_refl) as H. cbn [rounds] in H |- *. lia.
  - pose proof (Hold _ (Catalog.FunctionText (ones + 1)) eq_refl) as H.
    cbn [rounds] in H |- *. lia.
  - destruct (existsb _ _); rewrite (Hnew _ eq_refl); cbn [rounds]; lia.
Qed.

Lemma fold_bump (ts : list string) (counts : gmap string Catalog.Counter) :
  (forall c, c <> "__proto__" ->
             rounds (fold_left Catalog.bump ts counts !! c)
             = (rounds (counts !! c) + occurrences c ts)%nat)
  /\ fold_left Catalog.bump ts counts !! "__proto__" = counts !! "__proto__"
  /\ (sound_counts counts -> sound_counts (fold_left Catalog.bump ts counts)).
Proof.
  revert counts. induction ts as [|t ts IH]; intros counts; simpl.
  - split; [intros c _; unfold occurrences; simpl; lia|auto].
  - destruct (IH (Catalog.bump counts t)) as (IH1 & IH2 & IH3). split; [|split].
    + intros c Hc. rewrite (IH1 c Hc), (bump_rounds _ _ _ Hc). unfold occurrences. simpl.
      destruct (String.eqb c t); simpl; lia.
    + now rewrite IH2, bump_proto.
    + intros H. apply IH3, bump_sound, H.
Qed.

Lemma count_if_le (p word : string) (n : nat) :
  (n <= Catalog.count_if p word n <= S n)%nat.
Proof. unfold Catalog.count_if. destruct (includes p word); lia. Qed.

(** What the loop of [getEndpointStatistics] adds to the counters it starts
    from. *)
Lemma tally_fold (tools : list Parser.ParsedOperation) (acc : Catalog.EndpointStatistics) :
  let stats := fold_left Catalog.tally tools acc in
  Catalog.totalEndpoints stats = Catalog.totalEndpoints acc
  /\ Catalog.categories stats = Catalog.categories acc
  /\ (forall m, m <> "__proto__" ->
                rounds (Catalog.byMethod stats !! m)
                = (rounds (Catalog.byMethod acc !! m) + count_method m tools)%nat)
  /\ Catalog.byMethod stats !! "__proto__" = Catalog.byMethod acc !! "__proto__"
  /\ total_count (Catalog.byMethod stats)
     = (total_count (Catalog.byMethod acc) + counted_tools tools)%nat
  /\ (forall c, c <> "__proto__" ->
                rounds (Catalog.byCategory stats !! c)
                = (rounds (Catalog.byCategory acc !! c) + count_tag c tools)%nat)
  /\ Catalog.byCategory stats !! "__proto__" = Catalog.byCategory acc !! "__proto__"
  /\ (sound_counts (Catalog.byMethod acc) -> sound_counts (Catalog.byMethod stats))
  /\ (sound_counts (Catalog.byCategory acc) -> sound_counts (Catalog.byCategory stats))
  /\ (Catalog.withKitItems stats <= Catalog.withKitItems acc + List.length tools)%nat
  /\ (Catalog.withOrders stats <= Catalog.withOrders acc + List.length tools)%nat
  /\ (Catalog.withProducts stats <= Catalog.withProducts acc + List.length tools)%nat
  /\ (Catalog.relationships stats <= Catalog.relationships acc + List.length tools)%nat.
Proof.
  cbv zeta. revert acc. induction tools as [|t tools IH]; intros acc.
  - simpl. unfold count_method, count_tag, counted_tools. simpl.
    repeat split; auto; try lia; intros; lia.
  - cbn [fold_left].
    destruct (IH (Catalog.tally acc t))
      as (H1 & H2 & H3 & H3' & H4 & H5 & H5' & H6 & H7 & H8 & H9 & H10 & H11).
    destruct (fold_bump (Parser.tags (Parser.endpoint t)) (Catalog.byCategory acc))
      as (F1 & F2 & F3).
    cbn [Catalog.tally Catalog.totalEndpoints Catalog.categories Catalog.byMethod
         Catalog.byCategory Catalog.withKitItems Catalog.withOrders Catalog.withProducts
         Catalog.relationships] in *.
    split; [exact H1|]. split; [exact H2|]. split; [|split; [|split; [|split; [|split]]]].
    + intros m Hm. rewrite (H3 m Hm), (bump_rounds _ _ _ Hm). unfold count_method.
      cbn [List.filter].
      destruct (String.eqb m (Parser.method (Parser.endpoint t))); simpl; lia.
    + now rewrite H3', bump_proto.
    + rewrite H4, bump_total. unfold counted_tools. cbn [List.filter].
      destruct (String.eqb (Parser.method (Parser.endpoint t)) "__proto__"); simpl; lia.
    + intros c Hc. rewrite (H5 c Hc), (F1 c Hc). unfold count_tag. simpl. lia.
    + now rewrite H5', F2.
    + split; [intros H; apply H6, bump_sound, H|].
      split; [intros H; apply H7, F3, H|].
      pose proof (count_if_le (toLowerCase (Parser.path (Parser.endpoint t))) "kititem"
                    (Catalog.withKitItems acc)).
      pose proof (count_if_le (toLowerCase (Parser.path (Parser.endpoint t))) "order"
                    (Catalog.withOrders acc)).
      pose proof (count_if_le (toLowerCase (Parser.path (Parser.endpoint t))) "product"
                    (Catalog.withProducts acc)).
      pose proof (count_if_le (toLowerCase (Parser.path (Parser.endpoint t))) "relationship"
                    (Catalog.relationships acc)).
      simpl. repeat split; lia.
Qed.

Lemma total_empty : total_count ∅ = 0%nat.
Proof. unfold total_count. apply map_fold_empty. Qed.

(** What the statistics hold under every key of [byMethod] and of
    [byCategory]. *)
Lemma statistics_counters (tools : list Parser.ParsedOperation) :
  let stats := Catalog.getEndpointStatistics tools in
  Catalog.totalEndpoints stats = List.length tools
  /\ Catalog.categories stats = Catalog.getAvailableCategories tools
  /\ (forall m, Catalog.byMethod stats !! m = counter_after m (count_method m tools))
  /\ (forall c, Catalog.byCategory stats !! c = counter_after c (count_tag c tools))
  /\ total_count (Catalog.byMethod stats) = counted_tools tools.
Proof.
  cbv zeta. unfold Catalog.getEndpointStatistics.
  set (init := {| Catalog.totalEndpoints := _ |}).
  destruct (tally_fold tools init)
    as (H1 & H2 & H3 & H3' & H4 & H5 & H5' & H6 & H7 & _).
  cbv zeta in *. subst init.
  cbn [Catalog.totalEndpoints Catalog.categories Catalog.byMethod Catalog.byCategory] in *.
  split; [exact H1|]. split; [exact H2|]. split; [|split].
  - intros m. rewrite (sound_lookup _ m (H6 sound_empty)).
    destruct (String.eqb_spec m "__proto__") as [->|Hm].
    + reflexivity.
    + now rewrite (H3 m Hm), lookup_empty.
  - intros c. rewrite (sound_lookup _ c (H7 sound_empty)).
    destruct (String.eqb_spec c "__proto__") as [->|Hc].
    + reflexivity.
    + now rewrite (H5 c Hc), lookup_empty.
  - now rewrite H4, total_empty.
Qed.

Lemma filter_all {A : Type} (f : A -> bool) (l : list A) :
  (forall x, In x l -> f x = true) -> List.filter f l = l.
Proof.
  induction l as [|a l IH]; intros H; [reflexivity|]. simpl.
  rewrite (H a) by now left. f_equal. apply IH. intros x Hx. apply H. now right.
Qed.

Lemma count_method_positive (m : string) (tools : list Parser.ParsedOperation) :
  count_method m tools <> 0%nat ->
  exists t, In t tools /\ Parser.method (Parser.endpoint t) = m.
Proof.
  unfold count_method. intros H.
  destruct (List.filter _ tools) as [|t l] eqn:E; [contradiction|].
  assert (Ht : In t (List.filter
                       (fun t => String.eqb m (Parser.method (Parser.endpoint t))) tools))
    by (rewrite E; now left).
  apply filter_In in Ht as [Ht Hm]. apply String.eqb_eq in Hm. eauto.
Qed.

(** The per-method counters, for tools of which no method is the name of a
    member of [Object.prototype]: [byMethod[m]] is the number of tools with
    method [m], a method without a tool has no entry, every entry is a number,
    and the counters add up to [totalEndpoints], the number of tools. *)
Theorem statistics_by_method (tools : list Parser.ParsedOperation) :
  Forall (fun t => inherited (Parser.method (Parser.endpoint t)) = false) tools ->
  let stats := Catalog.getEndpointStatistics tools in
  Catalog.totalEndpoints stats = List.length tools
  /\ (forall m, count_at (Catalog.byMethod stats) m = count_method m tools)
  /\ (forall m, Catalog.byMethod stats !! m = None <-> count_method m tools = 0%nat)
  /\ (forall m c, Catalog.byMethod stats !! m = Some c ->
                  c = Catalog.Count (count_method m tools))
  /\ total_count (Catalog.byMethod stats) = Catalog.totalEndpoints stats.
Proof.
  intros Hplain. cbv zeta.
  destruct (statistics_counters tools) as (H1 & _ & H3 & _ & H5). cbv zeta in *.
  assert (Hm : forall m, Catalog.byMethod (Catalog.getEndpointStatistics tools) !! m
                         = if (count_method m tools =? 0)%nat then None
                           else Some (Catalog.Count (count_method m tools))).
  { intros m. rewrite H3. unfold counter_after.
    destruct (Nat.eqb_spec (count_method m tools) 0) as [E|E]; [now rewrite orb_true_r|].
    apply count_method_positive in E as (t & Ht & <-).
    rewrite List.Forall_forall in Hplain. specialize (Hplain t Ht).
    unfold inherited in Hplain. apply orb_false_iff in Hplain as [-> ->]. reflexivity. }
  split; [exact H1|]. split; [|split; [|split]].
  - intros m. unfold count_at. rewrite Hm.
    now destruct (Nat.eqb_spec (count_method m tools) 0).
  - intros m. rewrite Hm. destruct (Nat.eqb_spec (count_method m tools) 0); split; congruence.
  - intros m c. rewrite Hm. destruct (Nat.eqb_spec (count_method m tools) 0); congruence.
  - rewrite H5, H1. unfold counted_tools. f_equal. apply filter_all.
    intros t Ht. rewrite List.Forall_forall in Hplain. specialize (Hplain t Ht).
    unfold inherited in Hplain. apply orb_false_iff in Hplain as [-> _]. reflexivity.
Qed.

Lemma statistics_by_method_witness :
  Catalog.totalEndpoints (Catalog.getEndpointStatistics catalog) = 3%nat.
Proof.
  refine (proj1 (statistics_by_method catalog _)).
  repeat constructor.
Defined.

(** The tools made from a document have methods in upper case, and no member
    of [Object.prototype] has such a name. *)
Lemma toUpperCase_no_lower (s : string) :
  all_chars (fun c => negb (is_lower c)) (toUpperCase s) = true.
Proof.
  unfold toUpperCase. induction s as [|c s IH]; [reflexivity|].
  cbn [map_chars all_chars]. rewrite IH, andb_true_r.
  destruct c as [[] [] [] [] [] [] [] []]; reflexivity.
Qed.

Lemma inherited_has_lower (s : string) :
  inherited s = true -> all_chars (fun c => negb (is_lower c)) s = false.
Proof.
  unfold inherited, Catalog.inherited_methods. cbn [existsb]. intros H.
  repeat (apply orb_true_iff in H as [H|H];
          [apply String.eqb_eq in H; subst s; reflexivity|]).
  discriminate.
Qed.

Lemma document_methods_not_inherited (doc : Parser.Document) :
  Forall (fun t => inherited (Parser.method (Parser.endpoint t)) = false)
    (Parser.generateMCPTools (Parser.getAllEndpoints doc)).
Proof.
  apply List.Forall_forall. intros t Ht.
  apply generateMCPTools_In in Ht as (e & He & _ & ->). cbn [Parser.make_tool Parser.endpoint].
  assert (Hup : exists key, Parser.method e = toUpperCase key).
  { unfold Parser.getAllEndpoints in He.
    induction (default [] (Parser.doc_paths doc)) as [|[p [item|]] ps IH]; simpl in He.
    - destruct He.
    - apply in_app_or in He as [He|He]; [|now apply IH].
      clear IH. induction item as [|[key f] r IHr]; simpl in He; [destruct He|].
      destruct (Parser.not_an_object f || String.eqb key "parameters"); [now apply IHr|].
      destruct He as [<-|He]; [|now apply IHr]. exists key. reflexivity.
    - now apply IH. }
  destruct Hup as (key & ->).
  destruct (inherited (toUpperCase key)) eqn:E; [|reflexivity].
  apply inherited_has_lower in E. now rewrite toUpperCase_no_lower in E.
Qed.

Lemma count_tag_positive (c : string) (tools : list Parser.ParsedOperation) :
  (0 < count_tag c tools)%nat
  <-> exists t, In t tools /\ In c (Parser.tags (Parser.endpoint t)).
Proof.
  unfold count_tag. induction tools as [|t tools IH]; simpl.
  - split; [lia|intros (t & [] & _)].
  - assert (Hocc : (0 < occurrences c (Parser.tags (Parser.endpoint t)))%nat
                   <-> In c (Parser.tags (Parser.endpoint t))).
    { unfold occurrences. induction (Parser.tags (Parser.endpoint t)) as [|x ts IHts]; simpl.
      - split; [lia|intros []].
      - destruct (String.eqb_spec c x) as [->|Hne]; simpl.
        + split; [auto|lia].
        + rewrite IHts. split; [auto|intros [H|H]; [congruence|exact H]]. }
    split.
    + intros H.
      destruct (Nat.eq_dec (occurrences c (Parser.tags (Parser.endpoint t))) 0) as [E|E].
      * rewrite E in H. apply IH in H as (u & Hu & Hc). exists u. auto.
      * exists t. split; [auto|]. apply Hocc. lia.
    + intros (u & [<-|Hu] & Hc).
      * apply Hocc in Hc. lia.
      * assert (0 < list_sum (List.map
                  (fun t0 => occurrences c (Parser.tags (Parser.endpoint t0))) tools))%nat
          by (apply IH; exists u; auto).
        lia.
Qed.

(** The per-category counters.  Under a tag that no member of
    [Object.prototype] is named after, [byCategory] holds the number of times
    the tools list the tag, a tag listed twice by one tool counting twice, and
    nothing when no tool lists it.  Under the name of an inherited method it
    holds text, not a number: the text of the method followed by one digit 1
    for each listing.  Under [__proto__] it holds nothing, however often the
    tag is listed.  So the keys of [byCategory] are the categories other than
    [__proto__]. *)
Theorem statistics_by_category (tools : list Parser.ParsedOperation) :
  let stats := Catalog.getEndpointStatistics tools in
  (forall c, inherited c = false ->
             Catalog.byCategory stats !! c
             = if (count_tag c tools =? 0)%nat then None
               else Some (Catalog.Count (count_tag c tools)))
  /\ (forall c, In c Catalog.inherited_methods ->
                Catalog.byCategory stats !! c
                = if (count_tag c tools =? 0)%nat then None
                  else Some (Catalog.FunctionText (count_tag c tools)))
  /\ Catalog.byCategory stats !! "__proto__" = None
  /\ (forall c, is_Some (Catalog.byCategory stats !! c)
                <-> In c (Catalog.categories stats) /\ c <> "__proto__")
  /\ Catalog.categories stats = Catalog.getAvailableCategories tools.
Proof.
  cbv zeta. destruct (statistics_counters tools) as (_ & H2 & _ & H4 & _). cbv zeta in *.
  split; [|split; [|split; [|split; [|exact H2]]]].
  - intros c Hc. rewrite H4. unfold counter_after.
    unfold inherited in Hc. apply orb_false_iff in Hc as [-> ->]. reflexivity.
  - intros c Hc. rewrite H4. unfold counter_after.
    assert (E1 : String.eqb c "__proto__" = false).
    { unfold Catalog.inherited_methods in Hc.
      repeat (destruct Hc as [<-|Hc]; [reflexivity|]). destruct Hc. }
    assert (E2 : existsb (String.eqb c) Catalog.inherited_methods = true).
    { apply existsb_exists. exists c. split; [exact Hc|apply String.eqb_refl]. }
    now rewrite E1, E2.
  - now rewrite H4.
  - intros c. rewrite H2, categories_In, <- count_tag_positive, H4. unfold counter_after.
    destruct (String.eqb_spec c "__proto__") as [->|Hne]; cbn [orb].
    + split; [intros [x Hx]; discriminate|intros [_ H]; contradiction].
    + destruct (Nat.eqb_spec (count_tag c tools) 0) as [E|E].
      * split; [intros [x Hx]; discriminate|lia].
      * split; [intros _; split; [lia|exact Hne]|].
        intros _. destruct (existsb _ _); eauto.
Qed.

(** The tag [constructor], listed twice, is counted as text, and the tag
    [__proto__] is not counted at all. *)
Lemma statistics_by_category_example :
  Catalog.byCategory (Catalog.getEndpointStatistics [Parser.make_tool proto_endpoint])
    !! "constructor"
  = Some (Catalog.FunctionText 2)
  /\ Catalog.byCategory (Catalog.getEndpointStatistics [Parser.make_tool proto_endpoint])
       !! "__proto__"
     = None
  /\ Catalog.byCategory (Catalog.getEndpointStatistics [Parser.make_tool proto_endpoint])
       !! "objects"
     = Some (Catalog.Count 1)
  /\ Catalog.categories (Catalog.getEndpointStatistics [Parser.make_tool proto_endpoint])
     = ["__proto__"; "constructor"; "objects"].
Proof. repeat split; vm_compute; reflexivity. Qed.

(** The tools whose path, in lower case, has [word] in it. *)
Lemma path_counter_fold (tools : list Parser.ParsedOperation) (acc : Catalog.EndpointStatistics) :
  let stats := fold_left Catalog.tally tools acc in
  let hits word :=
    List.length
      (List.filter
         (fun t => includes (toLowerCase (Parser.path (Parser.endpoint t))) word) tools) in
  Catalog.withKitItems stats = (Catalog.withKitItems acc + hits "kititem")%nat
  /\ Catalog.withOrders stats = (Catalog.withOrders acc + hits "order")%nat
  /\ Catalog.withProducts stats = (Catalog.withProducts acc + hits "product")%nat
  /\ Catalog.relationships stats = (Catalog.relationships acc + hits "relationship")%nat.
Proof.
  cbv zeta. revert acc. induction tools as [|t tools IH]; intros acc.
  - simpl. repeat split; lia.
  - cbn [fold_left List.filter].
    destruct (IH (Catalog.tally acc t)) as (H1 & H2 & H3 & H4).
    rewrite H1, H2, H3, H4.
    cbn [Catalog.tally Catalog.withKitItems Catalog.withOrders Catalog.withProducts
         Catalog.relationships].
    unfold Catalog.count_if.
    repeat split;
      match goal with
      | |- context [includes ?p ?w] => destruct (includes p w); simpl; lia
      end.
Qed.

(** The path counters: each is the number of tools whose path, in lower case,
    has the word in it, so none exceeds [totalEndpoints]. *)
Theorem statistics_path_counters (tools : list Parser.ParsedOperation) :
  let stats := Catalog.getEndpointStatistics tools in
  let hits word :=
    List.length
      (List.filter
         (fun t => includes (toLowerCase (Parser.path (Parser.endpoint t))) word) tools) in
  Catalog.withKitItems stats = hits "kititem"
  /\ Catalog.withOrders stats = hits "order"
  /\ Catalog.withProducts stats = hits "product"
  /\ Catalog.relationships stats = hits "relationship"
  /\ (Catalog.withKitItems stats <= Catalog.totalEndpoints stats)%nat
  /\ (Catalog.withOrders stats <= Catalog.totalEndpoints stats)%nat
  /\ (Catalog.withProducts stats <= Catalog.totalEndpoints stats)%nat
  /\ (Catalog.relationships stats <= Catalog.totalEndpoints stats)%nat.
Proof.
  cbv zeta. unfold Catalog.getEndpointStatistics.
  set (init := {| Catalog.totalEndpoints := _ |}).
  destruct (path_counter_fold tools init) as (P1 & P2 & P3 & P4).
  destruct (tally_fold tools init)
    as (H1 & _ & _ & _ & _ & _ & _ & _ & _ & H8 & H9 & H10 & H11).
  cbv zeta in *. subst init. cbn [Catalog.totalEndpoints Catalog.withKitItems
    Catalog.withOrders Catalog.withProducts Catalog.relationships] in *.
  rewrite H1. simpl in *. repeat split; assumption.
Qed.

(** ** Properties of the argument validation *)

Lemma check_required_object (fields : list (string * value)) (names : list string) :
  owns "hasOwnProperty" fields = false ->
  exists missing,
    Validation.check_required (VObj fields) names = Returns missing
    /\ (missing = [] <-> forall n, In n names -> In n (List.map fst fields)).
Proof.
  intros Hown. induction names as [|n names (missing & IH1 & IH2)]; simpl.
  - exists []. split; [reflexivity|]. split; [intros _ n []|reflexivity].
  - rewrite Hown, IH1. cbn [bind]. unfold owns.
    destruct (existsb (String.eqb n) (List.map fst fields)) eqn:E.
    + exists missing. split; [reflexivity|]. rewrite IH2. split.
      * intros H x [<-|Hx]; [|now apply H].
        apply existsb_exists in E as (y & Hy & Hxy). apply String.eqb_eq in Hxy. now subst.
      * intros H x Hx. apply H. now right.
    + eexists. split; [reflexivity|]. split; [discriminate|].
      intros H. exfalso.
      assert (existsb (String.eqb n) (List.map fst fields) = true); [|congruence].
      apply existsb_exists. exists n. split; [apply H; now left|apply String.eqb_refl].
Qed.







(** Arguments with a field named [hasOwnProperty] make the validation of a
    tool with a required name throw. *)
Lemma validateToolArguments_throws :
  Validation.validateToolArguments catalog "getorder"
    (VObj [("id", VStr "7"); ("hasOwnProperty", VBool true)])
  = Throws TypeError.
Proof. reflexivity. Qed.

(** A field whose property declares a type that [typeof] never yields, such
    as [array], is rejected whatever its value, when the arguments are an
    object without a field named [hasOwnProperty]. *)
Theorem validateToolArguments_untypeable
    (tools : list Parser.ParsedOperation) (name : string) (tool : Parser.ParsedOperation)
    (fields : list (string * value)) (k : string) (v : value) (p : Parser.PropertySchema) :
  Dynamic.find_tool tools name = Some tool ->
  owns "hasOwnProperty" fields = false ->
  In (k, v) fields ->
  Parser.property (Parser.properties (Parser.inputSchema tool)) k = Some p ->
  ~ In (Parser.prop_type p)
       [""; "string"; "number"; "integer"; "boolean"; "object"; "undefined"] ->
  exists r,
    Validation.validateToolArguments tools name (VObj fields) = Returns r
    /\ Validation.valid r = false
    /\ In ("Field '" +:+ k +:+ "' should be " +:+ Parser.prop_type p
           +:+ ", got " +:+ Builtins.typeof v)
          (Validation.errors r).
Proof.
  intros Hfind Hown Hin Hp Hty.
  assert (Hne : Parser.prop_type p <> "") by (intros E; apply Hty; rewrite E; now left).
  assert (Hint : Parser.prop_type p <> "integer").
  { intros E. apply Hty. rewrite E. simpl. auto. }
  assert (Hexp : Validation.expected_type (Parser.prop_type p) = Parser.prop_type p).
  { unfold Validation.expected_type.
    now destruct (String.eqb_spec (Parser.prop_type p) "integer"). }
  assert (Hdiff : Builtins.typeof v <> Parser.prop_type p).
  { intros E. apply Hty. rewrite <- E. destruct v; simpl; auto 8. }
  assert (Herr : In ("Field '" +:+ k +:+ "' should be " +:+ Parser.prop_type p
                     +:+ ", got " +:+ Builtins.typeof v)
                    (Validation.check_types (Parser.properties (Parser.inputSchema tool))
                       (VObj fields))).
  { unfold Validation.check_types. cbn [truthy Builtins.entries].
    apply in_flat_map. exists (k, v). split; [exact Hin|].
    unfold Validation.check_field. cbn [fst snd]. rewrite Hp, Hexp.
    destruct (String.eqb_spec (Parser.prop_type p) ""); [contradiction|].
    destruct (String.eqb_spec (Builtins.typeof v) (Parser.prop_type p)); [contradiction|].
    now left. }
  unfold Validation.validateToolArguments. rewrite Hfind.
  destruct (Parser.required (Parser.inputSchema tool)) as [names|].
  - destruct (check_required_object fields names Hown) as (missing & -> & _).
    cbn [bind]. eexists. split; [reflexivity|]. split.
    + unfold Validation.verdict. cbn [Validation.valid].
      destruct (missing ++ _)%list eqn:E; [|reflexivity].
      apply app_eq_nil in E as [_ E]. rewrite E in Herr. destruct Herr.
    + cbn [Validation.verdict Validation.errors]. apply in_or_app. now right.
  - cbn [bind]. eexists. split; [reflexivity|]. split.
    + unfold Validation.verdict. cbn [Validation.valid app].
      destruct (Validation.check_types _ _) eqn:E; [destruct Herr|reflexivity].
    + exact Herr.
Qed.

Lemma validateToolArguments_untypeable_witness :
  exists r,
    Validation.validateToolArguments catalog "getorder"
      (VObj [("id", VStr "7"); ("fields", VArr [VStr "id"])]) = Returns r
    /\ Validation.valid r = false
    /\ In "Field 'fields' should be array, got object" (Validation.errors r).
Proof.
  apply (validateToolArguments_untypeable catalog "getorder"
           (Parser.make_tool orders_endpoint)
           [("id", VStr "7"); ("fields", VArr [VStr "id"])]
           "fields" (VArr [VStr "id"])
           {| Parser.prop_type := "array"; Parser.prop_description := "fields parameter" |}).
  - reflexivity.
  - reflexivity.
  - right. left. reflexivity.
  - vm_compute. reflexivity.
  - vm_compute. intuition discriminate.
Defined.

(** Without arguments ([undefined] or [null]) validation throws a TypeError
    when the schema has a required name, and accepts when it has none. *)
Theorem validateToolArguments_no_arguments
    (tools : list Parser.ParsedOperation) (name : string) (tool : Parser.ParsedOperation)
    (args : value) :
  Dynamic.find_tool tools name = Some tool ->
  args = VUndefined \/ args = VNull ->
  Validation.validateToolArguments tools name args
  = match Parser.required (Parser.inputSchema tool) with
    | Some (_ :: _) => Throws TypeError
    | _ => Returns {| Validation.valid := true; Validation.errors := [] |}
    end.
Proof.
  intros Hfind Hargs. unfold Validation.validateToolArguments. rewrite Hfind.
  destruct (Parser.required (Parser.inputSchema tool)) as [[|n names]|];
    destruct Hargs as [-> | ->]; reflexivity.
Qed.

Lemma validateToolArguments_no_arguments_witness :
  Validation.validateToolArguments catalog "getorder" VUndefined = Throws TypeError.
Proof.
  apply (validateToolArguments_no_arguments catalog "getorder"
           (Parser.make_tool orders_endpoint) VUndefined).
  - reflexivity.
  - now left.
Defined.

(** ** Further properties of the input schema *)

Lemma fold_add_parameter_spec (ps : list Parser.SwaggerParameter)
    (acc : Parser.Properties * list string) :
  snd (fold_left Parser.add_parameter ps acc)
  = (snd acc ++ List.map Parser.sp_name (List.filter Parser.sp_required ps))%list
  /\ (forall n,
        is_Some (Parser.own (fst (fold_left Parser.add_parameter ps acc)) !! n)
        <-> is_Some (Parser.own (fst acc) !! n)
            \/ (n <> "__proto__" /\ exists p, In p ps /\ Parser.sp_name p = n))
  /\ (is_Some (Parser.prototype (fst (fold_left Parser.add_parameter ps acc)))
      <-> is_Some (Parser.prototype (fst acc))
          \/ exists p, In p ps /\ Parser.sp_name p = "__proto__").
Proof.
  revert acc. induction ps as [|p ps IH]; intros [props req]; cbn [fold_left].
  - split; [now rewrite app_nil_r|]. split.
    + intros n. split; [auto|]. intros [H|(_ & p & [] & _)]. exact H.
    + split; [auto|]. intros [H|(p & [] & _)]. exact H.
  - destruct (IH (Parser.add_parameter (props, req) p)) as (IH1 & IH2 & IH3).
    unfold Parser.add_parameter in IH1, IH2, IH3 |- *. cbn [fst snd] in *.
    split; [|split].
    + rewrite IH1. cbn [List.filter].
      destruct (Parser.sp_required p); cbn [List.map]; [|reflexivity].
      now rewrite <- app_assoc.
    + intros n. rewrite IH2, assign_lookup.
      destruct (String.eqb_spec (Parser.sp_name p) "__proto__") as [Ep|Ep]; cbn [negb andb].
      * split.
        -- intros [H|(Hn & q & Hq & E)]; [now left|].
           right. split; [exact Hn|]. exists q. split; [now right|exact E].
        -- intros [H|(Hn & q & [<-|Hq] & E)]; [now left|congruence|].
           right. split; [exact Hn|]. exists q. auto.
      * destruct (String.eqb_spec (Parser.sp_name p) n) as [En|En].
        -- split; [|intros _; left; eauto].
           intros _. right. split; [congruence|]. exists p. split; [now left|exact En].
        -- split.
           ++ intros [H|(Hn & q & Hq & E)]; [now left|].
              right. split; [exact Hn|]. exists q. split; [now right|exact E].
           ++ intros [H|(Hn & q & [<-|Hq] & E)]; [now left|contradiction|].
              right. split; [exact Hn|]. exists q. auto.
    + rewrite IH3, assign_prototype.
      destruct (String.eqb_spec (Parser.sp_name p) "__proto__") as [Ep|Ep].
      * split; [|intros _; left; eauto].
        intros _. right. exists p. split; [now left|exact Ep].
      * split.
        -- intros [H|(q & Hq & E)]; [now left|]. right. exists q. split; [now right|exact E].
        -- intros [H|(q & [<-|Hq] & E)]; [now left|contradiction|]. right. exists q. auto.
Qed.

(** The keys of [properties] are the names of the path and query parameters
    other than [__proto__], with [requestBody] when the body is required:
    header and cookie parameters never get a property, and a path or query
    parameter named [__proto__] replaces the prototype of [properties]
    instead.  The required list holds the required path parameters, then the
    required query parameters, then [requestBody], in the order of the
    endpoint. *)
Theorem generateInputSchema_spec (e : Parser.SwaggerEndpoint) :
  let schema := Parser.generateInputSchema e in
  let body_required :=
    match Parser.requestBody e with
    | Some b => Parser.srb_required b
    | None => false
    end in
  (forall n,
     is_Some (Parser.own (Parser.properties schema) !! n) <->
     n <> "__proto__"
     /\ ((exists p, In p (Parser.parameters e) /\ Parser.sp_name p = n
                    /\ (Parser.sp_in p = "path" \/ Parser.sp_in p = "query"))
         \/ (n = "requestBody" /\ body_required = true)))
  /\ (is_Some (Parser.prototype (Parser.properties schema)) <->
      exists p, In p (Parser.parameters e) /\ Parser.sp_name p = "__proto__"
                /\ (Parser.sp_in p = "path" \/ Parser.sp_in p = "query"))
  /\ default [] (Parser.required schema)
     = (List.map Parser.sp_name
          (List.filter Parser.sp_required
             (List.filter (Parser.param_in "path") (Parser.parameters e)))
        ++ List.map Parser.sp_name
             (List.filter Parser.sp_required
                (List.filter (Parser.param_in "query") (Parser.parameters e)))
        ++ (if body_required then ["requestBody"] else []))%list.
Proof.
  cbv zeta. unfold Parser.generateInputSchema.
  set (path_ps := List.filter (Parser.param_in "path") (Parser.parameters e)).
  set (query_ps := List.filter (Parser.param_in "query") (Parser.parameters e)).
  destruct (fold_add_parameter_spec path_ps (Parser.no_properties, [])) as (P1 & P2 & P3).
  destruct (fold_add_parameter_spec query_ps
              (fold_left Parser.add_parameter path_ps (Parser.no_properties, [])))
    as (Q1 & Q2 & Q3).
  set (acc := fold_left Parser.add_parameter query_ps _) in *.
  assert (Hin : forall n, (exists p, In p path_ps /\ Parser.sp_name p = n)
                          \/ (exists p, In p query_ps /\ Parser.sp_name p = n)
                          <-> exists p, In p (Parser.parameters e) /\ Parser.sp_name p = n
                                /\ (Parser.sp_in p = "path" \/ Parser.sp_in p = "query")).
  { intros n. split.
    - intros [(p & Hp & E)|(p & Hp & E)];
        apply filter_In in Hp as [Hp Hi]; apply String.eqb_eq in Hi; exists p; auto.
    - intros (p & Hp & E & [Hi|Hi]); [left|right]; exists p; (split; [|exact E]);
        apply filter_In; (split; [exact Hp|]); unfold Parser.param_in; now rewrite Hi. }
  assert (Hdom : forall n, is_Some (Parser.own (fst acc) !! n) <->
            n <> "__proto__"
            /\ exists p, In p (Parser.parameters e) /\ Parser.sp_name p = n
                         /\ (Parser.sp_in p = "path" \/ Parser.sp_in p = "query")).
  { intros n. rewrite Q2, P2, <- Hin. cbn [fst Parser.no_properties Parser.own].
    rewrite lookup_empty. split.
    - intros [[[x Hx]|[Hn H]]|[Hn H]]; [discriminate|auto|auto].
    - intros [Hn [H|H]]; [left; right; auto|right; auto]. }
  assert (Hproto : is_Some (Parser.prototype (fst acc)) <->
            exists p, In p (Parser.parameters e) /\ Parser.sp_name p = "__proto__"
                      /\ (Parser.sp_in p = "path" \/ Parser.sp_in p = "query")).
  { rewrite Q3, P3, <- Hin. cbn [fst Parser.no_properties Parser.prototype]. split.
    - intros [[[x Hx]|H]|H]; [discriminate|auto|auto].
    - intros [H|H]; [left; right; exact H|right; exact H]. }
  assert (Hreq : snd acc
                 = (List.map Parser.sp_name (List.filter Parser.sp_required path_ps)
                    ++ List.map Parser.sp_name (List.filter Parser.sp_required query_ps))%list).
  { rewrite Q1, P1. reflexivity. }
  destruct acc as [props req]. cbn [fst snd] in Hdom, Hproto, Hreq.
  unfold Parser.add_request_body.
  assert (Hout : forall l : list string,
            default [] (if (0 <? List.length l)%nat then Some l else None) = l).
  { intros [|x l]; reflexivity. }
  destruct (Parser.requestBody e) as [b|]; [destruct (Parser.srb_required b)|];
    cbn [Parser.properties Parser.required]; rewrite Hout;
    (split; [|split; [|]]).
  - intros n. rewrite assign_lookup.
    change (String.eqb "requestBody" "__proto__") with false. cbn [negb andb].
    destruct (String.eqb_spec "requestBody" n) as [<-|Hne].
    + split; [|eauto]. intros _. split; [discriminate|]. right. auto.
    + rewrite Hdom. split; [intros [Hn H]; auto|].
      intros [Hn [H|[-> _]]]; [auto|contradiction].
  - now rewrite assign_prototype.
  - now rewrite Hreq, <- app_assoc.
  - intros n. rewrite Hdom. split; [intros [Hn H]; auto|].
    intros [Hn [H|[_ H]]]; [auto|discriminate].
  - exact Hproto.
  - now rewrite Hreq, app_nil_r.
  - intros n. rewrite Hdom. split; [intros [Hn H]; auto|].
    intros [Hn [H|[_ H]]]; [auto|discriminate].
  - exact Hproto.
  - now rewrite Hreq, app_nil_r.
Qed.

Lemma convertSwaggerType_nonempty (schema : option Parser.SchemaObject) :
  Parser.convertSwaggerTypeToJsonSchema schema <> "".
Proof.
  unfold Parser.convertSwaggerTypeToJsonSchema. destruct schema as [sc|]; [|discriminate].
  destruct (String.eqb_spec (Parser.str_or (Parser.schema_type sc) "") "") as [E|E];
    cbn [negb]; [|exact E].
  destruct (_ || _); discriminate.
Qed.

Lemma str_or_nonempty (x : option string) (d : string) : d <> "" -> Parser.str_or x d <> "".
Proof.
  intros Hd. unfold Parser.str_or. destruct x as [s|]; [|exact Hd].
  now destruct (String.eqb_spec s "").
Qed.

Lemma assign_described (name : string) (schema : Parser.PropertySchema)
    (props : Parser.Properties) :
  Parser.prop_type schema <> "" /\ Parser.prop_description schema <> "" ->
  described props -> described (Parser.assign name schema props).
Proof.
  intros Hs H n p. rewrite assign_lookup, assign_prototype.
  destruct (String.eqb_spec name "__proto__") as [Ep|Ep]; cbn [negb andb].
  - intros [Hn|[= <-]]; [|exact Hs]. apply (H n p). now left.
  - destruct (String.eqb_spec name n) as [En|En].
    + intros [[= <-]|Hn]; [exact Hs|]. apply (H n p). now right.
    + apply H.
Qed.

Lemma fold_add_parameter_described (ps : list Parser.SwaggerParameter)
    (acc : Parser.Properties * list string) :
  described (fst acc) -> described (fst (fold_left Parser.add_parameter ps acc)).
Proof.
  revert acc. induction ps as [|q ps IH]; intros [props req] H; cbn [fold_left]; [exact H|].
  apply IH. unfold Parser.add_parameter. cbn [fst]. apply assign_described; [|exact H].
  cbn. split.
  - apply convertSwaggerType_nonempty.
  - apply str_or_nonempty, append_nonempty_r. discriminate.
Qed.

(** Every property of a generated schema has a type and a description, so the
    type check of [validateToolArguments] looks at every argument that has a
    property; the same holds of a schema that has become the prototype of the
    properties. *)
Theorem generateInputSchema_described (e : Parser.SwaggerEndpoint) (n : string)
    (p : Parser.PropertySchema) :
  Parser.own (Parser.properties (Parser.generateInputSchema e)) !! n = Some p
  \/ Parser.prototype (Parser.properties (Parser.generateInputSchema e)) = Some p ->
  Parser.prop_type p <> "" /\ Parser.prop_description p <> "".
Proof.
  revert n p. change (described (Parser.properties (Parser.generateInputSchema e))).
  unfold Parser.generateInputSchema.
  set (acc := fold_left Parser.add_parameter _ (fold_left Parser.add_parameter _ _)).
  assert (Hacc : described (fst acc)).
  { subst acc. do 2 apply fold_add_parameter_described. intros k q [H|H].
    - cbn in H. rewrite lookup_empty in H. discriminate.
    - discriminate. }
  destruct acc as [props req]. cbn [fst] in Hacc. unfold Parser.add_request_body.
  destruct (Parser.requestBody e) as [b|]; [destruct (Parser.srb_required b)|];
    cbn [Parser.properties]; try exact Hacc.
  apply assign_described; [|exact Hacc]. cbn. split; [discriminate|].
  apply str_or_nonempty. discriminate.
Qed.

Lemma generateInputSchema_described_witness :
  Parser.prop_type
    {| Parser.prop_type := "array"; Parser.prop_description := "fields parameter" |} <> ""
  /\ Parser.prop_description
       {| Parser.prop_type := "array"; Parser.prop_description := "fields parameter" |} <> "".
Proof.
  apply (generateInputSchema_described orders_endpoint "fields").
  left. vm_compute. reflexivity.
Defined.

(** ** Properties of the endpoint filters *)

Lemma map_endpoint_tools (es : list Parser.SwaggerEndpoint) :
  List.map Parser.endpoint (Parser.generateMCPTools es)
  = List.filter (fun e => negb (Parser.shouldSkipEndpoint e)) es.
Proof.
  induction es as [|e es IH]; [reflexivity|]. simpl.
  destruct (Parser.shouldSkipEndpoint e); simpl; now rewrite IH.
Qed.

(** The tools are made of the endpoints that are not skipped, one tool each
    and in their order, and every tool name has the snake shape: lower-case
    letters, digits and single underscores, none at either end. *)
Theorem generateMCPTools_endpoints (es : list Parser.SwaggerEndpoint) :
  Parser.generateMCPTools es
  = List.map Parser.make_tool
      (List.filter (fun e => negb (Parser.shouldSkipEndpoint e)) es)
  /\ List.map Parser.endpoint (Parser.generateMCPTools es)
     = List.filter (fun e => negb (Parser.shouldSkipEndpoint e)) es
  /\ Forall (fun tool => snake (Parser.toolName tool) = true) (Parser.generateMCPTools es).
Proof.
  split; [|split; [apply map_endpoint_tools|]].
  - induction es as [|e es IH]; [reflexivity|]. simpl.
    destruct (Parser.shouldSkipEndpoint e); simpl; now rewrite IH.
  - induction es as [|e es IH]; simpl; [constructor|].
    destruct (Parser.shouldSkipEndpoint e); [exact IH|].
    constructor; [apply normalize_snake|exact IH].
Qed.

Lemma firstn_In {A : Type} (n : nat) (l : list A) (x : A) : In x (firstn n l) -> In x l.
Proof.
  revert l. induction n as [|n IH]; intros [|a l]; simpl; try tauto.
  intros [H|H]; [now left|right; now apply IH].
Qed.

(** The popular endpoints are at most fifty endpoints of the document, all
    with method GET and a popular tag or a popular word in the path, and
    [generateMCPTools] makes a tool of each of them. *)
Theorem getPopularEndpoints_spec (doc : Parser.Document) :
  (List.length (Queries.getPopularEndpoints doc) <= 50)%nat
  /\ (forall e, In e (Queries.getPopularEndpoints doc) ->
                In e (Parser.getAllEndpoints doc)
                /\ Parser.method e = "GET"
                /\ Queries.popular e = true)
  /\ List.map Parser.endpoint (Parser.generateMCPTools (Queries.getPopularEndpoints doc))
     = Queries.getPopularEndpoints doc.
Proof.
  assert (H : forall e, In e (Queries.getPopularEndpoints doc) ->
                In e (Parser.getAllEndpoints doc)
                /\ Parser.method e = "GET" /\ Queries.popular e = true).
  { intros e He. unfold Queries.getPopularEndpoints in He. apply firstn_In in He.
    apply filter_In in He as [He Hp]. unfold Queries.getReadOnlyEndpoints in He.
    apply filter_In in He as [He Hm]. apply String.eqb_eq in Hm. auto. }
  split; [|split; [exact H|]].
  - unfold Queries.getPopularEndpoints. apply firstn_le_length.
  - rewrite map_endpoint_tools. apply filter_all.
    intros e He. apply H in He as (_ & Hm & _).
    unfold Parser.shouldSkipEndpoint. now rewrite Hm.
Qed.

Lemma filter_generateMCPTools (f : Parser.SwaggerEndpoint -> bool)
    (es : list Parser.SwaggerEndpoint) :
  List.filter (fun tool => f (Parser.endpoint tool)) (Parser.generateMCPTools es)
  = Parser.generateMCPTools (List.filter f es).
Proof.
  induction es as [|e es IH]; [reflexivity|]. simpl.
  destruct (Parser.shouldSkipEndpoint e) eqn:Hs; destruct (f e) eqn:Hf; simpl;
    rewrite ?Hs, ?Hf; simpl; now rewrite IH.
Qed.

(** The tools of a category are the tools of the endpoints with that tag:
    selecting before or after the tools are made gives the same list. *)
Theorem getToolsByCategory_getEndpointsByTags (doc : Parser.Document) (category : string) :
  Catalog.getToolsByCategory (Parser.generateMCPTools (Parser.getAllEndpoints doc)) category
  = Parser.generateMCPTools (Queries.getEndpointsByTags doc [category]).
Proof.
  unfold Catalog.getToolsByCategory, Queries.getEndpointsByTags.
  rewrite <- filter_generateMCPTools. apply filter_ext. intros tool.
  unfold Queries.some_tag_in.
  induction (Parser.tags (Parser.endpoint tool)) as [|t ts IH]; [reflexivity|].
  simpl. rewrite IH, orb_false_r, String.eqb_sym. reflexivity.
Qed.

(** ** Further properties of the dispatcher *)

(** What [executeTool] does.  For a name no tool has it returns a failure
    that lists the names of the tools, with an empty endpoint echo and no
    status.  For a name a tool has, it reports success exactly when the
    transport returned for the endpoint of that tool, and a failure when the
    transport threw a value that the [catch] block of [executeEndpoint] can
    report; for any other thrown value it throws a TypeError. *)
Theorem executeTool_outcome (request : Dynamic.Transport)
    (tools : list Parser.ParsedOperation) (name : string)
    (args : Dynamic.DynamicRequestOptions) :
  match Dynamic.find_tool tools name with
  | Some tool =>
      Parser.toolName tool = name
      /\ match request (Dynamic.build_config (Parser.endpoint tool) args) with
         | Returns response =>
             Dynamic.executeTool request tools name args
             = Returns {| Dynamic.success := true;
                          Dynamic.data := Dynamic.resp_data response;
                          Dynamic.error := None;
                          Dynamic.statusCode := Some (Dynamic.resp_status response);
                          Dynamic.endpoint := Dynamic.echo (Parser.endpoint tool) |}
         | Throws error =>
             if reportable error then
               exists r : Dynamic.DynamicResponse,
                 Dynamic.executeTool request tools name args = Returns r
                 /\ Dynamic.success r = false
                 /\ Dynamic.endpoint r = Dynamic.echo (Parser.endpoint tool)
             else Dynamic.executeTool request tools name args = Throws TypeError
         end
  | None =>
      Dynamic.executeTool request tools name args
      = Returns {| Dynamic.success := false;
                   Dynamic.data := VUndefined;
                   Dynamic.error :=
                     Some ("Tool '" +:+ name +:+ "' not found. Available tools: "
                           +:+ join ", " (List.map Parser.toolName tools));
                   Dynamic.statusCode := None;
                   Dynamic.endpoint :=
                     {| Dynamic.echo_path := ""; Dynamic.echo_method := "";
                        Dynamic.echo_operationId := "" |} |}
  end.
Proof.
  unfold Dynamic.executeTool.
  destruct (Dynamic.find_tool tools name) as [tool|] eqn:Hf; [|reflexivity].
  unfold Dynamic.find_tool in Hf. apply find_some in Hf as [_ Hn].
  apply String.eqb_eq in Hn. split; [exact Hn|].
  unfold Dynamic.executeEndpoint.
  destruct (request _) as [response|[|err]];
    cbn [try_catch Dynamic.failure_of reportable]; try reflexivity.
  destruct (printable (Dynamic.errorMessage err)) eqn:Hp.
  - rewrite (to_str_printable _ Hp). cbn [bind]. eexists. repeat split.
  - now rewrite (to_str_throws _ Hp).
Qed.

(** A request body has no part in the call when the method of the endpoint is
    not POST, PUT or PATCH, or when the body is falsy ([null], [false], [0] or
    the empty string): the call goes as it does without a body. *)
Theorem executeEndpoint_body_ignored (request : Dynamic.Transport)
    (e : Parser.SwaggerEndpoint) (options : Dynamic.DynamicRequestOptions) :
  existsb (String.eqb (Parser.method e)) ["POST"; "PUT"; "PATCH"] = false
  \/ truthy (Dynamic.requestBody options) = false ->
  Dynamic.cfg_data (Dynamic.build_config e options) = None
  /\ Dynamic.executeEndpoint request e options
     = Dynamic.executeEndpoint request e
         {| Dynamic.pathParams := Dynamic.pathParams options;
            Dynamic.queryParams := Dynamic.queryParams options;
            Dynamic.requestBody := VUndefined;
            Dynamic.headers := Dynamic.headers options |}.
Proof.
  intros H.
  assert (Hd : Dynamic.cfg_data (Dynamic.build_config e options) = None).
  { unfold Dynamic.build_config. cbn [Dynamic.cfg_data].
    destruct H as [H|H]; rewrite H; [now rewrite andb_false_r|reflexivity]. }
  split; [exact Hd|].
  unfold Dynamic.executeEndpoint.
  replace (Dynamic.build_config e
             {| Dynamic.pathParams := Dynamic.pathParams options;
                Dynamic.queryParams := Dynamic.queryParams options;
                Dynamic.requestBody := VUndefined;
                Dynamic.headers := Dynamic.headers options |})
    with (Dynamic.build_config e options); [reflexivity|].
  unfold Dynamic.build_config in *. cbn [Dynamic.cfg_data] in Hd. rewrite Hd. reflexivity.
Qed.

Lemma executeEndpoint_body_ignored_witness :
  Dynamic.cfg_data
    (Dynamic.build_config (sample_endpoint "/orders/{id}" "DELETE" "deleteOrder")
       {| Dynamic.pathParams := Some [("id", Dynamic.PathNum (integer 7))];
          Dynamic.queryParams := None;
          Dynamic.requestBody := VObj [("force", VBool true)];
          Dynamic.headers := None |})
  = None.
Proof.
  apply (executeEndpoint_body_ignored ok_transport
           (sample_endpoint "/orders/{id}" "DELETE" "deleteOrder")).
  left. reflexivity.
Defined.

(** ** Further properties of the response formatter *)

Lemma traverse_throws {A B : Type} (f : A -> completion RuntimeError B) (xs : list A)
    (x : A) :
  In x xs -> f x = Throws TypeError -> traverse f xs = Throws TypeError.
Proof.
  induction xs as [|y xs IH]; intros Hin Hx; [destruct Hin|].
  cbn [traverse]. destruct Hin as [->|Hin].
  - now rewrite Hx.
  - destruct (f y) as [b|[]]; [|reflexivity]. cbn [bind]. now rewrite (IH Hin Hx).
Qed.

Lemma forallb_false_iff {A : Type} (q : A -> bool) (xs : list A) :
  forallb q xs = false <-> exists x, In x xs /\ q x = false.
Proof.
  induction xs as [|x xs IH]; cbn [forallb In].
  - split; [discriminate|intros (x & [] & _)].
  - rewrite andb_false_iff, IH. split.
    + intros [H|(y & Hy & Hq)]; [exists x|exists y]; auto.
    + intros (y & [->|Hy] & Hq); [now left|right; now exists y].
Qed.

Lemma shown_fields_length (item : value) : (List.length (shown_fields item) <= 3)%nat.
Proof. unfold shown_fields. destruct (preferred_of item); apply firstn_le_length. Qed.

Lemma shown_fields_keys (item : value) (k : string) :
  In k (shown_fields item) -> In k (keys item).
Proof.
  unfold shown_fields. destruct (preferred_of item) as [|f present] eqn:E; intros H.
  - eapply firstn_In, H.
  - apply firstn_In in H. rewrite <- E in H. apply filter_In in H as [_ H].
    apply existsb_exists in H as (y & Hy & Hky). apply String.eqb_eq in Hky. now subst.
Qed.

(** What [formatItem] prints.  A primitive is printed as [String] prints it.
    An object or array that can be shown (it owns no property
    [hasOwnProperty], and the values of the fields that are converted do
    convert to text) is printed as at most three of its own properties,
    [key: value] separated by commas; they are taken from the fixed list
    [id], [name], [title], [sku], [email], [status], in that order, when the
    item has any of these, and are its first three keys otherwise.  For an
    object or array that cannot be shown, [formatItem] throws a TypeError: an
    object with a field named [hasOwnProperty], or an item with a field among
    those converted, shown or not, whose value does not convert to text. *)
Theorem formatItem_spec (item : value) :
  (truthy item = false \/ typeof_object item = false ->
   Dynamic.formatItem item = Returns (text_of item))
  /\ (truthy item = true -> typeof_object item = true -> showable item = true ->
      exists ks : list string,
        (List.length ks <= 3)%nat
        /\ (forall k, In k ks -> In k (keys item))
        /\ Dynamic.formatItem item
           = Returns (join ", " (List.map (fun k => k +:+ ": " +:+ text_of (get k item)) ks))
        /\ ((exists f, In f ["id"; "name"; "title"; "sku"; "email"; "status"]
                       /\ In f (keys item))
            -> ks = firstn 3 (List.filter (fun f => existsb (String.eqb f) (keys item))
                                ["id"; "name"; "title"; "sku"; "email"; "status"]))
        /\ ((forall f, In f ["id"; "name"; "title"; "sku"; "email"; "status"]
                       -> ~ In f (keys item))
            -> ks = firstn 3 (keys item)))
  /\ (truthy item = true -> typeof_object item = true -> showable item = false ->
      Dynamic.formatItem item = Throws TypeError)
  /\ (showable item = false <->
      truthy item = true /\ typeof_object item = true
      /\ ((exists fields, item = VObj fields /\ owns "hasOwnProperty" fields = true)
          \/ exists k,
               printable (get k item) = false
               /\ (In k (List.filter (fun f => existsb (String.eqb f) (keys item))
                           ["id"; "name"; "title"; "sku"; "email"; "status"])
                   \/ (List.filter (fun f => existsb (String.eqb f) (keys item))
                         ["id"; "name"; "title"; "sku"; "email"; "status"] = []
                       /\ In k (firstn 3 (keys item)))))).
Proof.
  split; [|split; [|split]].
  - intros H. rewrite formatItem_cases. unfold showable, item_summary.
    now replace (truthy item && typeof_object item) with false
      by (destruct H as [-> | ->]; [reflexivity|now rewrite andb_false_r]).
  - intros Ht Ho Hs. exists (shown_fields item).
    split; [apply shown_fields_length|]. split; [apply shown_fields_keys|]. split.
    + rewrite formatItem_cases, Hs. unfold item_summary. now rewrite Ht, Ho.
    + unfold shown_fields, preferred_of.
      change ["id"; "name"; "title"; "sku"; "email"; "status"] with preferred_fields.
      destruct (List.filter _ preferred_fields) as [|f present] eqn:E; split.
      * intros (f & Hf & Hk). exfalso.
        assert (Hin : In f (List.filter (fun k => existsb (String.eqb k) (keys item))
                              preferred_fields)).
        { apply filter_In. split; [exact Hf|]. apply existsb_exists. exists f.
          split; [exact Hk|apply String.eqb_refl]. }
        rewrite E in Hin. destruct Hin.
      * reflexivity.
      * reflexivity.
      * intros Hnone. exfalso.
        assert (Hin : In f (List.filter (fun k => existsb (String.eqb k) (keys item))
                              preferred_fields)) by (rewrite E; now left).
        apply filter_In in Hin as [Hf Hk]. apply (Hnone f Hf).
        apply existsb_exists in Hk as (y & Hy & Hfy). apply String.eqb_eq in Hfy. now subst.
  - intros _ _ Hs. now rewrite formatItem_cases, Hs.
  - unfold showable, converted_fields, preferred_of.
    change ["id"; "name"; "title"; "sku"; "email"; "status"] with preferred_fields.
    destruct (truthy item) eqn:Ht; cbn [andb];
      [|split; [discriminate|intros [H _]; discriminate]].
    destruct (typeof_object item) eqn:Ho;
      [|split; [discriminate|intros (_ & H & _); discriminate]].
    rewrite andb_false_iff, forallb_false_iff. split.
    + intros [H|(k & Hk & Hp)]; (split; [reflexivity|split; [reflexivity|]]).
      * left. destruct item as [| |b|n|s|xs|fields]; try discriminate.
        exists fields. split; [reflexivity|]. now apply negb_false_iff.
      * right. exists k. split; [exact Hp|].
        destruct (List.filter _ preferred_fields) as [|f present]; [right|left]; auto.
    + intros (_ & _ & [(fields & -> & Hown)|(k & Hp & Hk)]).
      * left. now rewrite Hown.
      * right. exists k. split; [|exact Hp].
        destruct (List.filter _ preferred_fields) as [|f present];
          destruct Hk as [Hk|[E Hk]]; try exact Hk; try destruct Hk; discriminate.
Qed.

(** A record whose fourth key field does not convert is not previewed, though
    only three fields would be shown. *)
Lemma formatItem_fourth_field :
  Dynamic.formatItem
    (VObj [("id", VNum (integer 1)); ("name", VStr "ann"); ("sku", VStr "A-1");
           ("status", VObj [("toString", VNull)])])
  = Throws TypeError.
Proof. reflexivity. Qed.

Lemma string_of_nat_not_data (k : nat) : String.eqb "data" (string_of_nat k) = false.
Proof.
  apply String.eqb_neq. unfold string_of_nat, string_of_Z, NilZero.string_of_int.
  destruct (Z.to_int (Z.of_nat k)) as [d|d]; [|discriminate].
  unfold NilZero.string_of_uint. destruct d; simpl; discriminate.
Qed.

Lemma position_data (ks : list nat) : position "data" (List.map string_of_nat ks) = None.
Proof.
  induction ks as [|k ks IH]; [reflexivity|].
  cbn [List.map position]. now rewrite string_of_nat_not_data, IH.
Qed.

(** An array has no [data] property, so a list payload is taken as it is. *)
Lemma array_payload (xs : list value) :
  or_else (get_opt "data" (VArr xs)) (VArr xs) = VArr xs.
Proof.
  unfold or_else, get_opt, get, index_keys. now rewrite position_data.
Qed.

(** The text for a list payload depends on the number of items and on the
    first three items only. *)
Theorem formatResponse_first_three (status : option safe_integer) (ep : Dynamic.EndpointEcho)
    (xs ys : list value) :
  List.length xs = List.length ys ->
  firstn 3 xs = firstn 3 ys ->
  Dynamic.formatResponse (successful (VArr xs) status ep)
  = Dynamic.formatResponse (successful (VArr ys) status ep).
Proof.
  intros Hl Hf. unfold Dynamic.formatResponse, successful.
  cbn [Dynamic.success Dynamic.data negb]. rewrite !array_payload.
  cbn [isArray Dynamic.elements andb negb]. unfold Dynamic.success_header, Dynamic.preview.
  cbn [Dynamic.endpoint Dynamic.statusCode]. now rewrite Hl, Hf.
Qed.

Lemma formatResponse_first_three_witness :
  Dynamic.formatResponse
    (successful (VArr [VNum (integer 1); VNum (integer 2); VNum (integer 3); VNum (integer 4)])
       (Some (integer 200)) (Dynamic.echo twice_endpoint))
  = Dynamic.formatResponse
      (successful (VArr [VNum (integer 1); VNum (integer 2); VNum (integer 3); VStr "last"])
         (Some (integer 200)) (Dynamic.echo twice_endpoint)).
Proof.
  apply (formatResponse_first_three (Some (integer 200)) (Dynamic.echo twice_endpoint)
           [VNum (integer 1); VNum (integer 2); VNum (integer 3); VNum (integer 4)]
           [VNum (integer 1); VNum (integer 2); VNum (integer 3); VStr "last"]);
    reflexivity.
Defined.

(** A payload that is [undefined], [null], [false], [0] or the empty string
    is reported as one item with no data. *)
Theorem formatResponse_falsy_payload (payload : value) (status : option safe_integer)
    (ep : Dynamic.EndpointEcho) :
  truthy payload = false ->
  Dynamic.formatResponse (successful payload status ep)
  = Returns (Dynamic.success_header (successful payload status ep) 1 +:+ "No data returned").
Proof.
  intros H. unfold Dynamic.formatResponse, successful. cbn [Dynamic.success Dynamic.data negb].
  destruct payload as [| |b|n|s|xs|fields]; try discriminate H;
    unfold or_else; cbn [get_opt get truthy]; cbn [truthy] in H; rewrite ?H;
    cbn [isArray negb andb truthy]; rewrite ?H; reflexivity.
Qed.

Lemma formatResponse_falsy_payload_witness :
  Dynamic.formatResponse
    (successful VNull (Some (integer 204)) (Dynamic.echo twice_endpoint))
  = Returns
      (Dynamic.success_header
         (successful VNull (Some (integer 204)) (Dynamic.echo twice_endpoint)) 1
       +:+ "No data returned").
Proof.
  apply (formatResponse_falsy_payload VNull (Some (integer 204))
           (Dynamic.echo twice_endpoint)).
  reflexivity.
Defined.

(** ** Properties of the request interceptor *)

Lemma get_set_header (k v : string) (hs : list (string * string)) :
  Pipeline.get_header k (Pipeline.set_header k v hs) = Some v.
Proof.
  unfold Pipeline.get_header. induction hs as [|[k' v'] hs IH]; simpl.
  - now rewrite String.eqb_refl.
  - destruct (String.eqb k k') eqn:E; simpl; [now rewrite String.eqb_refl|].
    rewrite E. exact IH.
Qed.

Lemma get_set_header_other (k k' v : string) (hs : list (string * string)) :
  k' <> k ->
  Pipeline.get_header k' (Pipeline.set_header k v hs) = Pipeline.get_header k' hs.
Proof.
  intros Hne. unfold Pipeline.get_header. induction hs as [|[k0 v0] hs IH]; simpl.
  - now destruct (String.eqb_spec k' k).
  - destruct (String.eqb_spec k k0) as [<-|E]; simpl.
    + now destruct (String.eqb_spec k' k).
    + destruct (String.eqb k' k0); [reflexivity|exact IH].
Qed.

Section Interceptor.

Variable config : OroClient.OroConfig.
Variable net : OroClient.HttpRequest -> OroClient.HttpResult.
Variables now T : float.
Variable send : Dynamic.Transport.

(** When the client has no usable token and the token request fails, a call
    through [executeEndpoint] ends as a failure envelope with the
    authentication message and no status; the API request is not sent, only
    the one token request, and the token fields stay as they were. *)
Theorem authentication_failure_surfaces (st : OroClient.TokenState)
    (e : Parser.SwaggerEndpoint) (options : Dynamic.DynamicRequestOptions) :
  OroClient.no_token st || OroClient.expired now st = true ->
  OroClient.axios_settle (net (OroClient.token_request config)) = None ->
  Dynamic.executeEndpoint (Pipeline.transport config net now T send st) e options
  = Returns {| Dynamic.success := false;
               Dynamic.data := VUndefined;
               Dynamic.error :=
                 Some "API call failed: Authentication failed with ORO Commerce API";
               Dynamic.statusCode := None;
               Dynamic.endpoint := Dynamic.echo e |}
  /\ Pipeline.client_request config net now T send st (Dynamic.build_config e options)
     = {| Pipeline.outcome := Throws (Pipeline.error_of OroClient.authentication_failed);
          Pipeline.client_state := st;
          Pipeline.token_requests := [OroClient.token_request config] |}.
Proof.
  intros Hinvalid Hnet.
  assert (Hreq : Pipeline.client_request config net now T send st
                   (Dynamic.build_config e options)
                 = {| Pipeline.outcome :=
                        Throws (Pipeline.error_of OroClient.authentication_failed);
                      Pipeline.client_state := st;
                      Pipeline.token_requests := [OroClient.token_request config] |}).
  { unfold Pipeline.client_request, OroClient.ensureValidToken. rewrite Hinvalid.
    now rewrite (refreshToken_rejected config net T st Hnet). }
  split; [|exact Hreq].
  unfold Dynamic.executeEndpoint, Pipeline.transport. rewrite Hreq. reflexivity.
Qed.

Lemma client_request_valid (st : OroClient.TokenState) (tok : string)
    (cfg : Dynamic.RequestConfig) (time : float * float) :
  OroClient.token st = Some tok ->
  tok <> "" ->
  OroClient.expired (fst time) st = false ->
  Pipeline.client_request config net (fst time) (snd time) send st cfg
  = {| Pipeline.outcome := send (Pipeline.authorize st cfg);
       Pipeline.client_state := st;
       Pipeline.token_requests := [] |}.
Proof.
  intros Htok Hne Hexp.
  assert (Hno : OroClient.no_token st = false).
  { unfold OroClient.no_token. rewrite Htok. now destruct (String.eqb_spec tok ""). }
  unfold Pipeline.client_request, OroClient.ensureValidToken. now rewrite Hno, Hexp.
Qed.

(** With a token that is still valid, a request sends no token request, keeps
    the token fields, and goes to the transport with the header
    [Authorization: Bearer <token>], every other header as the caller gave
    it. *)
Theorem valid_token_is_attached (st : OroClient.TokenState) (tok : string)
    (cfg : Dynamic.RequestConfig) :
  OroClient.token st = Some tok ->
  tok <> "" ->
  OroClient.expired now st = false ->
  exists sent_cfg : Dynamic.RequestConfig,
    Pipeline.client_request config net now T send st cfg
    = {| Pipeline.outcome := send sent_cfg;
         Pipeline.client_state := st;
         Pipeline.token_requests := [] |}
    /\ Pipeline.get_header "Authorization" (Dynamic.cfg_headers sent_cfg)
       = Some ("Bearer " +:+ tok)
    /\ (forall k, k <> "Authorization" ->
                  Pipeline.get_header k (Dynamic.cfg_headers sent_cfg)
                  = Pipeline.get_header k (Dynamic.cfg_headers cfg))
    /\ Dynamic.cfg_method sent_cfg = Dynamic.cfg_method cfg
    /\ Dynamic.cfg_url sent_cfg = Dynamic.cfg_url cfg
    /\ Dynamic.cfg_params sent_cfg = Dynamic.cfg_params cfg
    /\ Dynamic.cfg_data sent_cfg = Dynamic.cfg_data cfg.
Proof.
  intros Htok Hne Hexp.
  exists (Pipeline.authorize st cfg). split.
  - exact (client_request_valid st tok cfg (now, T) Htok Hne Hexp).
  - unfold Pipeline.authorize. rewrite Htok.
    destruct (String.eqb_spec tok ""); [contradiction|]. cbn.
    split; [apply get_set_header|]. split; [|auto].
    intros k Hk. now apply get_set_header_other.
Qed.

(** When the token response has no access token, the refresh does not fail,
    and the API request goes to the transport as the caller gave it, without a
    bearer token. *)
Theorem missing_token_sends_unauthenticated (st : OroClient.TokenState)
    (expires_in : option float) (cfg : Dynamic.RequestConfig) :
  OroClient.no_token st || OroClient.expired now st = true ->
  OroClient.axios_settle (net (OroClient.token_request config))
  = Some (OroClient.BodyObject None expires_in) ->
  Pipeline.client_request config net now T send st cfg
  = {| Pipeline.outcome := send cfg;
       Pipeline.client_state :=
         {| OroClient.token := None;
            OroClient.tokenExpiry := Some (OroClient.expiry_of T expires_in) |};
       Pipeline.token_requests := [OroClient.token_request config] |}.
Proof.
  intros Hinvalid Hnet.
  unfold Pipeline.client_request, OroClient.ensureValidToken. rewrite Hinvalid.
  now rewrite (refreshToken_fulfilled config net T st _ _ Hnet).
Qed.

End Interceptor.

Section TestConnection.

Variable config : OroClient.OroConfig.
Variable net : OroClient.HttpRequest -> OroClient.HttpResult.
Variable times : nat -> float * float.
Variable send : Dynamic.Transport.

(** When the client has no usable token and the token request fails,
    [testConnection] answers [false] after that one token request, without
    trying an endpoint. *)
Theorem testConnection_authentication_failure (st : OroClient.TokenState) :
  OroClient.no_token st || OroClient.expired (fst (times 0%nat)) st = true ->
  OroClient.axios_settle (net (OroClient.token_request config)) = None ->
  Pipeline.testConnection config net times send st
  = {| Pipeline.connected := false;
       Pipeline.probe_state := st;
       Pipeline.probe_requests := [OroClient.token_request config] |}.
Proof.
  intros Hinvalid Hnet. unfold Pipeline.testConnection, OroClient.ensureValidToken.
  rewrite Hinvalid, (refreshToken_rejected config net _ st Hnet). reflexivity.
Qed.



End TestConnection.

Lemma authentication_failure_surfaces_witness :
  Dynamic.executeEndpoint
    (Pipeline.transport shop_config unreachable 2000 2000 ok_transport stale_state)
    twice_endpoint id_42
  = Returns {| Dynamic.success := false;
               Dynamic.data := VUndefined;
               Dynamic.error :=
                 Some "API call failed: Authentication failed with ORO Commerce API";
               Dynamic.statusCode := None;
               Dynamic.endpoint := Dynamic.echo twice_endpoint |}.
Proof.
  refine (proj1 (authentication_failure_surfaces shop_config unreachable 2000%float 2000%float
                   ok_transport stale_state twice_endpoint id_42 _ _)); reflexivity.
Defined.

Lemma valid_token_is_attached_witness :
  exists sent_cfg : Dynamic.RequestConfig,
    Pipeline.client_request shop_config unreachable 50 50 ok_transport stale_state
      (Dynamic.build_config twice_endpoint id_42)
    = {| Pipeline.outcome := ok_transport sent_cfg;
         Pipeline.client_state := stale_state;
         Pipeline.token_requests := [] |}
    /\ Pipeline.get_header "Authorization" (Dynamic.cfg_headers sent_cfg)
       = Some "Bearer old-token".
Proof.
  destruct (valid_token_is_attached shop_config unreachable 50%float 50%float ok_transport
              stale_state "old-token" (Dynamic.build_config twice_endpoint id_42))
    as (sent_cfg & H1 & H2 & _); [reflexivity|discriminate|reflexivity|].
  exists sent_cfg. split; [exact H1|exact H2].
Defined.

Lemma missing_token_sends_unauthenticated_witness :
  Pipeline.outcome
    (Pipeline.client_request shop_config (answers (OroClient.BodyObject None None))
       2000 2000 ok_transport stale_state (Dynamic.build_config twice_endpoint id_42))
  = ok_transport (Dynamic.build_config twice_endpoint id_42).
Proof.
  rewrite (missing_token_sends_unauthenticated shop_config
             (answers (OroClient.BodyObject None None)) 2000%float 2000%float ok_transport
             stale_state None (Dynamic.build_config twice_endpoint id_42));
    reflexivity.
Defined.

(** ** Properties of the call handler *)

(** What the handler does with the name of a dynamic tool.  Without a dynamic
    client the call fails as MethodNotFound.  With one, a name no tool has
    fails as InternalError with the list of the tools.  A call the transport
    answers returns the success text, unless [formatResponse] throws on the
    payload, and then the call fails as InternalError with
    [Tool execution failed: ] and the message of the TypeError.  A call the
    transport fails fails as InternalError: with [API call failed: ] and
    the message of the failure when the [catch] block of [executeEndpoint] can
    report it, and else with [Tool execution failed: ] and the message of the
    TypeError that the block throws.  The failure text of [formatResponse] is
    never the reply. *)
Theorem callDynamicTool_spec
    (dynamicClient : option (list Parser.ParsedOperation * Dynamic.Transport))
    (name : string) (args : Dynamic.DynamicRequestOptions) :
  match dynamicClient with
  | None =>
      Server.callDynamicTool dynamicClient name args
      = Throws {| Server.code := Server.MethodNotFound;
                  Server.mcp_message := Server.Text ("Unknown tool: " +:+ name) |}
  | Some (tools, request) =>
      match Dynamic.find_tool tools name with
      | None =>
          Server.callDynamicTool dynamicClient name args
          = Throws {| Server.code := Server.InternalError;
                      Server.mcp_message :=
                        Server.Text
                          ("Tool '" +:+ name +:+ "' not found. Available tools: "
                           +:+ join ", " (List.map Parser.toolName tools)) |}
      | Some tool =>
          match request (Dynamic.build_config (Parser.endpoint tool) args) with
          | Returns response =>
              match
                Dynamic.formatResponse
                  (successful (Dynamic.resp_data response)
                     (Some (Dynamic.resp_status response))
                     (Dynamic.echo (Parser.endpoint tool)))
              with
              | Returns text => Server.callDynamicTool dynamicClient name args = Returns text
              | Throws e =>
                  Server.callDynamicTool dynamicClient name args
                  = Throws {| Server.code := Server.InternalError;
                              Server.mcp_message := Server.ToolExecutionFailed e |}
              end
          | Throws error =>
              if reportable error then
                exists (err : Dynamic.Error) (msg : string),
                  error = Dynamic.RejectError err
                  /\ to_str (Dynamic.errorMessage err) = Returns msg
                  /\ Server.callDynamicTool dynamicClient name args
                     = Throws {| Server.code := Server.InternalError;
                                 Server.mcp_message :=
                                   Server.Text ("API call failed: " +:+ msg) |}
              else
                Server.callDynamicTool dynamicClient name args
                = Throws {| Server.code := Server.InternalError;
                            Server.mcp_message := Server.ToolExecutionFailed TypeError |}
          end
      end
  end.
Proof.
  destruct dynamicClient as [[tools request]|]; [|reflexivity].
  unfold Server.callDynamicTool, Dynamic.executeTool.
  destruct (Dynamic.find_tool tools name) as [tool|].
  - unfold Dynamic.executeEndpoint.
    destruct (request _) as [response|[|err]];
      cbn [try_catch Dynamic.success Dynamic.failure_of reportable].
    + unfold successful. now destruct (Dynamic.formatResponse _).
    + reflexivity.
    + destruct (printable (Dynamic.errorMessage err)) eqn:Hp.
      * exists err, (text_of (Dynamic.errorMessage err)). split; [reflexivity|].
        rewrite (to_str_printable _ Hp). split; reflexivity.
      * now rewrite (to_str_throws _ Hp).
  - cbn [Dynamic.success]. unfold Server.failure_message. cbn [Dynamic.error].
    reflexivity.
Qed.

(** The replies to a call that the upstream fails with a message that does
    not convert, and to a call whose payload has a record with a field named
    [hasOwnProperty]. *)
Lemma callDynamicTool_runtime_errors :
  Server.callDynamicTool (Some (catalog, odd_message_transport)) "getorder" id_42
  = Throws {| Server.code := Server.InternalError;
              Server.mcp_message := Server.ToolExecutionFailed TypeError |}
  /\ Server.callDynamicTool
       (Some (catalog,
              fun _ => Returns {| Dynamic.resp_data := VArr [odd_record];
                                  Dynamic.resp_status := integer 200 |}))
       "getorder" id_42
     = Throws {| Server.code := Server.InternalError;
                 Server.mcp_message := Server.ToolExecutionFailed TypeError |}
  /\ Server.callDynamicTool (Some (catalog, not_found_transport)) "getorder" id_42
     = Throws {| Server.code := Server.InternalError;
                 Server.mcp_message := Server.Text "API call failed: No such order" |}.
Proof. repeat split; reflexivity. Qed.

Lemma testConnection_authentication_failure_witness :
  Pipeline.testConnection shop_config unreachable (fun _ => (2000, 2000)%float) ok_transport
    stale_state
  = {| Pipeline.connected := false;
       Pipeline.probe_state := stale_state;
       Pipeline.probe_requests := [OroClient.token_request shop_config] |}.
Proof.
  apply (testConnection_authentication_failure shop_config unreachable
           (fun _ => (2000, 2000)%float) ok_transport stale_state); reflexivity.
Defined.


(** ** Further properties of the endpoint enumeration *)

Lemma endpoints_of_item_without_parameters (p : string) (item : Parser.PathItemObject) :
  Parser.endpoints_of_item p (without_shared_parameters item)
  = Parser.endpoints_of_item p item.
Proof.
  unfold without_shared_parameters.
  induction item as [|[key f] item IH]; [reflexivity|].
  cbn [List.filter fst Parser.endpoints_of_item].
  destruct (String.eqb key "parameters") eqn:E; cbn [negb].
  - rewrite orb_true_r. exact IH.
  - cbn [Parser.endpoints_of_item]. rewrite E, IH. reflexivity.
Qed.

(** The parameters that a path item shares among its operations have no
    part in the endpoints: the enumeration gives the same endpoints, with the
    same parameter lists, when the [parameters] field of every path item is
    taken away. *)
Theorem getAllEndpoints_ignores_shared_parameters
    (paths : list (string * option Parser.PathItemObject)) :
  Parser.getAllEndpoints
    {| Parser.doc_paths :=
         Some (List.map (fun entry => (fst entry, option_map without_shared_parameters
                                                    (snd entry))) paths) |}
  = Parser.getAllEndpoints {| Parser.doc_paths := Some paths |}.
Proof.
  unfold Parser.getAllEndpoints.
  change (Parser.endpoints_of_paths
            (List.map (fun entry => (fst entry, option_map without_shared_parameters
                                                  (snd entry))) paths)
          = Parser.endpoints_of_paths paths).
  induction paths as [|[p [item|]] paths IH]; [reflexivity| |exact IH].
  cbn [List.map fst snd option_map Parser.endpoints_of_paths].
  now rewrite endpoints_of_item_without_parameters, IH.
Qed.
